(** * Library Management System: a shallow embedding of [app.py]

    The development follows the source file top-down: the Python values the
    program manipulates ([float], [int], [str], exceptions), the [Book]
    class with its methods, the [Library] class with its methods, and then
    the properties of each.

    Conventions.
    - A Python [int] is a [Z]; [len] is [Z.of_nat (length _)].
    - A Python [float] is taken through the interface [PyFloat], whose
      implementation [binary64] is IEEE 754 double precision, what CPython
      computes with, on Rocq's primitive floats.  Every definition is
      written over the interface; what depends on how binary64 rounds is
      proved of [binary64].
    - A Python [str] is a [string]; [str.lower] is a parameter of
      [search_books].
    - [datetime.now().isoformat()] is an explicit argument [now] of the two
      methods that read the clock.
    - A method that mutates [self] returns the new object next to its
      Python result.
    - A [dict] is a [gmap] keyed by strings; a [defaultdict(int)] is a
      [gmap string Z] read with default [0].
    - Objects are passed by value.  [to_dict] puts the history list of the
      book itself into the dictionary and [from_dict] adopts the list of
      the dictionary, but the program serializes a dictionary as soon as it
      is built ([save_books]) and deserializes only dictionaries nothing
      else holds ([load_books]): no alias is ever observed. *)

From Stdlib Require Import ZArith Reals Floats String Ascii List
  Permutation Sorted Lia Lra Psatz Bool.
From stdpp Require Import base option list gmap strings fin_maps.

Open Scope string_scope.
Open Scope Z_scope.
Open Scope list_scope.

(** ** Exceptions *)

(** The exceptions the modelled code can raise. *)
Inductive PyExc : Type :=
| KeyError (key : string)
| TypeError
| ZeroDivisionError
| OverflowError
| ValueError (msg : string).

Inductive result (A : Type) : Type :=
| Ok (a : A)
| Raise (e : PyExc).
Arguments Ok {A} a.
Arguments Raise {A} e.

Definition rbind {A B : Type} (m : result A) (k : A -> result B) : result B :=
  match m with
  | Ok a => k a
  | Raise e => Raise e
  end.

Notation "'let*' x := m 'in' k" := (rbind m (fun x => k))
  (at level 10, x name, m at level 100, k at level 200).

(** What the embedding makes of a dictionary read from the data file.
    Python stores the value found under a key whatever its type; the
    attributes of [Book] have the types of their annotations here.
    [Typed r]: every value read had the type of its attribute, and the
    code returns or raises as [r] says.  [Untyped key]: the value under
    [key] has another type (a JSON integer under ['rating'], say); the
    code goes on with a book that [Book] cannot hold, and the embedding
    says nothing of what follows. *)
Inductive parsed (A : Type) : Type :=
| Typed (r : result A)
| Untyped (key : string).
Arguments Typed {A} r.
Arguments Untyped {A} key.
Coercion Typed : result >-> parsed.

Definition pbind {A B : Type} (m : parsed A) (k : A -> parsed B) : parsed B :=
  match m with
  | Typed (Ok a) => k a
  | Typed (Raise e) => Typed (Raise e)
  | Untyped key => Untyped key
  end.

Notation "'let+' x := m 'in' k" := (pbind m (fun x => k))
  (at level 10, x name, m at level 100, k at level 200).

(** ** Floats *)

(** The operations of Python's [float] that the program uses.  [of_int] is
    the implicit conversion of an [int] operand in mixed arithmetic, and
    [fits] tells whether the conversion succeeds: CPython raises
    [OverflowError] for an [int] too large for a float.  [fnan] recognises
    the values that compare false with everything. *)
Class PyFloat (F : Type) : Type := {
  of_int : Z -> F;
  fits : Z -> bool;
  fadd : F -> F -> F;
  fmul : F -> F -> F;
  fdiv : F -> F -> F;
  fneg : F -> F;
  feq : F -> F -> bool;
  flt : F -> F -> bool;
  fle : F -> F -> bool;
  fnan : F -> bool
}.

(** IEEE 754 binary64.  [of_int] rounds to nearest, ties to even, as
    [PyLong_AsDouble] does, which raises [OverflowError] for the integers
    that round to an infinity: those from [2^1024 - 2^970], halfway
    between the largest double and [2^1024], on. *)
#[export] Instance binary64 : PyFloat float := {
  of_int z := SF2Prim (binary_normalize prec emax z 0 false);
  fits z := Z.abs z <? 2 ^ 1024 - 2 ^ 970;
  fadd := PrimFloat.add;
  fmul := PrimFloat.mul;
  fdiv := PrimFloat.div;
  fneg := PrimFloat.opp;
  feq := PrimFloat.eqb;
  flt := PrimFloat.ltb;
  fle := PrimFloat.leb;
  fnan := PrimFloat.is_nan
}.

(** The conversion of an [int] operand of a float operation. *)
Definition to_float {F : Type} `{PyFloat F} (n : Z) : result F :=
  if fits n then Ok (of_int n) else Raise OverflowError.

(** [a * n] for a float [a] and an int [n]: CPython converts [n]. *)
Definition mul_int {F : Type} `{PyFloat F} (a : F) (n : Z) : result F :=
  let* d := to_float n in Ok (fmul a d).

(** [a / n] for a float [a] and an int [n]: CPython converts [n], then
    raises when it is zero. *)
Definition truediv {F : Type} `{PyFloat F} (a : F) (n : Z) : result F :=
  let* d := to_float n in
  if n =? 0 then Raise ZeroDivisionError else Ok (fdiv a d).

(** ** The [Book] class *)

(** An entry of [borrow_history]: the dictionary with the keys
    ['user_id'], ['borrow_date'] and ['return_date'] that [borrow] appends;
    [None] under ['return_date'] is [None] here. *)
Record BorrowRecord : Type := mkBorrowRecord {
  user_id : string;
  borrow_date : string;
  return_date : option string
}.

Record Book (F : Type) : Type := mkBook {
  title : string;
  author : string;
  genre : string;
  book_id : string;
  is_borrowed : bool;
  borrow_history : list BorrowRecord;
  rating : F;
  num_ratings : Z
}.
Arguments mkBook {F}.
Arguments title {F}.
Arguments author {F}.
Arguments genre {F}.
Arguments book_id {F}.
Arguments is_borrowed {F}.
Arguments borrow_history {F}.
Arguments rating {F}.
Arguments num_ratings {F}.

(** The values a serialized book holds under its keys. *)
Inductive PyVal (F : Type) : Type :=
| PStr (s : string)
| PBool (b : bool)
| PInt (z : Z)
| PFloat (x : F)
| PHistory (h : list BorrowRecord).
Arguments PStr {F}.
Arguments PBool {F}.
Arguments PInt {F}.
Arguments PFloat {F}.
Arguments PHistory {F}.

Section BookClass.
Context {F : Type} `{PyFloat F}.

(** [Book.__init__] *)
Definition new_Book (title author genre book_id : string) : Book F :=
  mkBook title author genre book_id false [] (of_int 0) 0.

(** [Book.add_rating] *)
Definition add_rating (self : Book F) (r : F) : result (Book F) :=
  if fle (of_int 1) r && fle r (of_int 5) then
    let* total := mul_int (rating self) (num_ratings self) in
    let* avg := truediv (fadd total r) (num_ratings self + 1) in
    Ok (mkBook (title self) (author self) (genre self) (book_id self)
               (is_borrowed self) (borrow_history self)
               avg (num_ratings self + 1))
  else Ok self.

(** [Book.borrow] *)
Definition borrow (self : Book F) (user : string) (now : string) : Book F * bool :=
  if negb (is_borrowed self) then
    (mkBook (title self) (author self) (genre self) (book_id self)
            true
            (borrow_history self ++ [mkBorrowRecord user now None])
            (rating self) (num_ratings self),
     true)
  else (self, false).

(** [history[-1]['return_date'] = now] on a non-empty history. *)
Fixpoint set_last_return (now : string) (h : list BorrowRecord) : list BorrowRecord :=
  match h with
  | [] => []
  | [e] => [mkBorrowRecord (user_id e) (borrow_date e) (Some now)]
  | e :: h' => e :: set_last_return now h'
  end.

(** [Book.return_book] *)
Definition return_book (self : Book F) (now : string) : Book F * bool :=
  if is_borrowed self then
    (mkBook (title self) (author self) (genre self) (book_id self)
            false
            (match borrow_history self with
             | [] => []
             | _ :: _ => set_last_return now (borrow_history self)
             end)
            (rating self) (num_ratings self),
     true)
  else (self, false).

(** [Book.to_dict] *)
Definition to_dict (self : Book F) : gmap string (PyVal F) :=
  <["title" := PStr (title self)]>
  (<["author" := PStr (author self)]>
  (<["genre" := PStr (genre self)]>
  (<["book_id" := PStr (book_id self)]>
  (<["is_borrowed" := PBool (is_borrowed self)]>
  (<["borrow_history" := PHistory (borrow_history self)]>
  (<["rating" := PFloat (rating self)]>
  (<["num_ratings" := PInt (num_ratings self)]> ∅))))))).

(** [data[key]] *)
Definition getitem (data : gmap string (PyVal F)) (key : string) : result (PyVal F) :=
  match data !! key with
  | Some v => Ok v
  | None => Raise (KeyError key)
  end.

(** [data.get(key, default)] *)
Definition get (data : gmap string (PyVal F)) (key : string) (default : PyVal F) : PyVal F :=
  match data !! key with
  | Some v => v
  | None => default
  end.

(** The value read under [key], when it has the type the attribute is
    annotated with. *)
Definition as_str (key : string) (v : PyVal F) : parsed string :=
  match v with PStr s => Typed (Ok s) | _ => Untyped key end.
Definition as_bool (key : string) (v : PyVal F) : parsed bool :=
  match v with PBool b => Typed (Ok b) | _ => Untyped key end.
Definition as_history (key : string) (v : PyVal F) : parsed (list BorrowRecord) :=
  match v with PHistory h => Typed (Ok h) | _ => Untyped key end.
Definition as_float (key : string) (v : PyVal F) : parsed F :=
  match v with PFloat x => Typed (Ok x) | _ => Untyped key end.
Definition as_int (key : string) (v : PyVal F) : parsed Z :=
  match v with PInt z => Typed (Ok z) | _ => Untyped key end.

(** [Book.from_dict].  The code looks the keys up in this order and asks
    for no type; the types are asked for here, after the last lookup, so
    that a [KeyError] is raised where the code raises it, and a dictionary
    that has the keys the code needs but a value of another type is
    [Untyped]. *)
Definition from_dict (data : gmap string (PyVal F)) : parsed (Book F) :=
  let+ t := getitem data "title" in
  let+ a := getitem data "author" in
  let+ g := getitem data "genre" in
  let+ i := getitem data "book_id" in
  let+ b := getitem data "is_borrowed" in
  let+ h := getitem data "borrow_history" in
  let r := get data "rating" (PFloat (of_int 0)) in
  let n := get data "num_ratings" (PInt 0) in
  let+ t := as_str "title" t in
  let+ a := as_str "author" a in
  let+ g := as_str "genre" g in
  let+ i := as_str "book_id" i in
  let book := new_Book t a g i in
  let+ b := as_bool "is_borrowed" b in
  let+ h := as_history "borrow_history" h in
  let+ r := as_float "rating" r in
  let+ n := as_int "num_ratings" n in
  Typed (Ok (mkBook (title book) (author book) (genre book) (book_id book) b h r n)).

End BookClass.

(** ** Sorting *)

(** [sorted] is a stable sort that only asks whether one element is less
    than another.  The functions below insert each element, in turn, after
    every element of the sorted prefix it is not less than; for a
    comparison that is a strict weak order every stable sort returns this
    list, CPython's merge sort included. *)
Section Sorted.
Context {A : Type}.

Section Total.
Variable lt : A -> A -> bool.

Fixpoint insert_sorted (x : A) (l : list A) : list A :=
  match l with
  | [] => [x]
  | y :: l' => if lt x y then x :: y :: l' else y :: insert_sorted x l'
  end.

Definition sorted (l : list A) : list A :=
  fold_left (fun acc x => insert_sorted x acc) l [].
End Total.

(** The same sort for a comparison that can raise: the first exception
    ends the sort.  Which pairs are compared, and so which comparison
    raises first, depends on the algorithm; see [recommendation_lt] for the
    one use the program makes of it. *)
Section Raising.
Variable lt : A -> A -> result bool.

Fixpoint insert_sorted_r (x : A) (l : list A) : result (list A) :=
  match l with
  | [] => Ok [x]
  | y :: l' =>
      let* c := lt x y in
      if c then Ok (x :: y :: l')
      else let* l'' := insert_sorted_r x l' in Ok (y :: l'')
  end.

Definition insert_all_r (l : list A) (acc : result (list A)) : result (list A) :=
  fold_left (fun acc x => let* acc := acc in insert_sorted_r x acc) l acc.

Definition sorted_r (l : list A) : result (list A) := insert_all_r l (Ok []).

(** [sorted(l, reverse=True)]: CPython reverses the list, sorts it and
    reverses the result, so that equal elements keep their order. *)
Definition sorted_reverse_r (l : list A) : result (list A) :=
  let* s := sorted_r (rev l) in Ok (rev s).
End Raising.
End Sorted.

(** ** The [Library] class *)

(** A library object together with the file it persists to.  [data_file] is
    the content of [library_data.json], [None] while the file does not
    exist; the JSON text is taken as the list of dictionaries that
    [json.dump] writes and [json.load] reads. *)
Record Library (F : Type) : Type := mkLibrary {
  books : list (Book F);
  data_file : option (list (gmap string (PyVal F)))
}.
Arguments mkLibrary {F}.
Arguments books {F}.
Arguments data_file {F}.

(** The dictionary [generate_statistics] returns, one field per key. *)
Record Stats (F : Type) : Type := mkStats {
  genres : gmap string Z;
  authors : gmap string Z;
  ratings : gmap string (list F);
  borrow_frequency : gmap string Z
}.
Arguments mkStats {F}.
Arguments genres {F}.
Arguments authors {F}.
Arguments ratings {F}.
Arguments borrow_frequency {F}.

(** [d[k]] on a [defaultdict(int)].  Reading a missing key also stores the
    default under it, which changes no later read and is left out. *)
Definition count_of (d : gmap string Z) (k : string) : Z := default 0 (d !! k).

(** [d[k] += 1] on a [defaultdict(int)]. *)
Definition incr (d : gmap string Z) (k : string) : gmap string Z :=
  <[k := count_of d k + 1]> d.

(** [d[k].append(x)] on a [defaultdict(list)]. *)
Definition append_to {A : Type} (d : gmap string (list A)) (k : string) (x : A)
  : gmap string (list A) :=
  <[k := default [] (d !! k) ++ [x]]> d.

(** The truth value of an argument that is a string or [None]. *)
Definition truthy (s : option string) : bool :=
  match s with
  | Some s => negb (String.eqb s "")
  | None => false
  end.

(** [needle in hay] on strings: [needle] occurs in [hay] as a substring. *)
Fixpoint str_in (needle hay : string) : bool :=
  String.prefix needle hay ||
  match hay with
  | EmptyString => false
  | String _ hay' => str_in needle hay'
  end.

Section LibraryClass.
Context {F : Type} `{PyFloat F}.

(** [Library.save_books]; a failure of the write itself, which the method
    catches and prints, is not modelled. *)
Definition save_books (self : Library F) : Library F :=
  mkLibrary (books self) (Some (map to_dict (books self))).

(** [[Book.from_dict(d) for d in data]] *)
Fixpoint from_dicts (data : list (gmap string (PyVal F))) : parsed (list (Book F)) :=
  match data with
  | [] => Typed (Ok [])
  | d :: data' =>
      let+ b := from_dict d in
      let+ bs := from_dicts data' in
      Typed (Ok (b :: bs))
  end.

(** [Library.load_books]: the library afterwards.  The method catches
    every exception of the comprehension and raises none. *)
Definition load_books (self : Library F) : parsed (Library F) :=
  match data_file self with
  | Some data =>
      match from_dicts data with
      | Typed (Ok bs) => Typed (Ok (mkLibrary bs (data_file self)))
      | Typed (Raise _) => Typed (Ok (mkLibrary [] (data_file self)))
      | Untyped key => Untyped key
      end
  | None => Typed (Ok self)
  end.

(** [Library.__init__], in a directory whose data file is [file]. *)
Definition new_Library (file : option (list (gmap string (PyVal F))))
  : parsed (Library F) :=
  load_books (mkLibrary [] file).

(** The body of the [try] block of [add_book]. *)
Definition add_book_try (self : Library F) (title author genre book_id' : option string)
  : result (Library F * string) :=
  if negb (forallb truthy [title; author; genre; book_id']) then
    Raise (ValueError "All fields must be filled")
  else if existsb (fun b => bool_decide (Some (book_id b) = book_id')) (books self) then
    Raise (ValueError "Book ID already exists")
  else
    let new_book := new_Book (default "" title) (default "" author)
                             (default "" genre) (default "" book_id') in
    let self := save_books (mkLibrary (books self ++ [new_book]) (data_file self)) in
    Ok (self, "Book '" +:+ default "" title +:+ "' added successfully.").

(** [Library.add_book]: the library afterwards and the line printed. *)
Definition add_book (self : Library F) (title author genre book_id' : option string)
  : result (Library F * string) :=
  match add_book_try self title author genre book_id' with
  | Ok r => Ok r
  | Raise (ValueError e) => Ok (self, "Error adding book: " +:+ e)
  | Raise e => Raise e
  end.

(** [next((b for b in library.books if b.book_id == book_id), None)], the
    lookup [main] performs before it borrows, returns or rates a book. *)
Definition find_by_id (self : Library F) (id : string) : option (Book F) :=
  List.find (fun b => String.eqb (book_id b) id) (books self).

(** [k1 < k2] on the sort keys [(-x.rating, x.title)] of [search_books]:
    tuples compare at their first pair of unequal components. *)
Definition key_lt (k1 k2 : F * string) : bool :=
  if feq (fst k1) (fst k2) then String.ltb (snd k1) (snd k2)
  else flt (fst k1) (fst k2).

Definition search_key (x : Book F) : F * string := (fneg (rating x), title x).

Section Search.
(** [str.lower] *)
Variable lower : string -> string.

(** [Library.search_books] *)
Definition search_books (self : Library F) (search_term search_type : string)
  : list (Book F) :=
  let search_term := lower search_term in
  let results :=
    if String.eqb search_type "title" then
      List.filter (fun b => str_in search_term (lower (title b))) (books self)
    else if String.eqb search_type "author" then
      List.filter (fun b => str_in search_term (lower (author b))) (books self)
    else if String.eqb search_type "genre" then
      List.filter (fun b => str_in search_term (lower (genre b))) (books self)
    else
      List.filter (fun b => str_in search_term (lower (title b))
                            || str_in search_term (lower (author b))
                            || str_in search_term (lower (genre b)))
                  (books self) in
  sorted (fun x y => key_lt (search_key x) (search_key y)) results.
End Search.

(** The first loop of [generate_recommendations]: how often [user]
    borrowed each genre and each author. *)
Definition count_history (user : string) (book : Book F)
    (acc : gmap string Z * gmap string Z) : gmap string Z * gmap string Z :=
  fold_left
    (fun '(user_genres, user_authors) record =>
       if String.eqb (user_id record) user
       then (incr user_genres (genre book), incr user_authors (author book))
       else (user_genres, user_authors))
    (borrow_history book) acc.

Definition user_preferences (self : Library F) (user : string)
  : gmap string Z * gmap string Z :=
  fold_left (fun acc book => count_history user book acc) (books self) (∅, ∅).

(** [score] in the second loop.  The two counts are added as ints and the
    sum is converted for the addition of the rating; it counts history
    entries, of which a catalog in memory holds far fewer than the
    [2^1024 - 2^970] from which the conversion raises. *)
Definition score_of (user_genres user_authors : gmap string Z) (book : Book F) : F :=
  fadd (of_int (count_of user_genres (genre book) * 2
                + count_of user_authors (author book) * 3))
       (rating book).

(** [book not in recommendations] looks for a [Book] among [(score, book)]
    tuples; a [Book] never equals a tuple, so no element matches. *)
Definition book_in (book : Book F) (recommendations : list (F * Book F)) : bool :=
  existsb (fun _ => false) recommendations.

(** The second loop: the scored candidates, in catalog order. *)
Definition candidates (self : Library F) (user_genres user_authors : gmap string Z)
  : list (F * Book F) :=
  fold_left
    (fun recommendations book =>
       if negb (is_borrowed book) && negb (book_in book recommendations) then
         let score := score_of user_genres user_authors book in
         if flt (of_int 0) score
         then recommendations ++ [(score, book)]
         else recommendations
       else recommendations)
    (books self) [].

(** [t1 < t2] on [(score, book)] tuples.  With unequal scores the scores
    decide.  With equal scores the comparison moves on to the books, two
    distinct objects of a class that defines neither [__eq__] nor
    [__lt__]: they are unequal, and [<] on them raises [TypeError].

    A sort that never compares two candidates with equal scores cannot
    tell which of them comes first, so every sort that orders its input
    compares two of them, whatever its algorithm, and raises as the
    insertion sort of the model does; on a list of two candidates there is
    one comparison to make.  Without equal scores no comparison raises and
    the order is the one descending order. *)
Definition recommendation_lt (t1 t2 : F * Book F) : result bool :=
  if feq (fst t1) (fst t2) then Raise TypeError
  else Ok (flt (fst t1) (fst t2)).

(** [Library.generate_recommendations] *)
Definition generate_recommendations (self : Library F) (user : string)
  : result (list (Book F)) :=
  let '(user_genres, user_authors) := user_preferences self user in
  let recommendations := candidates self user_genres user_authors in
  let* ranked := sorted_reverse_r recommendation_lt recommendations in
  Ok (map snd (take 5 ranked)).

(** One iteration of the loop of [generate_statistics]. *)
Definition add_to_statistics (stats : Stats F) (book : Book F) : Stats F :=
  mkStats
    (incr (genres stats) (genre book))
    (incr (authors stats) (author book))
    (if 0 <? num_ratings book
     then append_to (ratings stats) (genre book) (rating book)
     else ratings stats)
    (<[title book := Z.of_nat (length (borrow_history book))]> (borrow_frequency stats)).

(** The statistics after the loop has visited the books of [l]. *)
Definition stats_of (l : list (Book F)) : Stats F :=
  fold_left add_to_statistics l (mkStats ∅ ∅ ∅ ∅).

(** [Library.generate_statistics] *)
Definition generate_statistics (self : Library F) : Stats F :=
  stats_of (books self).

End LibraryClass.

(** ** The loop of [main] *)

(** What [main] prints: a text, or, in the [except Exception] handler of
    the loop, the exception it reports. *)
Inductive Line : Type :=
| Text (s : string)
| ErrorOccurred (e : PyExc).

(** The two variables of [main]: the library and the user logged in
    ([login] has run once before the loop starts). *)
Record Session (F : Type) : Type := mkSession {
  library : Library F;
  current_user : string
}.
Arguments mkSession {F}.
Arguments library {F}.
Arguments current_user {F}.

Section Main.
Context {F : Type} `{PyFloat F}.

(** [next((b for b in library.books if b.book_id == book_id), None)] as
    the object it is: the first book with the id, and its place in the
    list. *)
Fixpoint lookup_by_id (l : list (Book F)) (id : string) : option (nat * Book F) :=
  match l with
  | [] => None
  | b :: l' =>
      if String.eqb (book_id b) id then Some (0%nat, b)
      else match lookup_by_id l' id with
           | Some (k, b') => Some (S k, b')
           | None => None
           end
  end.

(** The library once a method has updated the book at place [k]. *)
Definition set_book (self : Library F) (k : nat) (b : Book F) : Library F :=
  mkLibrary (<[k := b]> (books self)) (data_file self).

(** [login()], reading [line]. *)
Definition login (s : Session F) (line : string) : Session F * list Line :=
  (mkSession (library s) line, [Text ("Logged in as user: " +:+ line)]).

(** Choice 1, reading the four lines. *)
Definition choice_add (s : Session F) (t a g i : string) : Session F * list Line :=
  match add_book (library s) (Some t) (Some a) (Some g) (Some i) with
  | Ok (lib, line) => (mkSession lib (current_user s), [Text line])
  | Raise e => (s, [ErrorOccurred e; Text "Please try again."])
  end.

(** The search type choice 2 makes of the line it reads. *)
Definition search_type_of (search_choice : string) : string :=
  if String.eqb search_choice "1" then "title"
  else if String.eqb search_choice "2" then "author"
  else if String.eqb search_choice "3" then "genre"
  else "all".

(** Choice 3, reading [line]: the user id when nobody is logged in, the
    book id otherwise. *)
Definition choice_borrow (s : Session F) (line now : string) : Session F * list Line :=
  if String.eqb (current_user s) "" then
    let '(s', out) := login s line in (s', Text "Please log in first." :: out)
  else
    match lookup_by_id (books (library s)) line with
    | Some (k, book) =>
        let '(book', ok) := borrow book (current_user s) now in
        if ok then
          (mkSession (save_books (set_book (library s) k book')) (current_user s),
           [Text "Book borrowed successfully."])
        else (s, [Text "Book is already borrowed."])
    | None => (s, [Text "Book not found."])
    end.

(** Choice 4, reading the book id. *)
Definition choice_return (s : Session F) (line now : string) : Session F * list Line :=
  match lookup_by_id (books (library s)) line with
  | Some (k, book) =>
      let '(book', ok) := return_book book now in
      if ok then
        (mkSession (save_books (set_book (library s) k book')) (current_user s),
         [Text "Book returned successfully."])
      else (s, [Text "Book is not borrowed."])
  | None => (s, [Text "Book not found."])
  end.

(** Choice 5: the books in the order they are listed. *)
Definition choice_view_all (s : Session F) : list (Book F) :=
  sorted (fun x y => String.ltb (title x) (title y)) (books (library s)).

(** Choice 6, reading the book id and, when the book exists, the rating:
    [rating] is what [float] makes of the line, [None] when it raises
    [ValueError]. *)
Definition choice_rate (s : Session F) (line : string) (rating : option F)
  : Session F * list Line :=
  match lookup_by_id (books (library s)) line with
  | Some (k, book) =>
      match rating with
      | Some r =>
          if fle (of_int 1) r && fle r (of_int 5) then
            match add_rating book r with
            | Ok book' =>
                (mkSession (save_books (set_book (library s) k book')) (current_user s),
                 [Text "Rating added successfully."])
            | Raise e => (s, [ErrorOccurred e; Text "Please try again."])
            end
          else (s, [Text "Rating must be between 1 and 5."])
      | None => (s, [Text "Please enter a valid number."])
      end
  | None => (s, [Text "Book not found."])
  end.

(** Choice 7, reading the user id when nobody is logged in: the session
    afterwards and, when somebody is, what [generate_recommendations]
    returns or raises. *)
Definition choice_recommend (s : Session F) (line : string)
  : Session F * option (result (list (Book F))) :=
  if String.eqb (current_user s) "" then ((login s line).1, None)
  else (s, Some (generate_recommendations (library s) (current_user s))).

(** One iteration of the loop: the choice with the lines it reads. *)
Inductive Request : Type :=
| Add (t a g i : string)
| Search (search_choice search_term : string)
| Borrow (line now : string)
| Return (line now : string)
| ViewAll
| Rate (line : string) (rating : option F)
| Recommend (line : string)
| ChangeUser (line : string).

(** The session after an iteration. *)
Definition menu_iteration (s : Session F) (r : Request) : Session F :=
  match r with
  | Add t a g i => (choice_add s t a g i).1
  | Search _ _ => s
  | Borrow line now => (choice_borrow s line now).1
  | Return line now => (choice_return s line now).1
  | ViewAll => s
  | Rate line rating => (choice_rate s line rating).1
  | Recommend line => (choice_recommend s line).1
  | ChangeUser line => (login s line).1
  end.

(** The session after a run of iterations. *)
Definition run_menu (s : Session F) (rs : list Request) : Session F :=
  fold_left menu_iteration rs s.

End Main.
Arguments Request : clear implicits.

(** ** The averages [visualize_statistics] plots *)

Section Averages.
Context {F : Type} `{PyFloat F}.

(** The builtin [sum] on a list of floats.  How it adds depends on the
    version of CPython (from 3.12 on it compensates the rounding errors of
    the partial sums), so it is a parameter. *)
Variable py_sum : list F -> F.

(** [sum(ratings)/len(ratings)] *)
Definition average (ratings : list F) : result F :=
  truediv (py_sum ratings) (Z.of_nat (length ratings)).

(** The dictionary [avg_ratings] of [visualize_statistics]: the average
    of every list of ratings that is not empty, under its genre.  The
    figure drawn from it is not modelled. *)
Definition avg_ratings (stats : Stats F) : result (gmap string F) :=
  map_fold
    (fun genre ratings acc =>
       let* acc := acc in
       match ratings with
       | [] => Ok acc
       | _ :: _ => let* a := average ratings in Ok (<[genre := a]> acc)
       end)
    (Ok ∅) (ratings stats).

End Averages.

(** * Vocabulary of the properties *)

(** ** [add_rating] *)

(** [add_rating] takes the value [r] into the mean of the book [b]. *)
Definition updates_mean {F : Type} `{PyFloat F} (b : Book F) (r : F) : Prop :=
  fle (of_int 1) r && fle r (of_int 5) = true ->
  add_rating b r
  = Ok (mkBook (title b) (author b) (genre b) (book_id b)
               (is_borrowed b) (borrow_history b)
               (fdiv (fadd (fmul (rating b) (of_int (num_ratings b))) r)
                     (of_int (num_ratings b + 1)))
               (num_ratings b + 1)).

(** ** [add_book] and [generate_statistics] *)

(** An argument of [add_book] that is empty or absent. *)
Definition missing (s : option string) : Prop := s = None \/ s = Some "".

(** The two messages of the [ValueError]s [add_book] raises, and the lines
    it prints for them. *)
Definition validation_error : string := "Error adding book: All fields must be filled".
Definition duplicate_id_error : string := "Error adding book: Book ID already exists".

(** The sum of the counts a [defaultdict(int)] holds. *)
Definition total_count (d : gmap string Z) : Z :=
  map_fold (fun _ v acc => v + acc) 0 d.

(** The books of a list with a given genre, or author, in list order. *)
Definition of_genre {F : Type} (g : string) (l : list (Book F)) : list (Book F) :=
  List.filter (fun b => String.eqb (genre b) g) l.
Definition of_author {F : Type} (a : string) (l : list (Book F)) : list (Book F) :=
  List.filter (fun b => String.eqb (author b) a) l.

(** The rated books of a list with a given genre. *)
Definition rated_of_genre {F : Type} (g : string) (l : list (Book F)) : list (Book F) :=
  List.filter (fun b => String.eqb (genre b) g && (0 <? num_ratings b)) l.

(** The borrow-frequency map read record by record: under the title of
    every book of the catalog stands the length of that book's history. *)
Definition frequency_of_every_record {F : Type} (lib : Library F) : Prop :=
  forall b, In b (books lib) ->
    borrow_frequency (generate_statistics lib) !! title b
    = Some (Z.of_nat (length (borrow_history b))).

(** ** [search_books] *)

(** [needle] occurs in [hay]: some characters, then [needle], then the
    rest. *)
Definition is_substring (needle hay : string) : Prop :=
  exists pre post : string, hay = pre +:+ needle +:+ post.

(** The attributes of a book that a search of the given type looks at. *)
Definition selected_fields {F : Type} (search_type : string) (b : Book F) : list string :=
  if String.eqb search_type "title" then [title b]
  else if String.eqb search_type "author" then [author b]
  else if String.eqb search_type "genre" then [genre b]
  else if String.eqb search_type "all" then [title b; author b; genre b]
  else [].

(** A book matches a term when one of the selected attributes contains the
    term, both lowercased. *)
Definition field_matches {F : Type} (lower : string -> string)
    (term search_type : string) (b : Book F) : Prop :=
  exists field, In field (selected_fields search_type b)
                /\ is_substring (lower term) (lower field).

(** [x] may stand before [y] in a search result: its rating is greater, or
    the ratings are equal and its title is not after the title of [y]. *)
Definition rank_le {F : Type} `{PyFloat F} (x y : Book F) : Prop :=
  flt (rating y) (rating x) = true
  \/ (feq (rating x) (rating y) = true /\ String.leb (title x) (title y) = true).

(** [str.lower] on ASCII strings. *)
Definition ascii_lower_char (c : ascii) : ascii :=
  let n := N_of_ascii c in
  if ((65 <=? n) && (n <=? 90))%N then ascii_of_N (n + 32) else c.

Fixpoint ascii_lower (s : string) : string :=
  match s with
  | EmptyString => EmptyString
  | String c s' => String (ascii_lower_char c) (ascii_lower s')
  end.

(** The test of the list comprehension [search_books] runs for a search
    type. *)
Definition selects {F : Type} (lower : string -> string)
    (term search_type : string) (b : Book F) : bool :=
  if String.eqb search_type "title" then str_in (lower term) (lower (title b))
  else if String.eqb search_type "author" then str_in (lower term) (lower (author b))
  else if String.eqb search_type "genre" then str_in (lower term) (lower (genre b))
  else str_in (lower term) (lower (title b))
       || str_in (lower term) (lower (author b))
       || str_in (lower term) (lower (genre b)).

(** [x] is not after [y] for the comparison [lt]: [y < x] is false. *)
Definition not_after {A : Type} (lt : A -> A -> bool) (x y : A) : Prop :=
  lt y x = false.

(** ** The order of floats *)

(** What Python's comparisons of floats obey: [<] is a strict order that
    [==] respects, NaN is less than nothing and nothing is less than NaN,
    two values that are not NaN are comparable, and negation reverses the
    order. *)
Class PyFloatOrder (F : Type) `{PyFloat F} : Prop := {
  flt_irrefl : forall x, flt x x = false;
  flt_not_nan : forall x y, flt x y = true -> fnan x = false /\ fnan y = false;
  flt_trans : forall x y z, flt x y = true -> flt y z = true -> flt x z = true;
  flt_feq : forall x y, flt x y = true -> feq x y = false;
  feq_sym : forall x y, feq x y = feq y x;
  feq_feq : forall x y z, feq x y = true -> feq x z = feq y z;
  feq_flt_l : forall x y z, feq x y = true -> flt x z = flt y z;
  feq_flt_r : forall x y z, feq x y = true -> flt z x = flt z y;
  flt_total : forall x y, fnan x = false -> fnan y = false ->
                flt x y = true \/ feq x y = true \/ flt y x = true;
  fneg_flt : forall x y, flt (fneg x) (fneg y) = flt y x;
  fneg_feq : forall x y, feq (fneg x) (fneg y) = feq x y
}.

(** The place of a binary64 value that is not NaN in the order of the
    floats: its class (infinities, negative, zero, positive), then its
    exponent, then its mantissa, the last two negated for a negative
    value. *)
Definition sf_key (f : spec_float) : option (Z * Z * Z) :=
  match f with
  | S754_nan => None
  | S754_zero _ => Some (0, 0, 0)
  | S754_infinity s => Some (if s then -2 else 2, 0, 0)
  | S754_finite s m e => Some (if s then (-1, - e, Zneg m) else (1, e, Zpos m))
  end.

Definition float_key (x : float) : option (Z * Z * Z) := sf_key (Prim2SF x).

Definition lexcompare (a b : Z * Z * Z) : comparison :=
  let '(a1, a2, a3) := a in
  let '(b1, b2, b3) := b in
  match a1 ?= b1 with
  | Eq => match a2 ?= b2 with Eq => a3 ?= b3 | c => c end
  | c => c
  end.

(** ** Invariants of the data model *)

(** A history entry without a return date. *)
Definition is_open (e : BorrowRecord) : bool :=
  match return_date e with
  | None => true
  | Some _ => false
  end.

(** No two books of the library share an id. *)
Definition ids_unique {F : Type} (lib : Library F) : Prop :=
  NoDup (map book_id (books lib)).

(** The rating is in [0,5] when the book has ratings and is 0 otherwise. *)
Definition rating_in_range {F : Type} `{PyFloat F} (b : Book F) : Prop :=
  (0 < num_ratings b ->
   fle (of_int 0) (rating b) = true /\ fle (rating b) (of_int 5) = true)
  /\ (~ 0 < num_ratings b -> rating b = of_int 0).

(** The last history entry is open if and only if the book is borrowed. *)
Definition last_open_iff_borrowed {F : Type} (b : Book F) : Prop :=
  is_borrowed b = true
  <-> exists e, last (borrow_history b) = Some e /\ return_date e = None.

(** At most one history entry is open. *)
Definition at_most_one_open {F : Type} (b : Book F) : Prop :=
  (length (List.filter is_open (borrow_history b)) <= 1)%nat.

(** The four invariants of the data model. *)
Definition store_invariants {F : Type} `{PyFloat F} (lib : Library F) : Prop :=
  ids_unique lib
  /\ forall b, In b (books lib) ->
       rating_in_range b /\ last_open_iff_borrowed b /\ at_most_one_open b.

(** The invariants that do not depend on how the arithmetic rounds: the
    first, the last two, and of the second that the rating is 0 while the
    book has no ratings. *)
Definition structure_invariants {F : Type} `{PyFloat F} (lib : Library F) : Prop :=
  ids_unique lib
  /\ forall b, In b (books lib) ->
       (~ 0 < num_ratings b -> rating b = of_int 0)
       /\ last_open_iff_borrowed b /\ at_most_one_open b.

(** One core operation on a library: [add_book], or [borrow],
    [return_book] or [add_rating] on one of its books (the book object is
    updated in place), or a [save_books], which [main] calls after each of
    them. *)
Inductive step {F : Type} `{PyFloat F} : Library F -> Library F -> Prop :=
| step_add_book lib t a g i lib' line :
    add_book lib t a g i = Ok (lib', line) ->
    step lib lib'
| step_borrow lib k b user now :
    books lib !! k = Some b ->
    step lib (mkLibrary (<[k := (borrow b user now).1]> (books lib)) (data_file lib))
| step_return_book lib k b now :
    books lib !! k = Some b ->
    step lib (mkLibrary (<[k := (return_book b now).1]> (books lib)) (data_file lib))
| step_add_rating lib k b r b' :
    books lib !! k = Some b ->
    add_rating b r = Ok b' ->
    step lib (mkLibrary (<[k := b']> (books lib)) (data_file lib))
| step_save_books lib :
    step lib (save_books lib).

(** The libraries the core operations build from one without books. *)
Inductive reachable {F : Type} `{PyFloat F} : Library F -> Prop :=
| reachable_empty file : reachable (mkLibrary [] file)
| reachable_step lib lib' : reachable lib -> step lib lib' -> reachable lib'.

(** The books [add_rating], [borrow] and [return_book] make of a new
    book. *)
Inductive book_reachable {F : Type} `{PyFloat F} : Book F -> Prop :=
| book_new t a g i : book_reachable (new_Book t a g i)
| book_add_rating b r b' :
    book_reachable b -> add_rating b r = Ok b' -> book_reachable b'
| book_borrow b user now :
    book_reachable b -> book_reachable (borrow b user now).1
| book_return_book b now :
    book_reachable b -> book_reachable (return_book b now).1.

(** What the operations keep true of a history: every entry but the last
    is closed, and the last is open exactly when the book is borrowed. *)
Definition history_ok {F : Type} (b : Book F) : Prop :=
  Forall (fun e => is_open e = false) (removelast (borrow_history b))
  /\ last_open_iff_borrowed b.

(** What [add_rating] keeps true of the count: it is non-negative, and the
    rating of a book never rated is the initial [0.0]. *)
Definition count_ok {F : Type} `{PyFloat F} (b : Book F) : Prop :=
  0 <= num_ratings b /\ (num_ratings b = 0 -> rating b = of_int 0).

(** The rating of a rated book is in [1,5]. *)
Definition rating_ok {F : Type} `{PyFloat F} (b : Book F) : Prop :=
  0 < num_ratings b ->
  fle (of_int 1) (rating b) = true /\ fle (rating b) (of_int 5) = true.

(** The ids of a library are unique and each of its books satisfies [P]. *)
Definition books_satisfy {F : Type} (P : Book F -> Prop) (lib : Library F) : Prop :=
  ids_unique lib /\ forall b, In b (books lib) -> P b.

(** What the operations keep true of a book in any arithmetic. *)
Definition book_ok {F : Type} `{PyFloat F} (b : Book F) : Prop :=
  count_ok b /\ history_ok b.

(** ** The running mean in binary64 *)

(** The largest count up to which the running mean of binary64 is
    bracketed by the bounds of its ratings: [5 * max_exact_count < 2^53],
    so the integers [5 * count] are floats and rounding cannot cross
    them. *)
Definition max_exact_count : Z := 1801439850948198.

(** The rating of a book rated at most [max_exact_count] times is in
    [1,5]. *)
Definition rating_ok_upto (b : Book float) : Prop :=
  0 < num_ratings b <= max_exact_count ->
  fle (of_int 1) (rating b) = true /\ fle (rating b) (of_int 5) = true.

(** The second invariant of the data model up to that count. *)
Definition rating_in_range_upto (b : Book float) : Prop :=
  (0 < num_ratings b <= max_exact_count ->
   fle (of_int 0) (rating b) = true /\ fle (rating b) (of_int 5) = true)
  /\ (~ 0 < num_ratings b -> rating b = of_int 0).

(** The four invariants, the second up to that count. *)
Definition store_invariants_upto (lib : Library float) : Prop :=
  ids_unique lib
  /\ forall b, In b (books lib) ->
       rating_in_range_upto b /\ last_open_iff_borrowed b /\ at_most_one_open b.

(** What the operations keep true of a book in binary64. *)
Definition book_ok_binary64 (b : Book float) : Prop :=
  count_ok b /\ rating_ok_upto b /\ history_ok b.

(** ** The values of binary64 *)

(** [2^e] as a real number. *)
Definition bpow (e : Z) : R := powerRZ 2 e.

(** The real number a positive mantissa and an exponent stand for. *)
Definition F2R (m : positive) (e : Z) : R := (IZR (Zpos m) * bpow e)%R.

(** A mantissa, an exponent and the two bits kept of what was shifted out
    locate [v]: on [m * 2^e] when both bits are clear, strictly between it
    and [(m + 1) * 2^e] otherwise. *)
Definition locates (v : R) (mrs : shr_record) (e : Z) : Prop :=
  0 <= shr_m mrs
  /\ if shr_r mrs || shr_s mrs
     then (IZR (shr_m mrs) * bpow e < v < IZR (shr_m mrs + 1) * bpow e)%R
     else v = (IZR (shr_m mrs) * bpow e)%R.

Definition exact_loc (l : location) : bool :=
  match l with loc_Exact => true | loc_Inexact _ => false end.

(** A positive normal float with an exponent within [k] of 0, and the real
    number a float stands for. *)
Definition nice (k : Z) (x : float) : Prop :=
  exists m e, Prim2SF x = S754_finite false m e
              /\ Zpos (digits2_pos m) = 53 /\ - k <= e <= k.

Definition B2R (x : float) : R :=
  match Prim2SF x with
  | S754_finite s m e => if s then (- F2R m e)%R else F2R m e
  | _ => 0%R
  end.

(** ** Vocabulary for the recommendations *)

(** Two scored candidates with equal scores. *)
Definition tied {F : Type} `{PyFloat F} (t1 t2 : F * Book F) : Prop :=
  feq t1.1 t2.1 = true.

(** A list of scored candidates holds two with equal scores. *)
Definition has_tie {F : Type} `{PyFloat F} (l : list (F * Book F)) : Prop :=
  exists l1 x l2 y l3, l = l1 ++ x :: l2 ++ y :: l3 /\ tied x y.

(** No two candidates of the list have equal scores. *)
Definition tie_free {F : Type} `{PyFloat F} (l : list (F * Book F)) : Prop :=
  ForallOrdPairs (fun x y => feq x.1 y.1 = false) l.

(** The score of [t1] is less than the score of [t2]. *)
Definition score_lt {F : Type} `{PyFloat F} (t1 t2 : F * Book F) : bool :=
  flt t1.1 t2.1.

(** How often [user] occurs in the history of a book, and in the histories
    of the books of a list. *)
Definition borrowed_by {F : Type} (user : string) (b : Book F) : Z :=
  Z.of_nat (length (List.filter (fun e => String.eqb (user_id e) user)
                                (borrow_history b))).

Fixpoint borrowed_in {F : Type} (user : string) (l : list (Book F)) : Z :=
  match l with
  | [] => 0
  | b :: l' => borrowed_by user b + borrowed_in user l'
  end.

(** ** Vocabulary of the further properties *)

(** The keys of the dictionary of a book. *)
Definition book_keys : gset string :=
  {[ "title"; "author"; "genre"; "book_id"; "is_borrowed"; "borrow_history";
     "rating"; "num_ratings" ]}.

(** Two books that differ at most in rating and count. *)
Definition same_but_rating {F : Type} (b b' : Book F) : Prop :=
  title b' = title b /\ author b' = author b /\ genre b' = genre b
  /\ book_id b' = book_id b /\ is_borrowed b' = is_borrowed b
  /\ borrow_history b' = borrow_history b.

(** The score [generate_recommendations] gives a book for a user, and the
    books it ranks: the available ones with a positive score, in catalog
    order. *)
Definition user_score {F : Type} `{PyFloat F} (lib : Library F) (user : string)
    (b : Book F) : F :=
  score_of (user_preferences lib user).1 (user_preferences lib user).2 b.

Definition recommendable {F : Type} `{PyFloat F} (lib : Library F) (user : string)
  : list (Book F) :=
  List.filter (fun b => negb (is_borrowed b) && flt (of_int 0) (user_score lib user b))
              (books lib).

(** ** Vocabulary for the loop of [main] *)

(** The data file holds the dictionaries of the books of the library. *)
Definition in_sync {F : Type} `{PyFloat F} (lib : Library F) : Prop :=
  data_file lib = Some (map to_dict (books lib)).

(** What the catalog says of a book whatever its state. *)
Definition identity {F : Type} (b : Book F) : string * string * string * string :=
  (book_id b, title b, author b, genre b).

(** The session [main] starts with in a directory without a data file,
    once [login] has read [user]: [Library()] finds no file to load and
    keeps the empty list of books. *)
Definition first_run {F : Type} `{PyFloat F} (user : string) : Session F :=
  mkSession (mkLibrary [] None) user.

(** * Properties *)

(** ** [Book]: ratings, borrowing and returning *)

Section BookFacts.
Context {F : Type} `{PyFloat F}.

Lemma set_last_return_app now h e :
  set_last_return now (h ++ [e])
  = h ++ [mkBorrowRecord (user_id e) (borrow_date e) (Some now)].
Proof.
  induction h as [|x h IH]; [reflexivity|].
  simpl. rewrite IH. destruct (h ++ [e]) eqn:E; [|reflexivity].
  destruct h; discriminate.
Qed.

Lemma set_last_return_length now h :
  length (set_last_return now h) = length h.
Proof.
  induction h as [|x [|y h] IH]; [reflexivity..|].
  change (S (length (set_last_return now (y :: h))) = S (length (y :: h))).
  now rewrite IH.
Qed.

Lemma add_rating_in_range (b : Book F) (r : F) :
  fle (of_int 1) r && fle r (of_int 5) = true ->
  num_ratings b <> -1 ->
  fits (num_ratings b) = true -> fits (num_ratings b + 1) = true ->
  add_rating b r
  = Ok (mkBook (title b) (author b) (genre b) (book_id b)
               (is_borrowed b) (borrow_history b)
               (fdiv (fadd (fmul (rating b) (of_int (num_ratings b))) r)
                     (of_int (num_ratings b + 1)))
               (num_ratings b + 1)).
Proof.
  intros Hr Hn Hf Hf1. unfold add_rating, mul_int, truediv, to_float.
  rewrite Hr, Hf, Hf1. cbn [rbind].
  destruct (Z.eqb_spec (num_ratings b + 1) 0) as [E|E]; [lia|reflexivity].
Qed.

(** What [add_rating] returns, case by case. *)
Lemma add_rating_cases (b : Book F) (r : F) :
  add_rating b r
  = if fle (of_int 1) r && fle r (of_int 5) then
      if negb (fits (num_ratings b)) || negb (fits (num_ratings b + 1))
      then Raise OverflowError
      else if num_ratings b =? -1 then Raise ZeroDivisionError
      else Ok (mkBook (title b) (author b) (genre b) (book_id b)
                 (is_borrowed b) (borrow_history b)
                 (fdiv (fadd (fmul (rating b) (of_int (num_ratings b))) r)
                       (of_int (num_ratings b + 1)))
                 (num_ratings b + 1))
    else Ok b.
Proof.
  unfold add_rating, mul_int, truediv, to_float.
  destruct (fle (of_int 1) r && fle r (of_int 5)); [|reflexivity].
  destruct (fits (num_ratings b)); cbn [rbind negb orb]; [|reflexivity].
  destruct (fits (num_ratings b + 1)); cbn [rbind negb]; [|reflexivity].
  destruct (Z.eqb_spec (num_ratings b + 1) 0) as [E|E];
    destruct (Z.eqb_spec (num_ratings b) (-1)) as [E'|E']; try lia; reflexivity.
Qed.

Lemma add_rating_out_of_range (b : Book F) (r : F) :
  fle (of_int 1) r && fle r (of_int 5) = false ->
  add_rating b r = Ok b.
Proof. intros Hr. unfold add_rating. now rewrite Hr. Qed.

(** The book [add_rating] returns: the book itself, or the book with the
    new mean and one more rating. *)
Lemma add_rating_Ok (b b' : Book F) (r : F) :
  add_rating b r = Ok b' ->
  b' = b
  \/ (fle (of_int 1) r && fle r (of_int 5) = true
      /\ num_ratings b <> -1
      /\ fits (num_ratings b) = true /\ fits (num_ratings b + 1) = true
      /\ b' = mkBook (title b) (author b) (genre b) (book_id b)
                 (is_borrowed b) (borrow_history b)
                 (fdiv (fadd (fmul (rating b) (of_int (num_ratings b))) r)
                       (of_int (num_ratings b + 1)))
                 (num_ratings b + 1)).
Proof.
  rewrite add_rating_cases.
  destruct (fle (of_int 1) r && fle r (of_int 5)); [|intros [= <-]; now left].
  destruct (fits (num_ratings b)); cbn [negb orb]; [|discriminate].
  destruct (fits (num_ratings b + 1)); cbn [negb]; [|discriminate].
  destruct (Z.eqb_spec (num_ratings b) (-1)) as [E|E]; [discriminate|].
  intros [= <-]. right. auto.
Qed.
End BookFacts.

(** C3, as the code has it.  [add_rating] with a value in [1,5], on a
    book whose count and its successor convert to a float and whose count
    is not [-1], replaces the average by
    [(rating * num_ratings + value) / (num_ratings + 1)] and adds one to
    the count; with any other value it changes nothing and raises nothing,
    whatever the count.  In binary64, rating a new book 3.0 gives the
    average 3.0 with count 1, and rating it 5.0 next gives 4.0 with
    count 2. *)
Theorem add_rating_running_mean :
  (forall (F : Type) (PF : PyFloat F) (b : Book F) (r : F),
      fle (of_int 1) r && fle r (of_int 5) = true ->
      num_ratings b <> -1 ->
      fits (num_ratings b) = true -> fits (num_ratings b + 1) = true ->
      add_rating b r
      = Ok (mkBook (title b) (author b) (genre b) (book_id b)
                   (is_borrowed b) (borrow_history b)
                   (fdiv (fadd (fmul (rating b) (of_int (num_ratings b))) r)
                         (of_int (num_ratings b + 1)))
                   (num_ratings b + 1)))
  /\ (forall (F : Type) (PF : PyFloat F) (b : Book F) (r : F),
        fle (of_int 1) r && fle r (of_int 5) = false ->
        add_rating b r = Ok b)
  /\ (forall t a g i : string,
        add_rating (F := float) (new_Book t a g i) 3%float
        = Ok (mkBook t a g i false [] 3%float 1)
        /\ add_rating (mkBook t a g i false [] 3%float 1) 5%float
           = Ok (mkBook t a g i false [] 4%float 2)).
Proof.
  split; [|split].
  - intros F PF b r Hr Hn Hf Hf1. now apply add_rating_in_range.
  - intros F PF b r Hr. now apply add_rating_out_of_range.
  - intros t a g i. split; vm_compute; reflexivity.
Qed.

(** The claim as stated fails on two records that only a data file
    written by hand can hold.  On a book whose count is [2^1024], which no
    float is large enough for, [add_rating] with the value 3.0 raises
    [OverflowError] at [self.rating * self.num_ratings]; on a book whose
    count is [-1] it raises [ZeroDivisionError] at the division by
    [self.num_ratings + 1]. *)
Lemma updates_mean_fails :
  let big := mkBook "Dune" "Herbert" "Sci-Fi" "1" false [] 4%float (2 ^ 1024) in
  let odd := mkBook "Dune" "Herbert" "Sci-Fi" "1" false [] 4%float (-1) in
  (add_rating big 3%float = Raise OverflowError /\ ~ updates_mean big 3%float)
  /\ (add_rating odd 3%float = Raise ZeroDivisionError /\ ~ updates_mean odd 3%float).
Proof.
  intros big odd.
  assert (Ebig : add_rating big 3%float = Raise OverflowError)
    by (vm_compute; reflexivity).
  assert (Eodd : add_rating odd 3%float = Raise ZeroDivisionError)
    by (vm_compute; reflexivity).
  split; (split; [assumption|]); intros Hmean; specialize (Hmean eq_refl).
  - rewrite Ebig in Hmean. discriminate.
  - rewrite Eodd in Hmean. discriminate.
Qed.

(** The running mean at work on a book already rated twice, 2.0 and 4.0:
    a third rating 5.0 is taken into the mean, a rating 6.0 is ignored. *)
Lemma add_rating_running_mean_witness :
  let b := mkBook (F := float) "Dune" "Herbert" "Sci-Fi" "1" false [] 3%float 2 in
  num_ratings b <> -1
  /\ fits (F := float) (num_ratings b) = true
  /\ fits (F := float) (num_ratings b + 1) = true
  /\ add_rating b 6%float = Ok b
  /\ (exists b', add_rating b 5%float = Ok b' /\ num_ratings b' = 3).
Proof.
  intros b.
  assert (Hn : num_ratings b <> -1) by (vm_compute; discriminate).
  assert (Hf : fits (F := float) (num_ratings b) = true) by reflexivity.
  assert (Hf1 : fits (F := float) (num_ratings b + 1) = true) by reflexivity.
  split; [exact Hn|]. split; [exact Hf|]. split; [exact Hf1|]. split.
  - apply (proj1 (proj2 add_rating_running_mean) float binary64 b 6%float).
    reflexivity.
  - eexists. split.
    + apply (proj1 add_rating_running_mean float binary64 b 5%float eq_refl Hn Hf Hf1).
    + reflexivity.
Defined.

(** C4. [borrow] on a borrowed book changes nothing and returns [False];
    on an available book it sets [is_borrowed], appends the entry
    (user, now, None) to the history and returns [True].  [return_book] on
    an available book changes nothing and returns [False]; on a borrowed
    book it clears [is_borrowed], writes [now] as the return date of the
    last history entry (an empty history stays empty) and returns [True].
    No other attribute changes, and a second [return_book] in a row
    changes nothing and returns [False]. *)
Theorem borrow_return_protocol (F : Type) (PF : PyFloat F)
    (b : Book F) (user now now' : string) :
  (let '(b1, ok) := borrow b user now in
   if is_borrowed b then b1 = b /\ ok = false
   else ok = true
        /\ b1 = mkBook (title b) (author b) (genre b) (book_id b) true
                       (borrow_history b ++ [mkBorrowRecord user now None])
                       (rating b) (num_ratings b))
  /\ (let '(b2, ok) := return_book b now in
      if is_borrowed b then
        ok = true
        /\ is_borrowed b2 = false
        /\ (title b2, author b2, genre b2, book_id b2, rating b2, num_ratings b2)
           = (title b, author b, genre b, book_id b, rating b, num_ratings b)
        /\ length (borrow_history b2) = length (borrow_history b)
        /\ (forall h e, borrow_history b = h ++ [e] ->
              borrow_history b2
              = h ++ [mkBorrowRecord (user_id e) (borrow_date e) (Some now)])
      else b2 = b /\ ok = false)
  /\ return_book (fst (return_book b now)) now' = (fst (return_book b now), false)
  /\ (if is_borrowed b then True
      else fst (return_book (fst (borrow b user now)) now')
           = mkBook (title b) (author b) (genre b) (book_id b) false
                    (borrow_history b ++ [mkBorrowRecord user now (Some now')])
                    (rating b) (num_ratings b)).
Proof.
  destruct b as [t a g i bo h r n]. unfold borrow, return_book. simpl.
  destruct bo; simpl.
  - repeat split.
    + destruct h; [reflexivity|]. apply set_last_return_length.
    + intros h0 e ->. destruct (h0 ++ [e]) eqn:E.
      * destruct h0; discriminate.
      * rewrite <- E. apply set_last_return_app.
  - repeat split.
    destruct (h ++ [mkBorrowRecord user now None]) eqn:E.
    + destruct h; discriminate.
    + rewrite <- E. now rewrite set_last_return_app.
Qed.

(** A book U1 holds: a second [borrow] is refused, [return_book] closes
    the open entry, and a second [return_book] is refused. *)
Lemma borrow_return_protocol_witness :
  let entry := mkBorrowRecord "U1" "2024-01-01T10:00:00" None in
  let b := mkBook "Dune" "Herbert" "Sci-Fi" "1" true [entry] 0%float 0 in
  let returned :=
    mkBook "Dune" "Herbert" "Sci-Fi" "1" false
      [mkBorrowRecord "U1" "2024-01-01T10:00:00" (Some "2024-01-08T10:00:00")]
      0%float 0 in
  borrow b "U2" "2024-01-02T10:00:00" = (b, false)
  /\ borrow_history (return_book b "2024-01-08T10:00:00").1 = borrow_history returned
  /\ return_book (return_book b "2024-01-08T10:00:00").1 "2024-01-09T10:00:00"
     = ((return_book b "2024-01-08T10:00:00").1, false).
Proof.
  intros entry b returned.
  pose proof (borrow_return_protocol float binary64 b "U2" "2024-01-02T10:00:00"
                "2024-01-09T10:00:00") as (Hborrow & _).
  pose proof (borrow_return_protocol float binary64 b "U2" "2024-01-08T10:00:00"
                "2024-01-09T10:00:00") as (_ & Hreturn & Htwice & _).
  simpl in Hborrow, Hreturn.
  split; [|split].
  - destruct Hborrow as [Hb Hok]. reflexivity.
  - destruct Hreturn as (_ & _ & _ & _ & Hlast). exact (Hlast [] entry eq_refl).
  - exact Htwice.
Defined.

(** ** [Book]: serialization *)

Section SerializationFacts.
Context {F : Type} `{PyFloat F}.

Lemma from_dict_to_dict (b : Book F) : from_dict (to_dict b) = Ok b.
Proof. destruct b. vm_compute. reflexivity. Qed.

Lemma from_dicts_to_dicts (bs : list (Book F)) :
  from_dicts (map to_dict bs) = Ok bs.
Proof.
  induction bs as [|b bs IH]; [reflexivity|].
  cbn [map from_dicts]. rewrite from_dict_to_dict, IH. reflexivity.
Qed.

Lemma from_dict_defaults (d : gmap string (PyVal F)) (b : Book F) :
  from_dict d = Ok b ->
  (d !! "rating" = None -> rating b = of_int 0)
  /\ (d !! "num_ratings" = None -> num_ratings b = 0).
Proof.
  unfold from_dict, getitem, get, pbind, as_str, as_bool, as_history,
    as_float, as_int.
  intros Hd.
  repeat (case_match; try discriminate).
  all: simplify_eq; simpl; split; intros Hk; try discriminate Hk; reflexivity.
Qed.
End SerializationFacts.

(** C6. Deserializing the dictionary a book serializes to gives the book
    back, attribute for attribute, whatever its history and ratings are;
    a dictionary without the key ['rating'] (or ['num_ratings'])
    deserializes to a book whose rating (or count) is 0; and a library
    constructed from the file another one saved is that library, with
    the same books. *)
Theorem serialization_round_trip (F : Type) (PF : PyFloat F) :
  (forall b : Book F, from_dict (to_dict b) = Ok b)
  /\ (forall b : Book F,
        from_dict (delete "rating" (to_dict b))
        = Ok (mkBook (title b) (author b) (genre b) (book_id b) (is_borrowed b)
                     (borrow_history b) (of_int 0) (num_ratings b))
        /\ from_dict (delete "num_ratings" (to_dict b))
           = Ok (mkBook (title b) (author b) (genre b) (book_id b) (is_borrowed b)
                        (borrow_history b) (rating b) 0))
  /\ (forall (d : gmap string (PyVal F)) (b : Book F),
        from_dict d = Ok b ->
        (d !! "rating" = None -> rating b = of_int 0)
        /\ (d !! "num_ratings" = None -> num_ratings b = 0))
  /\ (forall lib : Library F,
        new_Library (data_file (save_books lib)) = Ok (save_books lib)
        /\ books (save_books lib) = books lib).
Proof.
  split; [apply from_dict_to_dict|].
  split; [intros [t a g i bo h r n]; split; vm_compute; reflexivity|].
  split; [apply from_dict_defaults|].
  intros lib. split; [|reflexivity].
  unfold new_Library, load_books, save_books. simpl.
  now rewrite from_dicts_to_dicts.
Qed.

(** A book with an empty history and no rating survives the round trip,
    and its dictionary without the two rating keys reads back the same. *)
Lemma serialization_round_trip_witness :
  let b := new_Book (F := float) "Dune" "Herbert" "Sci-Fi" "1" in
  let d := delete "rating" (delete "num_ratings" (to_dict b)) in
  from_dict (to_dict b) = Ok b
  /\ from_dict d = Ok b
  /\ rating b = 0%float /\ num_ratings b = 0.
Proof.
  intros b d.
  split; [exact (proj1 (serialization_round_trip float binary64) b)|].
  assert (Hd : from_dict d = Ok b) by (vm_compute; reflexivity).
  split; [exact Hd|].
  destruct (proj1 (proj2 (proj2 (serialization_round_trip float binary64))) d b Hd)
    as [Hr Hn].
  split.
  - rewrite Hr; vm_compute; reflexivity.
  - apply Hn. vm_compute. reflexivity.
Defined.

(** ** [Library.add_book] *)

Section AddBookFacts.
Context {F : Type} `{PyFloat F}.

Lemma truthy_false (s : option string) : truthy s = false <-> missing s.
Proof.
  unfold truthy, missing. destruct s as [s|].
  - destruct (String.eqb_spec s ""); simpl; split; intros Hs;
      try discriminate; try (right; congruence); try reflexivity.
    destruct Hs as [Hs|Hs]; congruence.
  - split; auto.
Qed.

Lemma truthy_true (s : option string) :
  truthy s = true <-> exists s', s = Some s' /\ s' <> "".
Proof.
  unfold truthy. destruct s as [s|].
  - destruct (String.eqb_spec s ""); simpl; split; intros Hs;
      try discriminate; eauto.
    destruct Hs as (s' & [= <-] & Hne). contradiction.
  - split; [discriminate|]. intros (s' & Hs & _). discriminate.
Qed.

Lemma id_taken_spec (bs : list (Book F)) (i : option string) :
  existsb (fun b => bool_decide (Some (book_id b) = i)) bs = true
  <-> exists b, In b bs /\ Some (book_id b) = i.
Proof.
  rewrite existsb_exists. split; intros (b & Hb & Hi); exists b; split; auto.
  - now apply bool_decide_eq_true in Hi.
  - now apply bool_decide_eq_true.
Qed.

Lemma find_by_id_fresh (bs : list (Book F)) (b : Book F) df :
  (forall b', In b' bs -> book_id b' <> book_id b) ->
  find_by_id (mkLibrary (bs ++ [b]) df) (book_id b) = Some b.
Proof.
  unfold find_by_id. simpl. induction bs as [|x bs IH]; intros Hfresh; simpl.
  - now rewrite String.eqb_refl.
  - destruct (String.eqb_spec (book_id x) (book_id b)) as [E|_].
    + exfalso. apply (Hfresh x); [now left|exact E].
    + apply IH. intros b' Hb'. apply Hfresh. now right.
Qed.
End AddBookFacts.

(** C5. [add_book] with an empty or absent argument prints the validation
    error and leaves the library as it was; with four non-empty arguments
    and an id some book already has, it prints the duplicate-id error and
    leaves the library (so its size) as it was; otherwise it appends exactly
    one book, with the given attributes and not borrowed, saves, and the
    lookup by id then finds that book. *)
Theorem add_book_outcomes (F : Type) (PF : PyFloat F)
    (lib : Library F) (t a g i : option string) :
  (missing t \/ missing a \/ missing g \/ missing i ->
   add_book lib t a g i = Ok (lib, validation_error))
  /\ (~ (missing t \/ missing a \/ missing g \/ missing i) ->
      (exists b, In b (books lib) /\ Some (book_id b) = i) ->
      add_book lib t a g i = Ok (lib, duplicate_id_error))
  /\ (forall t' a' g' i' : string,
        t = Some t' -> a = Some a' -> g = Some g' -> i = Some i' ->
        t' <> "" -> a' <> "" -> g' <> "" -> i' <> "" ->
        (forall b, In b (books lib) -> book_id b <> i') ->
        exists lib',
          add_book lib t a g i = Ok (lib', "Book '" +:+ t' +:+ "' added successfully.")
          /\ books lib' = books lib ++ [mkBook t' a' g' i' false [] (of_int 0) 0]
          /\ length (books lib') = S (length (books lib))
          /\ data_file lib' = Some (map to_dict (books lib'))
          /\ exists b, find_by_id lib' i' = Some b
                       /\ title b = t' /\ author b = a' /\ genre b = g'
                       /\ book_id b = i' /\ is_borrowed b = false).
Proof.
  assert (Hall : forallb truthy [t; a; g; i] = false
                 <-> missing t \/ missing a \/ missing g \/ missing i).
  { cbn [forallb]. rewrite !andb_false_iff, <- !truthy_false.
    intuition discriminate. }
  split; [|split].
  - intros Hm. apply Hall in Hm. unfold add_book, add_book_try.
    now rewrite Hm.
  - intros Hm Hdup. unfold add_book, add_book_try.
    destruct (forallb truthy [t; a; g; i]) eqn:E;
      [|exfalso; apply Hm, Hall; reflexivity].
    apply id_taken_spec in Hdup. simpl. now rewrite Hdup.
  - intros t' a' g' i' -> -> -> -> Ht Ha Hg Hi Hfresh.
    unfold add_book, add_book_try.
    assert (E : forallb truthy [Some t'; Some a'; Some g'; Some i'] = true).
    { cbn [forallb]. rewrite !andb_true_iff.
      repeat split; apply truthy_true; eauto. }
    rewrite E. simpl negb. cbv iota.
    destruct (existsb _ (books lib)) eqn:Ex.
    { apply id_taken_spec in Ex. destruct Ex as (b & Hb & [= Hbi]).
      exfalso. exact (Hfresh b Hb Hbi). }
    eexists. split; [reflexivity|]. simpl.
    split; [reflexivity|]. split; [rewrite length_app; simpl; lia|].
    split; [reflexivity|].
    exists (new_Book t' a' g' i'). split; [|now repeat split].
    apply (find_by_id_fresh (books lib) (new_Book t' a' g' i')). exact Hfresh.
Qed.

(** On a library holding "Dune" under id 1: a missing title is refused, a
    second book under id 1 is refused, and "Emma" under id 2 is added and
    found. *)
Lemma add_book_outcomes_witness :
  let dune := new_Book (F := float) "Dune" "Herbert" "Sci-Fi" "1" in
  let lib := mkLibrary [dune] None in
  add_book lib (Some "") (Some "Austen") (Some "Novel") (Some "2")
  = Ok (lib, validation_error)
  /\ add_book lib (Some "Emma") (Some "Austen") (Some "Novel") (Some "1")
     = Ok (lib, duplicate_id_error)
  /\ exists lib',
       add_book lib (Some "Emma") (Some "Austen") (Some "Novel") (Some "2")
       = Ok (lib', "Book 'Emma' added successfully.")
       /\ length (books lib') = 2%nat
       /\ exists b, find_by_id lib' "2" = Some b /\ is_borrowed b = false.
Proof.
  intros dune lib. split; [|split].
  - apply (add_book_outcomes float binary64 lib).
    left. right. reflexivity.
  - apply (add_book_outcomes float binary64 lib).
    + unfold missing. intros [[?|?]|[[?|?]|[[?|?]|[?|?]]]]; discriminate.
    + exists dune. split; [now left|reflexivity].
  - destruct (proj2 (proj2 (add_book_outcomes float binary64 lib
        (Some "Emma") (Some "Austen") (Some "Novel") (Some "2")))
        "Emma" "Austen" "Novel" "2" eq_refl eq_refl eq_refl eq_refl)
      as (lib' & Hadd & _ & Hlen & _ & b & Hfind & _ & _ & _ & _ & Hb);
      try discriminate.
    { intros b [<-|[]]. discriminate. }
    exists lib'. split; [exact Hadd|]. split; [exact Hlen|].
    exists b. split; [exact Hfind|exact Hb].
Defined.

(** ** [Library.generate_statistics] *)

Section CounterFacts.

Lemma count_of_incr (d : gmap string Z) (k g : string) :
  count_of (incr d k) g = count_of d g + (if String.eqb k g then 1 else 0).
Proof.
  unfold incr, count_of. destruct (String.eqb_spec k g) as [->|Hne].
  - rewrite lookup_insert_eq. reflexivity.
  - rewrite lookup_insert_ne by exact Hne. lia.
Qed.

Lemma lookup_incr_None (d : gmap string Z) (k g : string) :
  incr d k !! g = None <-> d !! g = None /\ k <> g.
Proof.
  unfold incr. destruct (decide (k = g)) as [->|Hne].
  - rewrite lookup_insert_eq. split; [intros [=]|intros [_ Hg]; now elim Hg].
  - rewrite lookup_insert_ne by exact Hne. tauto.
Qed.

Lemma total_count_insert (d : gmap string Z) (k : string) (v : Z) :
  total_count (<[k := v]> d) = total_count d - count_of d k + v.
Proof.
  assert (Hcomm : forall z1 z2 y : Z, z1 + (z2 + y) = z2 + (z1 + y))
    by (intros; lia).
  unfold total_count, count_of. destruct (d !! k) as [old|] eqn:Hk.
  - rewrite <- insert_delete_eq.
    rewrite map_fold_insert_L; [|intros; apply Hcomm|apply lookup_delete_eq].
    rewrite (map_fold_delete_L _ _ k old d); [|intros; apply Hcomm|exact Hk].
    simpl. lia.
  - rewrite map_fold_insert_L; [|intros; apply Hcomm|exact Hk]. simpl. lia.
Qed.

Lemma total_count_incr (d : gmap string Z) (k : string) :
  total_count (incr d k) = total_count d + 1.
Proof. unfold incr. rewrite total_count_insert. lia. Qed.

Lemma append_to_lookup {A : Type} (d : gmap string (list A)) (k g : string) (x : A) :
  default [] (append_to d k x !! g)
  = default [] (d !! g) ++ (if String.eqb k g then [x] else []).
Proof.
  unfold append_to. destruct (String.eqb_spec k g) as [->|Hne].
  - now rewrite lookup_insert_eq.
  - rewrite lookup_insert_ne by exact Hne. now rewrite app_nil_r.
Qed.

Lemma append_to_lookup_None {A : Type} (d : gmap string (list A)) (k g : string) (x : A) :
  append_to d k x !! g = None <-> d !! g = None /\ k <> g.
Proof.
  unfold append_to. destruct (decide (k = g)) as [->|Hne].
  - rewrite lookup_insert_eq. split; [intros [=]|intros [_ Hg]; now elim Hg].
  - rewrite lookup_insert_ne by exact Hne. tauto.
Qed.

End CounterFacts.

Section StatisticsFacts.
Context {F : Type} `{PyFloat F}.

Lemma stats_of_snoc (l : list (Book F)) (b : Book F) : stats_of (l ++ [b]) = add_to_statistics (stats_of l) b.
Proof. unfold stats_of. now rewrite fold_left_app. Qed.

Lemma length_filter_snoc (p : Book F -> bool) l b :
  Z.of_nat (length (List.filter p (l ++ [b])))
  = Z.of_nat (length (List.filter p l)) + (if p b then 1 else 0).
Proof.
  rewrite List.filter_app, length_app. simpl. destruct (p b); simpl; lia.
Qed.

Lemma genres_count (l : list (Book F)) (g : string) :
  count_of (genres (stats_of l)) g = Z.of_nat (length (of_genre g l)).
Proof.
  induction l as [|b l IH] using rev_ind; [reflexivity|].
  rewrite stats_of_snoc. unfold of_genre in *. simpl genres.
  rewrite count_of_incr, IH, length_filter_snoc. reflexivity.
Qed.

Lemma authors_count (l : list (Book F)) (a : string) :
  count_of (authors (stats_of l)) a = Z.of_nat (length (of_author a l)).
Proof.
  induction l as [|b l IH] using rev_ind; [reflexivity|].
  rewrite stats_of_snoc. unfold of_author in *. simpl authors.
  rewrite count_of_incr, IH, length_filter_snoc. reflexivity.
Qed.

Lemma genres_absent (l : list (Book F)) (g : string) :
  genres (stats_of l) !! g = None <-> forall b, In b l -> genre b <> g.
Proof.
  induction l as [|b l IH] using rev_ind.
  - split; [intros _ b []|reflexivity].
  - rewrite stats_of_snoc. simpl genres. rewrite lookup_incr_None, IH.
    setoid_rewrite in_app_iff. simpl. split.
    + intros [Hl Hb] b' [Hb'|[<-|[]]]; auto.
    + intros Hall. split; [intros b' Hb'|]; apply Hall; auto.
Qed.

Lemma authors_absent (l : list (Book F)) (a : string) :
  authors (stats_of l) !! a = None <-> forall b, In b l -> author b <> a.
Proof.
  induction l as [|b l IH] using rev_ind.
  - split; [intros _ b []|reflexivity].
  - rewrite stats_of_snoc. simpl authors. rewrite lookup_incr_None, IH.
    setoid_rewrite in_app_iff. simpl. split.
    + intros [Hl Hb] b' [Hb'|[<-|[]]]; auto.
    + intros Hall. split; [intros b' Hb'|]; apply Hall; auto.
Qed.

Lemma genres_total (l : list (Book F)) : total_count (genres (stats_of l)) = Z.of_nat (length l).
Proof.
  induction l as [|b l IH] using rev_ind; [reflexivity|].
  rewrite stats_of_snoc. simpl genres.
  rewrite total_count_incr, IH, length_app. simpl. lia.
Qed.

Lemma authors_total (l : list (Book F)) : total_count (authors (stats_of l)) = Z.of_nat (length l).
Proof.
  induction l as [|b l IH] using rev_ind; [reflexivity|].
  rewrite stats_of_snoc. simpl authors.
  rewrite total_count_incr, IH, length_app. simpl. lia.
Qed.

Lemma ratings_lists (l : list (Book F)) (g : string) :
  default [] (ratings (stats_of l) !! g) = map rating (rated_of_genre g l).
Proof.
  induction l as [|b l IH] using rev_ind; [reflexivity|].
  rewrite stats_of_snoc. unfold rated_of_genre in *. simpl ratings.
  rewrite List.filter_app, map_app, <- IH. simpl.
  destruct (0 <? num_ratings b).
  - rewrite append_to_lookup, andb_true_r.
    now destruct (String.eqb (genre b) g).
  - now rewrite andb_false_r, app_nil_r.
Qed.

Lemma ratings_absent (l : list (Book F)) (g : string) :
  ratings (stats_of l) !! g = None <-> rated_of_genre g l = [].
Proof.
  induction l as [|b l IH] using rev_ind; [easy|].
  rewrite stats_of_snoc. unfold rated_of_genre in *. simpl ratings.
  rewrite List.filter_app. simpl.
  destruct (0 <? num_ratings b).
  - rewrite append_to_lookup_None, IH, andb_true_r.
    destruct (String.eqb_spec (genre b) g) as [E|E].
    + split; [tauto|]. intros Happ. apply app_eq_nil in Happ as [_ [=]].
    + rewrite app_nil_r. tauto.
  - now rewrite andb_false_r, app_nil_r.
Qed.

Lemma frequency_last (l1 : list (Book F)) (b : Book F) (l2 : list (Book F)) :
  (forall b', In b' l2 -> title b' <> title b) ->
  borrow_frequency (stats_of (l1 ++ b :: l2)) !! title b
  = Some (Z.of_nat (length (borrow_history b))).
Proof.
  induction l2 as [|x l2 IH] using rev_ind; intros Hlater.
  - rewrite stats_of_snoc. simpl. apply lookup_insert_eq.
  - change (l1 ++ b :: l2 ++ [x]) with (l1 ++ (b :: l2) ++ [x]).
    rewrite app_assoc, stats_of_snoc. simpl borrow_frequency.
    rewrite lookup_insert_ne.
    + apply IH. intros b' Hb'. apply Hlater, in_app_iff. now left.
    + apply Hlater, in_app_iff. right. now left.
Qed.

Lemma frequency_absent (l : list (Book F)) (t : string) :
  borrow_frequency (stats_of l) !! t = None <-> forall b, In b l -> title b <> t.
Proof.
  induction l as [|b l IH] using rev_ind.
  - split; [intros _ b []|reflexivity].
  - rewrite stats_of_snoc. simpl borrow_frequency.
    setoid_rewrite in_app_iff. simpl.
    destruct (decide (title b = t)) as [E|E].
    + rewrite E, lookup_insert_eq. split; [intros [=]|].
      intros Hall. exfalso. apply (Hall b); auto.
    + rewrite lookup_insert_ne by exact E. rewrite IH. split.
      * intros Hl b' [Hb'|[<-|[]]]; auto.
      * intros Hall b' Hb'. apply Hall. auto.
Qed.
End StatisticsFacts.

(** C2, as the code has it.  [generate_statistics] folds once over the
    catalog and returns: per genre (and per author) the number of books,
    with no entry for a genre (an author) without books, the counts
    summing to the number of books; per genre the list of the ratings of
    its books with [num_ratings > 0], in catalog order, with no entry for a
    genre without rated books; and per title the length of the borrow
    history of the last book of the catalog with that title, with no entry
    for a title no book has.  For a book whose title no later book shares,
    that is the length of its own history. *)
Theorem generate_statistics_summary (F : Type) (PF : PyFloat F) (lib : Library F) :
  let stats := generate_statistics lib in
  (forall g, count_of (genres stats) g = Z.of_nat (length (of_genre g (books lib))))
  /\ (forall g, genres stats !! g = None <-> forall b, In b (books lib) -> genre b <> g)
  /\ total_count (genres stats) = Z.of_nat (length (books lib))
  /\ (forall a, count_of (authors stats) a = Z.of_nat (length (of_author a (books lib))))
  /\ (forall a, authors stats !! a = None <-> forall b, In b (books lib) -> author b <> a)
  /\ total_count (authors stats) = Z.of_nat (length (books lib))
  /\ (forall g, default [] (ratings stats !! g)
                = map rating (rated_of_genre g (books lib)))
  /\ (forall g, ratings stats !! g = None <-> rated_of_genre g (books lib) = [])
  /\ (forall l1 b l2,
        books lib = l1 ++ b :: l2 ->
        (forall b', In b' l2 -> title b' <> title b) ->
        borrow_frequency stats !! title b
        = Some (Z.of_nat (length (borrow_history b))))
  /\ (forall t, borrow_frequency stats !! t = None
                <-> forall b, In b (books lib) -> title b <> t).
Proof.
  intros stats. subst stats. unfold generate_statistics.
  repeat split.
  - apply genres_count.
  - apply genres_absent.
  - apply genres_absent.
  - apply genres_total.
  - apply authors_count.
  - apply authors_absent.
  - apply authors_absent.
  - apply authors_total.
  - apply ratings_lists.
  - apply ratings_absent.
  - apply ratings_absent.
  - intros l1 b l2 -> Hlater. now apply frequency_last.
  - apply frequency_absent.
  - apply frequency_absent.
Qed.

(** Two copies of "Dune", the first borrowed once, the second never: under
    the title stands 0, the history length of the second copy, not 1. *)
Lemma frequency_of_every_record_fails :
  ~ frequency_of_every_record
      (mkLibrary
         [mkBook "Dune" "Herbert" "Sci-Fi" "1" false
                 [mkBorrowRecord "U1" "2024-01-01T10:00:00" (Some "2024-01-08T10:00:00")]
                 4%float 1;
          mkBook "Dune" "Herbert" "Sci-Fi" "2" false [] 0%float 0]
         None).
Proof.
  intros Hall.
  specialize (Hall _ (or_introl eq_refl)).
  vm_compute in Hall. discriminate Hall.
Qed.

(** Three books in two genres: the genre counts are 2 and 1 and sum to 3,
    the one rated book gives its genre the list of its rating, and each
    title, none shared, carries the length of its book's history. *)
Lemma generate_statistics_summary_witness :
  let entry := mkBorrowRecord "U1" "2024-01-01T10:00:00" (Some "2024-01-08T10:00:00") in
  let dune := mkBook "Dune" "Herbert" "Sci-Fi" "1" false [entry; entry] 4%float 1 in
  let emma := mkBook "Emma" "Austen" "Novel" "2" false [entry] 0%float 0 in
  let solaris := mkBook "Solaris" "Lem" "Sci-Fi" "3" false [] 0%float 0 in
  let lib := mkLibrary [dune; emma; solaris] None in
  let stats := generate_statistics lib in
  total_count (genres stats) = 3
  /\ count_of (genres stats) "Sci-Fi" = 2
  /\ count_of (genres stats) "Novel" = 1
  /\ default [] (ratings stats !! "Sci-Fi") = [4%float]
  /\ borrow_frequency stats !! "Dune" = Some 2
  /\ borrow_frequency stats !! "Emma" = Some 1
  /\ borrow_frequency stats !! "Solaris" = Some 0.
Proof.
  intros entry dune emma solaris lib stats.
  destruct (generate_statistics_summary float binary64 lib)
    as (Hg & _ & Htot & _ & _ & _ & Hr & _ & Hf & _).
  fold stats in Hg, Htot, Hr, Hf.
  split; [rewrite Htot; reflexivity|].
  split; [rewrite Hg; reflexivity|].
  split; [rewrite Hg; reflexivity|].
  split; [rewrite Hr; reflexivity|].
  split; [|split].
  - apply (Hf [] dune [emma; solaris]); [reflexivity|].
    intros b' [<-|[<-|[]]]; discriminate.
  - apply (Hf [dune] emma [solaris]); [reflexivity|].
    intros b' [<-|[]]; discriminate.
  - apply (Hf [dune; emma] solaris []); [reflexivity|].
    intros b' [].
Defined.

(** ** The order of floats *)

Section Binary64Order.

Lemma SFcompare_key a b :
  SFcompare a b
  = match sf_key a, sf_key b with
    | Some ka, Some kb => Some (lexcompare ka kb)
    | _, _ => None
    end.
Proof.
  destruct a as [sa|sa| |sa ma ea], b as [sb|sb| |sb mb eb];
    try destruct sa; try destruct sb; try reflexivity.
  cbn -[Z.compare Z.opp].
  change (-1 ?= -1) with Eq. cbv iota.
  rewrite Z.compare_opp, (Z.compare_antisym ea eb).
  destruct (ea ?= eb); simpl; reflexivity.
Qed.

Lemma lexcompare_Lt a b :
  lexcompare a b = Lt <->
  (a.1.1 < b.1.1
   \/ a.1.1 = b.1.1 /\ (a.1.2 < b.1.2 \/ a.1.2 = b.1.2 /\ a.2 < b.2)).
Proof.
  destruct a as [[a1 a2] a3], b as [[b1 b2] b3]. simpl.
  destruct (Z.compare_spec a1 b1), (Z.compare_spec a2 b2), (Z.compare_spec a3 b3);
    split; intros; try discriminate; try reflexivity; try lia.
Qed.

Lemma lexcompare_Eq a b : lexcompare a b = Eq <-> a = b.
Proof.
  destruct a as [[a1 a2] a3], b as [[b1 b2] b3]. simpl.
  destruct (Z.compare_spec a1 b1), (Z.compare_spec a2 b2), (Z.compare_spec a3 b3);
    split; intros E; try discriminate; try reflexivity; try congruence;
    injection E; lia.
Qed.

Lemma ltb_key x y :
  PrimFloat.ltb x y = true <->
  exists a b, float_key x = Some a /\ float_key y = Some b /\ lexcompare a b = Lt.
Proof.
  rewrite FloatAxioms.ltb_spec. unfold SFltb, float_key. rewrite SFcompare_key.
  destruct (sf_key (Prim2SF x)) as [a|], (sf_key (Prim2SF y)) as [b|];
    try (split; [discriminate|intros (? & ? & ? & ? & ?); discriminate]).
  destruct (lexcompare a b) eqn:E; split; try discriminate; eauto.
  all: intros (? & ? & [= <-] & [= <-] & ?); congruence.
Qed.

Lemma eqb_key x y :
  PrimFloat.eqb x y = true <->
  exists a, float_key x = Some a /\ float_key y = Some a.
Proof.
  rewrite FloatAxioms.eqb_spec. unfold SFeqb, float_key. rewrite SFcompare_key.
  destruct (sf_key (Prim2SF x)) as [a|], (sf_key (Prim2SF y)) as [b|];
    try (split; [discriminate|intros (? & ? & ?); discriminate]).
  destruct (lexcompare a b) eqn:E; split; try discriminate; eauto.
  - apply lexcompare_Eq in E. subst. eauto.
  - intros (c & [= Ha] & [= Hb]). subst a b.
    rewrite (proj2 (lexcompare_Eq c c) eq_refl) in E. discriminate.
  - intros (c & [= Ha] & [= Hb]). subst a b.
    rewrite (proj2 (lexcompare_Eq c c) eq_refl) in E. discriminate.
Qed.

Lemma is_nan_key x : PrimFloat.is_nan x = false <-> exists a, float_key x = Some a.
Proof.
  unfold is_nan. rewrite negb_false_iff, eqb_key.
  split; intros (a & Ha); [destruct Ha|]; eauto.
Qed.

Lemma opp_key x :
  float_key (- x)%float
  = option_map (fun '(a, b, c) => (- a, - b, - c)) (float_key x).
Proof.
  unfold float_key. rewrite FloatAxioms.opp_spec.
  destruct (Prim2SF x) as [s|s| |s m e]; simpl; try reflexivity;
    destruct s; simpl; try reflexivity.
  now rewrite Z.opp_involutive.
Qed.


End Binary64Order.

#[export] Instance binary64_order : PyFloatOrder float.
Proof.
  split; simpl.
  - intros x. apply not_true_is_false. intros (a & b & Ha & Hb & Hc)%ltb_key.
    rewrite Ha in Hb. injection Hb as <-. apply lexcompare_Lt in Hc. lia.
  - intros x y (a & b & Ha & Hb & _)%ltb_key.
    split; apply is_nan_key; eauto.
  - intros x y z (a & b & Ha & Hb & Hab)%ltb_key (b' & c & Hb' & Hc & Hbc)%ltb_key.
    rewrite Hb in Hb'. injection Hb' as <-.
    apply ltb_key. exists a, c. repeat split; try assumption.
    apply lexcompare_Lt in Hab, Hbc. apply lexcompare_Lt. lia.
  - intros x y (a & b & Ha & Hb & Hab)%ltb_key.
    apply not_true_is_false. intros (c & Hc & Hc')%eqb_key.
    rewrite Ha in Hc. rewrite Hb in Hc'. injection Hc as <-. injection Hc' as <-.
    apply lexcompare_Lt in Hab. lia.
  - intros x y. apply eq_true_iff_eq. rewrite !eqb_key.
    split; intros (a & Ha & Hb); eauto.
  - intros x y z (a & Ha & Hb)%eqb_key. apply eq_true_iff_eq. rewrite !eqb_key.
    split; intros (c & Hc & Hc'); exists c; split; congruence.
  - intros x y z (a & Ha & Hb)%eqb_key. apply eq_true_iff_eq. rewrite !ltb_key.
    split; intros (c & d & Hc & Hd & Hcd); exists c, d; repeat split; congruence.
  - intros x y z (a & Ha & Hb)%eqb_key. apply eq_true_iff_eq. rewrite !ltb_key.
    split; intros (c & d & Hc & Hd & Hcd); exists c, d; repeat split; congruence.
  - intros x y (a & Ha)%is_nan_key (b & Hb)%is_nan_key.
    rewrite !ltb_key, eqb_key.
    destruct (lexcompare a b) eqn:E.
    + apply lexcompare_Eq in E. subst b. right. left. eauto.
    + left. eauto.
    + right. right. exists b, a. repeat split; try assumption.
      apply lexcompare_Lt.
      assert (Hne : a <> b).
      { intros ->. rewrite (proj2 (lexcompare_Eq b b) eq_refl) in E. discriminate. }
      assert (Hnlt : lexcompare a b <> Lt) by congruence.
      rewrite lexcompare_Lt in Hnlt.
      destruct a as [[a1 a2] a3], b as [[b1 b2] b3]. simpl in *.
      assert (a1 <> b1 \/ a2 <> b2 \/ a3 <> b3).
      { destruct (Z.eq_dec a1 b1); [|auto]. destruct (Z.eq_dec a2 b2); [|auto].
        destruct (Z.eq_dec a3 b3); [|auto]. subst. now elim Hne. }
      lia.
  - intros x y. apply eq_true_iff_eq. rewrite !ltb_key, !opp_key.
    split.
    + intros (a & b & Ha & Hb & Hab).
      destruct (float_key x) as [[[x1 x2] x3]|]; [|discriminate].
      destruct (float_key y) as [[[y1 y2] y3]|]; [|discriminate].
      simpl in Ha, Hb. injection Ha as <-. injection Hb as <-.
      eexists _, _. repeat split. apply lexcompare_Lt in Hab.
      apply lexcompare_Lt. simpl in *. lia.
    + intros (a & b & -> & -> & Hab). simpl.
      destruct a as [[y1 y2] y3], b as [[x1 x2] x3].
      eexists _, _. repeat split. apply lexcompare_Lt in Hab.
      apply lexcompare_Lt. simpl in *. lia.
  - intros x y. apply eq_true_iff_eq. rewrite !eqb_key, !opp_key.
    split.
    + intros (a & Ha & Hb).
      destruct (float_key x) as [[[x1 x2] x3]|]; [|discriminate].
      destruct (float_key y) as [[[y1 y2] y3]|]; [|discriminate].
      simpl in Ha, Hb. rewrite <- Hb in Ha. injection Ha as E1 E2 E3.
      eexists. split; [reflexivity|]. f_equal. f_equal; [f_equal|]; lia.
    + intros (a & -> & ->). simpl. eauto.
Qed.

(** ** Sorting *)

Section SortedFacts.
Context {A : Type} (lt : A -> A -> bool).

Lemma insert_sorted_perm x l : Permutation (insert_sorted lt x l) (x :: l).
Proof.
  induction l as [|y l IH]; simpl; [reflexivity|].
  destruct (lt x y); [reflexivity|].
  rewrite IH. apply perm_swap.
Qed.

Lemma insert_all_perm l acc :
  Permutation (fold_left (fun acc x => insert_sorted lt x acc) l acc) (acc ++ l).
Proof.
  revert acc. induction l as [|x l IH]; intros acc; simpl.
  - now rewrite app_nil_r.
  - rewrite IH, insert_sorted_perm. apply (Permutation_middle acc l x).
Qed.

Lemma sorted_perm l : Permutation (sorted lt l) l.
Proof. apply (insert_all_perm l []). Qed.

Lemma sorted_In l x : In x (sorted lt l) <-> In x l.
Proof.
  split; apply Permutation_in; [|symmetry]; apply sorted_perm.
Qed.

Hypothesis lt_irrefl : forall x, lt x x = false.
Hypothesis lt_trans : forall x y z, lt x y = true -> lt y z = true -> lt x z = true.

Lemma insert_sorted_ordered x l :
  StronglySorted (not_after lt) l ->
  StronglySorted (not_after lt) (insert_sorted lt x l).
Proof.
  induction 1 as [|y l Hl IH Hy]; simpl.
  - repeat constructor.
  - destruct (lt x y) eqn:Hxy.
    + constructor; [constructor; assumption|].
      constructor.
      * unfold not_after. apply not_true_is_false. intros Hyx.
        pose proof (lt_trans _ _ _ Hxy Hyx) as Hxx.
        rewrite lt_irrefl in Hxx. discriminate.
      * rewrite List.Forall_forall in *. intros w Hw. unfold not_after in *.
        apply not_true_is_false. intros Hwx.
        pose proof (lt_trans _ _ _ Hwx Hxy) as Hwy.
        rewrite (Hy w Hw) in Hwy. discriminate.
    + constructor; [exact IH|].
      rewrite List.Forall_forall in *. intros w Hw.
      apply (Permutation_in _ (insert_sorted_perm x l)) in Hw.
      destruct Hw as [<-|Hw]; [exact Hxy|now apply Hy].
Qed.

Lemma insert_all_ordered l acc :
  StronglySorted (not_after lt) acc ->
  StronglySorted (not_after lt)
    (fold_left (fun acc x => insert_sorted lt x acc) l acc).
Proof.
  revert acc. induction l as [|x l IH]; intros acc Hacc; simpl; [exact Hacc|].
  apply IH, insert_sorted_ordered, Hacc.
Qed.

Lemma sorted_ordered l : StronglySorted (not_after lt) (sorted lt l).
Proof. apply insert_all_ordered. constructor. Qed.

End SortedFacts.

(** ** Strings *)

Section StringFacts.

Lemma ascii_compare_refl c : Ascii.compare c c = Eq.
Proof. unfold Ascii.compare. apply N.compare_refl. Qed.

Lemma string_compare_refl s : String.compare s s = Eq.
Proof.
  induction s as [|c s IH]; simpl; [reflexivity|].
  now rewrite ascii_compare_refl.
Qed.

Lemma string_compare_lt_trans s1 s2 s3 :
  String.compare s1 s2 = Lt -> String.compare s2 s3 = Lt ->
  String.compare s1 s3 = Lt.
Proof.
  revert s2 s3. induction s1 as [|c1 s1 IH]; intros [|c2 s2] [|c3 s3]; simpl;
    try discriminate; try reflexivity.
  unfold Ascii.compare.
  destruct (N.compare_spec (N_of_ascii c1) (N_of_ascii c2)) as [E12|L12|G12];
    try discriminate;
    destruct (N.compare_spec (N_of_ascii c2) (N_of_ascii c3)) as [E23|L23|G23];
    try discriminate; intros H12 H23.
  - rewrite E12, E23, N.compare_refl. eapply IH; eassumption.
  - rewrite E12. now apply N.compare_lt_iff in L23 as ->.
  - rewrite <- E23. now apply N.compare_lt_iff in L12 as ->.
  - assert (L13 : (N_of_ascii c1 < N_of_ascii c3)%N) by lia.
    now apply N.compare_lt_iff in L13 as ->.
Qed.

Lemma string_ltb_irrefl s : String.ltb s s = false.
Proof. unfold String.ltb. now rewrite string_compare_refl. Qed.

Lemma string_ltb_trans s1 s2 s3 :
  String.ltb s1 s2 = true -> String.ltb s2 s3 = true -> String.ltb s1 s3 = true.
Proof.
  unfold String.ltb. intros H12 H23.
  destruct (String.compare s1 s2) eqn:E12; try discriminate.
  destruct (String.compare s2 s3) eqn:E23; try discriminate.
  now rewrite (string_compare_lt_trans _ _ _ E12 E23).
Qed.

Lemma string_leb_ltb s1 s2 : String.leb s1 s2 = negb (String.ltb s2 s1).
Proof.
  unfold String.leb, String.ltb. rewrite (String.compare_antisym s1 s2).
  now destruct (String.compare s2 s1).
Qed.

Lemma prefix_spec n h : String.prefix n h = true <-> exists post, h = n +:+ post.
Proof.
  revert h. induction n as [|c n IH]; intros h.
  - split; [intros _; exists h; reflexivity|intros _; now destruct h].
  - destruct h as [|c' h]; simpl.
    + split; [discriminate|intros (post & [=])].
    + destruct (Ascii.ascii_dec c c') as [<-|Hne].
      * rewrite IH. split; intros (post & Hpost); exists post.
        -- now rewrite Hpost.
        -- now injection Hpost.
      * split; [discriminate|]. intros (post & [= E _]). now elim Hne.
Qed.

Lemma str_in_spec n h : str_in n h = true <-> is_substring n h.
Proof.
  unfold is_substring. induction h as [|c h IH]; cbn [str_in].
  - rewrite orb_false_r, prefix_spec. split.
    + intros (post & Hpost). exists "", post. exact Hpost.
    + intros ([|? pre] & post & Hh); [|discriminate]. exists post. exact Hh.
  - rewrite orb_true_iff, IH, prefix_spec. split.
    + intros [(post & Hpost)|(pre & post & Hh)].
      * exists "", post. exact Hpost.
      * exists (String c pre), post. simpl. now rewrite Hh.
    + intros ([|c' pre] & post & Hh).
      * left. exists post. exact Hh.
      * right. simpl in Hh. injection Hh as _ Hh. eauto.
Qed.

Lemma str_in_empty h : str_in "" h = true.
Proof. apply str_in_spec. exists "", h. reflexivity. Qed.

End StringFacts.

(** ** [Library.search_books] *)

Section SearchFacts.
Context {F : Type} `{PyFloatOrder F}.

Lemma key_lt_irrefl (k : F * string) : key_lt k k = false.
Proof.
  unfold key_lt. destruct (feq k.1 k.1);
    [apply string_ltb_irrefl|apply flt_irrefl].
Qed.

Lemma key_lt_trans (k1 k2 k3 : F * string) :
  key_lt k1 k2 = true -> key_lt k2 k3 = true -> key_lt k1 k3 = true.
Proof.
  unfold key_lt.
  destruct (feq k1.1 k2.1) eqn:E12, (feq k2.1 k3.1) eqn:E23; intros H12 H23.
  - rewrite (feq_feq _ _ _ E12), E23. eapply string_ltb_trans; eassumption.
  - rewrite (feq_feq _ _ _ E12), E23, (feq_flt_l _ _ _ E12). exact H23.
  - rewrite feq_sym in E23.
    rewrite (feq_sym k1.1 k3.1), (feq_feq _ _ _ E23), (feq_sym k2.1 k1.1), E12.
    rewrite (feq_flt_r _ _ _ E23). exact H12.
  - pose proof (flt_trans _ _ _ H12 H23) as H13.
    now rewrite (flt_feq _ _ H13).
Qed.

Lemma not_after_rank_le (x y : Book F) :
  fnan (rating x) = false -> fnan (rating y) = false ->
  not_after (fun x y => key_lt (search_key x) (search_key y)) x y ->
  rank_le x y.
Proof.
  unfold not_after, key_lt, search_key, rank_le. simpl.
  intros Hx Hy. rewrite fneg_feq, fneg_flt, string_leb_ltb.
  destruct (feq (rating y) (rating x)) eqn:E.
  - intros ->. right. rewrite feq_sym. auto.
  - intros Hxy. left.
    destruct (flt_total _ _ Hx Hy) as [Hlt|[Heq|Hgt]]; [congruence| |exact Hgt].
    rewrite feq_sym in Heq. congruence.
Qed.

Variable lower : string -> string.

Lemma search_books_unfold (lib : Library F) term search_type :
  search_books lower lib term search_type
  = sorted (fun x y => key_lt (search_key x) (search_key y))
           (List.filter (selects lower term search_type) (books lib)).
Proof.
  unfold search_books, selects.
  destruct (String.eqb search_type "title"); [reflexivity|].
  destruct (String.eqb search_type "author"); [reflexivity|].
  destruct (String.eqb search_type "genre"); reflexivity.
Qed.

Lemma selects_spec term search_type (b : Book F) :
  In search_type ["title"; "author"; "genre"; "all"] ->
  selects lower term search_type b = true <-> field_matches lower term search_type b.
Proof.
  unfold selects, field_matches, selected_fields.
  intros [<-|[<-|[<-|[<-|[]]]]]; simpl; rewrite ?orb_true_iff, !str_in_spec.
  all: split;
    [ intros Hm; repeat destruct Hm as [Hm|Hm]; eauto 6
    | intros (f & Hf & Hm); repeat destruct Hf as [<-|Hf]; auto; destruct Hf ].
Qed.

Lemma search_books_ordered (lib : Library F) term search_type :
  (forall b, In b (books lib) -> fnan (rating b) = false) ->
  StronglySorted rank_le (search_books lower lib term search_type).
Proof.
  intros Hnan. rewrite search_books_unfold.
  set (lt := fun x y : Book F => key_lt (search_key x) (search_key y)).
  set (l := List.filter _ _).
  assert (Hl : forall b, In b (sorted lt l) -> fnan (rating b) = false).
  { intros b Hb%sorted_In. apply Hnan. unfold l in Hb.
    now apply filter_In in Hb. }
  assert (Hs : StronglySorted (not_after lt) (sorted lt l)).
  { apply sorted_ordered.
    - intros x. apply key_lt_irrefl.
    - intros x y z. apply key_lt_trans. }
  induction Hs as [|x s Hs IH Hx]; constructor.
  - apply IH. intros b Hb. apply Hl. now right.
  - rewrite List.Forall_forall in *. intros y Hy.
    apply not_after_rank_le; [apply Hl; now left|apply Hl; now right|].
    now apply Hx.
Qed.

End SearchFacts.

(** C7. For a search type among title, author, genre and all,
    [search_books] returns the books of the catalog whose selected
    attribute (one of the three for all) contains the term as a substring
    once both are lowercased, each as often as the catalog holds it, and no
    other; when no rating is NaN the result is ordered by descending
    rating, then by ascending title; and a term no book matches gives the
    empty list. *)
Theorem search_books_ranked (F : Type) (PF : PyFloat F) (PO : PyFloatOrder F)
    (lower : string -> string) (lib : Library F) (term search_type : string) :
  In search_type ["title"; "author"; "genre"; "all"] ->
  let result := search_books lower lib term search_type in
  (exists p : Book F -> bool,
      (forall b, p b = true <-> field_matches lower term search_type b)
      /\ Permutation result (List.filter p (books lib)))
  /\ (forall b, In b result
                <-> In b (books lib) /\ field_matches lower term search_type b)
  /\ ((forall b, In b (books lib) -> fnan (rating b) = false) ->
      StronglySorted rank_le result)
  /\ ((forall b, In b (books lib) -> ~ field_matches lower term search_type b) ->
      result = []).
Proof.
  intros Hty result.
  assert (Hperm : Permutation result
                    (List.filter (selects lower term search_type) (books lib))).
  { unfold result. rewrite search_books_unfold. apply sorted_perm. }
  assert (Hin : forall b, In b result
                  <-> In b (books lib) /\ field_matches lower term search_type b).
  { intros b. rewrite <- (selects_spec lower term search_type b Hty), <- filter_In.
    split; apply Permutation_in; [|symmetry]; exact Hperm. }
  split; [|split; [exact Hin|split]].
  - exists (selects lower term search_type). split; [|exact Hperm].
    intros b. now apply selects_spec.
  - intros Hnan. now apply search_books_ordered.
  - intros Hnone. destruct result as [|b result']; [reflexivity|].
    exfalso. destruct (proj1 (Hin b) (or_introl eq_refl)) as [Hb Hm].
    exact (Hnone b Hb Hm).
Qed.

(** A catalog of three books, two of them rated 4.0: the title search for
    "dune" finds "Dune" whatever the case of the term, the search for "e"
    in all attributes ranks "Dune" before "Emma" before "Solaris", and the
    term "zzz" finds nothing. *)
Lemma search_books_ranked_witness :
  let dune := mkBook "Dune" "Herbert" "Sci-Fi" "1" false [] 4%float 1 in
  let emma := mkBook "Emma" "Austen" "Novel" "2" false [] 4%float 2 in
  let solaris := mkBook "Solaris" "Lem" "Sci-Fi" "3" false [] 0%float 0 in
  let lib := mkLibrary [solaris; emma; dune] None in
  In "all" ["title"; "author"; "genre"; "all"]
  /\ StronglySorted rank_le (search_books ascii_lower lib "e" "all")
  /\ search_books ascii_lower lib "e" "all" = [dune; emma; solaris]
  /\ search_books ascii_lower lib "dune" "title" = [dune]
  /\ search_books ascii_lower lib "DUNE" "title" = [dune]
  /\ search_books ascii_lower lib "zzz" "all" = [].
Proof.
  intros dune emma solaris lib.
  assert (Hty : In "all" ["title"; "author"; "genre"; "all"])
    by (do 3 right; left; reflexivity).
  split; [exact Hty|]. split.
  - apply (search_books_ranked float binary64 binary64_order ascii_lower lib
             "e" "all" Hty).
    intros b [<-|[<-|[<-|[]]]]; reflexivity.
  - repeat split; vm_compute; reflexivity.
Defined.

(** C9. With the empty string as the term, and [str.lower] mapping the
    empty string to itself, [search_books] returns every book of the
    catalog, whatever the search type, in the order of the ranking
    (descending rating, then ascending title) when no rating is NaN. *)
Theorem search_books_empty_term (F : Type) (PF : PyFloat F) (PO : PyFloatOrder F)
    (lower : string -> string) (lib : Library F) (search_type : string) :
  lower "" = "" ->
  let result := search_books lower lib "" search_type in
  Permutation result (books lib)
  /\ (forall b, In b result <-> In b (books lib))
  /\ ((forall b, In b (books lib) -> fnan (rating b) = false) ->
      StronglySorted rank_le result).
Proof.
  intros Hlower result.
  assert (Hall : List.filter (selects lower "" search_type) (books lib) = books lib).
  { apply forallb_filter_id, forallb_forall. intros b _.
    unfold selects. rewrite Hlower, !str_in_empty.
    now repeat destruct (String.eqb search_type _). }
  assert (Hperm : Permutation result (books lib)).
  { unfold result. rewrite search_books_unfold, Hall. apply sorted_perm. }
  split; [exact Hperm|]. split.
  - intros b. split; apply Permutation_in; [|symmetry]; exact Hperm.
  - intros Hnan. now apply search_books_ordered.
Qed.

(** The empty term on the three-book catalog, for a search by genre. *)
Lemma search_books_empty_term_witness :
  let dune := mkBook "Dune" "Herbert" "Sci-Fi" "1" false [] 4%float 1 in
  let emma := mkBook "Emma" "Austen" "Novel" "2" false [] 4%float 2 in
  let solaris := mkBook "Solaris" "Lem" "Sci-Fi" "3" false [] 0%float 0 in
  let lib := mkLibrary [solaris; emma; dune] None in
  ascii_lower "" = ""
  /\ Permutation (search_books ascii_lower lib "" "genre") (books lib)
  /\ search_books ascii_lower lib "" "genre" = [dune; emma; solaris].
Proof.
  intros dune emma solaris lib.
  split; [reflexivity|]. split.
  - apply (search_books_empty_term float binary64 binary64_order ascii_lower lib
             "genre" eq_refl).
  - vm_compute. reflexivity.
Defined.

(** ** Invariants *)

Section HistoryFacts.
Context {F : Type} `{PyFloat F}.


Lemma history_split (h : list BorrowRecord) (e : BorrowRecord) :
  last h = Some e -> h = removelast h ++ [e].
Proof.
  intros Hlast. destruct h as [|x h] using rev_ind; [discriminate|].
  rewrite last_snoc in Hlast. injection Hlast as ->.
  now rewrite removelast_last.
Qed.

Lemma is_open_None e : is_open e = true <-> return_date e = None.
Proof. unfold is_open. destruct (return_date e); split; congruence. Qed.

Lemma history_ok_new t a g i : history_ok (new_Book (F := F) t a g i).
Proof.
  split; [constructor|]. unfold last_open_iff_borrowed. simpl.
  split; [discriminate|]. intros (e & [=] & _).
Qed.

Lemma history_ok_borrow (b : Book F) user now :
  history_ok b -> history_ok (borrow b user now).1.
Proof.
  intros [Hclosed Hlast]. unfold borrow.
  destruct (is_borrowed b) eqn:Hb; simpl; [now split|].
  split; simpl.
  - rewrite removelast_last.
    destruct (last (borrow_history b)) as [e|] eqn:He.
    + rewrite (history_split _ _ He). apply Forall_app. split; [exact Hclosed|].
      constructor; [|constructor]. apply not_true_is_false.
      intros Ho%is_open_None.
      assert (is_borrowed b = true) by (apply Hlast; eauto). congruence.
    + apply last_None in He. rewrite He. constructor.
  - unfold last_open_iff_borrowed. simpl. rewrite last_snoc.
    split; [eauto|reflexivity].
Qed.

Lemma history_ok_return_book (b : Book F) now :
  history_ok b -> history_ok (return_book b now).1.
Proof.
  intros [Hclosed Hlast]. unfold return_book.
  destruct (is_borrowed b) eqn:Hb; simpl; [|now split].
  destruct (proj1 Hlast Hb) as (e & He & Hopen).
  rewrite (history_split _ _ He).
  destruct (removelast (borrow_history b) ++ [e]) eqn:E.
  { destruct (removelast (borrow_history b)); discriminate. }
  rewrite <- E, set_last_return_app.
  split; simpl.
  - now rewrite removelast_last.
  - unfold last_open_iff_borrowed. simpl. rewrite last_snoc.
    split; [discriminate|]. intros (e' & [= <-] & [=]).
Qed.

Lemma history_ok_add_rating (b b' : Book F) r :
  add_rating b r = Ok b' -> history_ok b -> history_ok b'.
Proof.
  intros [->|(_ & _ & _ & _ & ->)]%add_rating_Ok Hok; exact Hok.
Qed.

Lemma history_ok_at_most_one_open (b : Book F) :
  history_ok b -> at_most_one_open b.
Proof.
  intros [Hclosed _]. unfold at_most_one_open.
  destruct (last (borrow_history b)) as [e|] eqn:He.
  - rewrite (history_split _ _ He), List.filter_app, length_app.
    assert (Hnone : List.filter is_open (removelast (borrow_history b)) = []).
    { induction Hclosed as [|x l Hx _ IH]; [reflexivity|].
      simpl. now rewrite Hx. }
    rewrite Hnone. simpl. destruct (is_open e); simpl; lia.
  - apply last_None in He. rewrite He. simpl. lia.
Qed.

Lemma count_ok_new t a g i : count_ok (new_Book (F := F) t a g i).
Proof. split; simpl; [lia|reflexivity]. Qed.

Lemma count_ok_add_rating (b b' : Book F) r :
  add_rating b r = Ok b' -> count_ok b -> count_ok b'.
Proof.
  intros [->|(_ & _ & _ & _ & ->)]%add_rating_Ok [Hn Hzero]; [now split|].
  split; simpl; lia.
Qed.

Lemma count_ok_borrow (b : Book F) user now :
  count_ok b -> count_ok (borrow b user now).1.
Proof. unfold borrow. now destruct (is_borrowed b). Qed.

Lemma count_ok_return_book (b : Book F) now :
  count_ok b -> count_ok (return_book b now).1.
Proof. unfold return_book. now destruct (is_borrowed b). Qed.

Lemma book_id_borrow (b : Book F) user now :
  book_id (borrow b user now).1 = book_id b.
Proof. unfold borrow. now destruct (is_borrowed b). Qed.

Lemma book_id_return_book (b : Book F) now :
  book_id (return_book b now).1 = book_id b.
Proof. unfold return_book. now destruct (is_borrowed b). Qed.

Lemma book_id_add_rating (b b' : Book F) r :
  add_rating b r = Ok b' -> book_id b' = book_id b.
Proof.
  intros [->|(_ & _ & _ & _ & ->)]%add_rating_Ok; reflexivity.
Qed.

End HistoryFacts.

(** ** The rounding of binary64 *)

(** Powers of two and the values of mantissas. *)
Lemma bpow_pos e : (0 < bpow e)%R.
Proof. apply powerRZ_lt. lra. Qed.

Lemma bpow_add a b : bpow (a + b) = (bpow a * bpow b)%R.
Proof. apply powerRZ_add. lra. Qed.

Lemma bpow_IZR k : 0 <= k -> bpow k = IZR (2 ^ k).
Proof.
  destruct k as [|p|p]; [reflexivity| |lia]. intros _.
  symmetry. apply Zpower_pos_powerRZ.
Qed.

Lemma bpow_ge_1 k : 0 <= k -> (1 <= bpow k)%R.
Proof.
  intros Hk. rewrite bpow_IZR by exact Hk. apply IZR_le.
  pose proof (Z.pow_pos_nonneg 2 k). lia.
Qed.

Lemma bpow_succ e : bpow (e + 1) = (2 * bpow e)%R.
Proof. rewrite bpow_add. replace (bpow 1) with 2%R by (unfold bpow; simpl; lra). lra. Qed.

Lemma bpow_le a b : a <= b -> (bpow a <= bpow b)%R.
Proof.
  intros Hab. replace b with (a + (b - a)) by lia. rewrite bpow_add.
  pose proof (bpow_pos a). assert (1 <= bpow (b - a))%R by (apply bpow_ge_1; lia). nra.
Qed.

Lemma bpow_lt a b : a < b -> (bpow a < bpow b)%R.
Proof.
  intros Hab. apply Rlt_le_trans with (bpow (a + 1)).
  - rewrite bpow_succ. pose proof (bpow_pos a). lra.
  - apply bpow_le. lia.
Qed.

Lemma bpow_lt_inv a b : (bpow a < bpow b)%R -> a < b.
Proof.
  intros Hab. destruct (Z_lt_le_dec a b) as [H|H]; [exact H|].
  apply bpow_le in H. lra.
Qed.

Lemma digits2_pos_bounds p :
  2 ^ (Zpos (digits2_pos p) - 1) <= Zpos p < 2 ^ Zpos (digits2_pos p).
Proof.
  induction p as [p IH|p IH|]; cbn [digits2_pos]; rewrite ?Pos2Z.inj_succ.
  - replace (Z.succ (Zpos (digits2_pos p)) - 1) with (Z.succ (Zpos (digits2_pos p) - 1)) by lia.
    rewrite !Z.pow_succ_r by lia. lia.
  - replace (Z.succ (Zpos (digits2_pos p)) - 1) with (Z.succ (Zpos (digits2_pos p) - 1)) by lia.
    rewrite !Z.pow_succ_r by lia. lia.
  - cbn. lia.
Qed.

Lemma digits2_pos_unique p k :
  2 ^ (k - 1) <= Zpos p < 2 ^ k -> Zpos (digits2_pos p) = k.
Proof.
  intros [Hlo Hhi]. pose proof (digits2_pos_bounds p) as [Dlo Dhi].
  set (d := Zpos (digits2_pos p)) in *.
  assert (0 < k).
  { destruct (Z_lt_le_dec 0 k) as [|Hk]; [assumption|]. exfalso.
    destruct (Z.eq_dec k 0) as [->|Hne]; [change (2 ^ 0) with 1 in Hhi; lia|].
    rewrite (Z.pow_neg_r 2 k) in Hhi by lia. lia. }
  destruct (Z.lt_trichotomy d k) as [H1|[H1|H1]]; [|exact H1|].
  - assert (2 ^ d <= 2 ^ (k - 1)) by (apply Z.pow_le_mono_r; lia). lia.
  - assert (2 ^ k <= 2 ^ (d - 1)) by (apply Z.pow_le_mono_r; lia). lia.
Qed.

Lemma F2R_pos m e : (0 < F2R m e)%R.
Proof.
  unfold F2R. apply Rmult_lt_0_compat; [|apply bpow_pos].
  apply IZR_lt. lia.
Qed.

Lemma F2R_bounds m e :
  let d := Zpos (digits2_pos m) in
  (bpow (d - 1 + e) <= F2R m e < bpow (d + e))%R.
Proof.
  intros d. pose proof (digits2_pos_bounds m) as [Hlo Hhi]. fold d in Hlo, Hhi.
  assert (0 < d) by (unfold d; lia).
  unfold F2R. rewrite !bpow_add, (bpow_IZR (d - 1)), (bpow_IZR d) by lia.
  pose proof (bpow_pos e). apply IZR_le in Hlo. apply IZR_lt in Hhi.
  split; [apply Rmult_le_compat_r|apply Rmult_lt_compat_r]; lra.
Qed.

(** Canonical positive floats of binary64. *)
Lemma bounded_inv m e :
  bounded prec emax m e = true ->
  Zpos (digits2_pos m) <= 53 /\ -1074 <= e <= 971
  /\ (Zpos (digits2_pos m) = 53 \/ e = -1074).
Proof.
  unfold bounded, canonical_mantissa, fexp, SpecFloat.emin, prec, emax.
  intros [Hc He]%andb_true_iff. apply Z.eqb_eq in Hc. apply Z.leb_le in He. lia.
Qed.

Lemma bounded_normal m e :
  Zpos (digits2_pos m) = 53 -> -1074 <= e <= 971 -> bounded prec emax m e = true.
Proof.
  intros Hd He. unfold bounded, canonical_mantissa, fexp, SpecFloat.emin, prec, emax.
  apply andb_true_iff. split; [apply Z.eqb_eq|apply Z.leb_le]; lia.
Qed.

Lemma F2R_lt_top m e :
  Zpos (digits2_pos m) <= 53 -> (F2R m e < bpow (53 + e))%R.
Proof.
  intros Hd. pose proof (F2R_bounds m e) as [_ Hhi]. cbv zeta in Hhi.
  apply Rlt_le_trans with (1 := Hhi). apply bpow_le. lia.
Qed.

Lemma F2R_ge_bottom m e :
  Zpos (digits2_pos m) = 53 -> (bpow (52 + e) <= F2R m e)%R.
Proof.
  intros Hd. pose proof (F2R_bounds m e) as [Hlo _]. cbv zeta in Hlo.
  rewrite Hd in Hlo. exact Hlo.
Qed.

Lemma F2R_exp_lt m1 e1 m2 e2 :
  bounded prec emax m1 e1 = true -> bounded prec emax m2 e2 = true ->
  e1 < e2 -> (F2R m1 e1 < F2R m2 e2)%R.
Proof.
  intros (D1 & E1 & _)%bounded_inv (D2 & E2 & N2)%bounded_inv Hlt.
  destruct N2 as [N2|N2]; [|lia].
  apply Rlt_le_trans with (bpow (53 + e1)); [now apply F2R_lt_top|].
  apply Rle_trans with (bpow (52 + e2)); [apply bpow_le; lia|now apply F2R_ge_bottom].
Qed.

Lemma F2R_mant_le m1 m2 e : (Zpos m1 <= Zpos m2) -> (F2R m1 e <= F2R m2 e)%R.
Proof.
  intros H. unfold F2R. apply Rmult_le_compat_r; [|now apply IZR_le].
  pose proof (bpow_pos e). lra.
Qed.

Lemma F2R_mant_lt m1 m2 e : (Zpos m1 < Zpos m2) -> (F2R m1 e < F2R m2 e)%R.
Proof.
  intros H. unfold F2R. apply Rmult_lt_compat_r; [apply bpow_pos|now apply IZR_lt].
Qed.

Lemma SFcompare_F2R m1 e1 m2 e2 :
  bounded prec emax m1 e1 = true -> bounded prec emax m2 e2 = true ->
  match SFcompare (S754_finite false m1 e1) (S754_finite false m2 e2) with
  | Some Lt => (F2R m1 e1 < F2R m2 e2)%R
  | Some Eq => m1 = m2 /\ e1 = e2
  | Some Gt => (F2R m2 e2 < F2R m1 e1)%R
  | None => False
  end.
Proof.
  intros B1 B2. cbn [SFcompare].
  destruct (Z.compare_spec e1 e2) as [->|Hlt|Hgt].
  - change (Pos.compare_cont Eq m1 m2) with (Pos.compare m1 m2).
    destruct (Pos.compare_spec m1 m2) as [->|H|H].
    + now split.
    + apply F2R_mant_lt. lia.
    + apply F2R_mant_lt. lia.
  - now apply F2R_exp_lt.
  - now apply F2R_exp_lt.
Qed.

Lemma SFleb_F2R m1 e1 m2 e2 :
  bounded prec emax m1 e1 = true -> bounded prec emax m2 e2 = true ->
  SFleb (S754_finite false m1 e1) (S754_finite false m2 e2) = true
  <-> (F2R m1 e1 <= F2R m2 e2)%R.
Proof.
  intros B1 B2. pose proof (SFcompare_F2R m1 e1 m2 e2 B1 B2) as H.
  unfold SFleb.
  destruct (SFcompare (S754_finite false m1 e1) (S754_finite false m2 e2)) as [[| |]|].
  - destruct H as [-> ->]. split; [intros _; lra|reflexivity].
  - split; [intros _; lra|reflexivity].
  - split; [discriminate|intros; lra].
  - destruct H.
Qed.

(** No canonical float lies strictly between two neighbours. *)
Lemma no_float_between (m' : Z) (e' : Z) mc ec :
  bounded prec emax mc ec = true ->
  2 ^ 52 <= m' < 2 ^ 53 -> -1074 <= e' ->
  ((F2R mc ec < IZR (m' + 1) * bpow e' -> F2R mc ec <= IZR m' * bpow e')
   /\ (IZR m' * bpow e' < F2R mc ec -> IZR (m' + 1) * bpow e' <= F2R mc ec))%R.
Proof.
  intros Bc Hm He. pose proof Bc as (Dc & Ec & Nc)%bounded_inv.
  assert (Hlo : (bpow (52 + e') <= IZR m' * bpow e')%R).
  { rewrite bpow_add, (bpow_IZR 52) by lia. apply Rmult_le_compat_r.
    - pose proof (bpow_pos e'). lra.
    - apply IZR_le. lia. }
  assert (Hhi : (IZR (m' + 1) * bpow e' <= bpow (53 + e'))%R).
  { rewrite bpow_add, (bpow_IZR 53) by lia. apply Rmult_le_compat_r.
    - pose proof (bpow_pos e'). lra.
    - apply IZR_le. lia. }
  destruct (Z.lt_trichotomy ec e') as [H|[H|H]].
  - assert (F2R mc ec < bpow (53 + ec))%R by now apply F2R_lt_top.
    assert (bpow (53 + ec) <= bpow (52 + e'))%R by (apply bpow_le; lia).
    split; intros; lra.
  - subst ec. unfold F2R. pose proof (bpow_pos e'). split; intros Hc.
    + apply Rmult_le_compat_r; [lra|]. apply IZR_le.
      apply Rmult_lt_reg_r in Hc; [|assumption]. apply lt_IZR in Hc. lia.
    + apply Rmult_le_compat_r; [lra|]. apply IZR_le.
      apply Rmult_lt_reg_r in Hc; [|assumption]. apply lt_IZR in Hc. lia.
  - destruct Nc as [Nc|Nc]; [|lia].
    assert (bpow (52 + ec) <= F2R mc ec)%R by now apply F2R_ge_bottom.
    assert (bpow (53 + e') <= bpow (52 + ec))%R by (apply bpow_le; lia).
    split; intros; lra.
Qed.

(** ** Truncation and rounding *)

Lemma locates_shr_1 v mrs e : locates v mrs e -> locates v (shr_1 mrs) (e + 1).
Proof.
  destruct mrs as [m r s]. unfold locates. cbn [shr_m shr_r shr_s].
  intros [Hm Hv]. rewrite bpow_succ. pose proof (bpow_pos e) as Hb.
  destruct m as [|[p|p|]|p]; [| | | |lia]; cbn [shr_1 shr_m shr_r shr_s].
  - (* 0 *)
    split; [lia|]. cbn [orb]. destruct (r || s).
    + cbn [Z.add] in *. lra.
    + lra.
  - (* 2p+1 *)
    split; [lia|]. cbn [orb].
    rewrite (Pos2Z.inj_xI p) in Hv.
    replace (Z.pos p~1 + 1) with (2 * Z.pos p + 2) in Hv by lia.
    rewrite !plus_IZR, !mult_IZR in *. destruct (r || s); lra.
  - (* 2p *)
    split; [lia|]. cbn [orb].
    rewrite (Pos2Z.inj_xO p) in Hv.
    rewrite !plus_IZR, !mult_IZR in *. destruct (r || s); lra.
  - (* 1 *)
    split; [lia|]. cbn [orb]. change (1 + 1) with 2 in Hv. change (0 + 1) with 1.
    destruct (r || s); lra.
Qed.

Lemma locates_iter_pos v p : forall mrs e,
  locates v mrs e -> locates v (SpecFloat.iter_pos shr_1 p mrs) (e + Zpos p).
Proof.
  induction p as [p IH|p IH|]; intros mrs e H; cbn [SpecFloat.iter_pos].
  - replace (e + Z.pos p~1) with (e + 1 + Z.pos p + Z.pos p) by lia.
    now apply IH, IH, locates_shr_1.
  - replace (e + Z.pos p~0) with (e + Z.pos p + Z.pos p) by lia.
    now apply IH, IH.
  - now apply locates_shr_1.
Qed.

Lemma locates_shr v mrs e n :
  0 <= n -> locates v mrs e ->
  locates v (fst (shr mrs e n)) (e + n) /\ snd (shr mrs e n) = e + n.
Proof.
  intros Hn H. destruct n as [|p|p]; [| |lia]; cbn [shr fst snd].
  - now rewrite Z.add_0_r.
  - split; [now apply locates_iter_pos|reflexivity].
Qed.

Lemma shr_record_of_loc_bits m l :
  shr_m (shr_record_of_loc m l) = m
  /\ shr_r (shr_record_of_loc m l) || shr_s (shr_record_of_loc m l) = negb (exact_loc l).
Proof. destruct l as [|[| |]]; now split. Qed.

Lemma round_nearest_even_bounds mrs :
  let m := shr_m mrs in
  let m' := round_nearest_even m (loc_of_shr_record mrs) in
  m <= m' <= m + 1 /\ (shr_r mrs || shr_s mrs = false -> m' = m).
Proof.
  destruct mrs as [m [|] [|]]; cbn; try destruct (Z.even m); split; try lia;
    intros; try discriminate; reflexivity.
Qed.

Lemma shr_fexp_eq m e l :
  -1021 <= Zdigits2 m + e ->
  shr_fexp prec emax m e l = shr (shr_record_of_loc m l) e (Zdigits2 m - 53).
Proof.
  intros H. unfold shr_fexp, fexp, SpecFloat.emin, prec, emax. f_equal. lia.
Qed.

Lemma binary_round_aux_correct (v : R) (m : positive) (e : Z) (l : location) :
  let d := Zpos (digits2_pos m) in
  53 <= d -> -1021 <= d + e <= 1023 ->
  (if exact_loc l then v = F2R m e
   else (F2R m e < v < IZR (Zpos m + 1) * bpow e)%R) ->
  exists m3 e3,
    binary_round_aux prec emax false (Zpos m) e l = S754_finite false m3 e3
    /\ Zpos (digits2_pos m3) = 53
    /\ d + e - 53 <= e3 <= d + e - 52
    /\ (d = 53 -> exact_loc l = true -> m3 = m /\ e3 = e)
    /\ forall mc ec, bounded prec emax mc ec = true ->
         ((F2R mc ec <= v -> F2R mc ec <= F2R m3 e3)
          /\ (v <= F2R mc ec -> F2R m3 e3 <= F2R mc ec))%R.
Proof.
  intros d Hd Hde Hv.
  pose proof (F2R_bounds m e) as [Blo Bhi]. fold d in Blo, Bhi.
  pose proof (digits2_pos_bounds m) as [_ Dhi]. fold d in Dhi.
  assert (Bup : (IZR (Zpos m + 1) * bpow e <= bpow (d + e))%R).
  { rewrite bpow_add, (bpow_IZR d) by lia. apply Rmult_le_compat_r.
    - pose proof (bpow_pos e). lra.
    - apply IZR_le. lia. }
  set (e' := d + e - 53).
  (* the truncation *)
  assert (Hloc0 : locates v (shr_record_of_loc (Zpos m) l) e).
  { destruct (shr_record_of_loc_bits (Zpos m) l) as [Em Ebits].
    unfold locates. rewrite Em, Ebits. split; [lia|].
    destruct (exact_loc l); cbn [negb]; exact Hv. }
  destruct (locates_shr v _ e (d - 53) ltac:(lia) Hloc0) as [Hloc1 He1].
  unfold binary_round_aux. rewrite shr_fexp_eq by (cbn [Zdigits2]; fold d; lia).
  cbn [Zdigits2]. fold d.
  destruct (shr (shr_record_of_loc (Z.pos m) l) e (d - 53)) as [mrs1 e1] eqn:E1.
  cbn [fst snd] in Hloc1, He1. subst e1.
  replace (e + (d - 53)) with e' in * by (unfold e'; lia).
  destruct Hloc1 as [Hm1 Hv1].
  set (m1 := shr_m mrs1) in *.
  assert (Hvlo : (bpow (52 + e') <= v)%R).
  { replace (52 + e') with (d - 1 + e) by (unfold e'; lia).
    destruct (exact_loc l); lra. }
  assert (Hvhi : (v < bpow (53 + e'))%R).
  { replace (53 + e') with (d + e) by (unfold e'; lia).
    destruct (exact_loc l); lra. }
  assert (Hv1' : (IZR m1 * bpow e' <= v < IZR (m1 + 1) * bpow e')%R).
  { pose proof (bpow_pos e'). destruct (shr_r mrs1 || shr_s mrs1); [lra|].
    rewrite plus_IZR. lra. }
  assert (Hm1b : 2 ^ 52 <= m1 < 2 ^ 53).
  { pose proof (bpow_pos e') as Hb.
    rewrite bpow_add, (bpow_IZR 52) in Hvlo by lia.
    rewrite bpow_add, (bpow_IZR 53) in Hvhi by lia.
    split.
    - assert (IZR (2 ^ 52) < IZR (m1 + 1))%R by nra.
      apply lt_IZR in H. lia.
    - assert (IZR m1 < IZR (2 ^ 53))%R by nra.
      apply lt_IZR in H. lia. }
  (* the rounding *)
  pose proof (round_nearest_even_bounds mrs1) as [Hr Hrex]. cbv zeta in Hr, Hrex.
  fold m1 in Hr, Hrex.
  set (m2 := round_nearest_even m1 (loc_of_shr_record mrs1)) in *.
  assert (Hcase : m2 < 2 ^ 53 \/ m2 = 2 ^ 53) by lia.
  assert (Hsand : forall m3 e3,
    F2R m3 e3 = (IZR m2 * bpow e')%R ->
    forall mc ec, bounded prec emax mc ec = true ->
      ((F2R mc ec <= v -> F2R mc ec <= F2R m3 e3)
       /\ (v <= F2R mc ec -> F2R m3 e3 <= F2R mc ec))%R).
  { intros m3 e3 E3 mc ec Bc. rewrite E3.
    destruct (no_float_between m1 e' mc ec Bc Hm1b ltac:(unfold e'; lia)) as [Hbelow Habove].
    pose proof (bpow_pos e') as Hb.
    assert (Hm2lo : (IZR m1 * bpow e' <= IZR m2 * bpow e')%R).
    { apply Rmult_le_compat_r; [lra|]. apply IZR_le. lia. }
    assert (Hm2hi : (IZR m2 * bpow e' <= IZR (m1 + 1) * bpow e')%R).
    { apply Rmult_le_compat_r; [lra|]. apply IZR_le. lia. }
    destruct (shr_r mrs1 || shr_s mrs1) eqn:Ebits.
    - split; intros Hc.
      + apply Rle_trans with (2 := Hm2lo). apply Hbelow. lra.
      + apply Rle_trans with (1 := Hm2hi). apply Habove. lra.
    - rewrite (Hrex eq_refl). rewrite Hv1. split; intros Hc; exact Hc. }
  destruct Hcase as [Hlt|Heq].
  - (* no carry *)
    destruct m2 as [|p2|p2] eqn:Em2; [lia| |lia].
    assert (Dp2 : Zpos (digits2_pos p2) = 53) by (apply digits2_pos_unique; lia).
    rewrite shr_fexp_eq by (cbn [Zdigits2]; rewrite Dp2; unfold e'; lia).
    cbn [Zdigits2]. rewrite Dp2. change (53 - 53) with 0.
    cbn [shr shr_record_of_loc shr_m].
    replace (e' <=? emax - prec) with true
      by (symmetry; apply Z.leb_le; unfold emax, prec, e'; lia).
    exists p2, e'. split; [reflexivity|]. split; [exact Dp2|].
    split; [unfold e'; lia|]. split.
    + intros Hd53 Hex. assert (d - 53 = 0) by lia.
      rewrite H in E1. cbn [shr] in E1. injection E1 as <-.
      destruct (shr_record_of_loc_bits (Zpos m) l) as [Em Ebits].
      rewrite Hex in Ebits. cbn [negb] in Ebits.
      unfold m1 in Hrex. rewrite Em in Hrex. specialize (Hrex Ebits).
      split; [congruence|unfold e'; lia].
    + apply Hsand. reflexivity.
  - (* carry into the next binade *)
    rewrite Heq.
    rewrite shr_fexp_eq by (change (Zdigits2 (2 ^ 53)) with 54; unfold e'; lia).
    change (Zdigits2 (2 ^ 53)) with 54. change (54 - 53) with 1.
    change (shr (shr_record_of_loc (2 ^ 53) loc_Exact) e' 1)
      with (Build_shr_record (2 ^ 52) false false, e' + 1).
    cbn [shr_m]. change (2 ^ 52) with (Zpos (2 ^ 52)%positive).
    replace (e' + 1 <=? emax - prec) with true
      by (symmetry; apply Z.leb_le; unfold emax, prec, e'; lia).
    exists (2 ^ 52)%positive, (e' + 1). split; [reflexivity|].
    split; [reflexivity|]. split; [unfold e'; lia|]. split.
    + intros Hd53 Hex. exfalso. assert (d - 53 = 0) by lia.
      rewrite H in E1. cbn [shr] in E1. injection E1 as <-.
      destruct (shr_record_of_loc_bits (Zpos m) l) as [Em Ebits].
      rewrite Hex in Ebits. cbn [negb] in Ebits.
      unfold m1 in Hrex, Hm1b. rewrite Em in Hrex. specialize (Hrex Ebits). lia.
    + apply Hsand. unfold F2R. rewrite Heq, bpow_succ.
      change (Zpos (2 ^ 52)%positive) with (2 ^ 52).
      replace (IZR (2 ^ 53)) with (2 * IZR (2 ^ 52))%R
        by (rewrite <- mult_IZR; reflexivity).
      ring.
Qed.

(** ** Positive normal floats *)

Lemma nice_mono k k' x : k <= k' -> nice k x -> nice k' x.
Proof. intros Hk (m & e & E & D & He). exists m, e. repeat split; auto; lia. Qed.

Lemma nice_pos k x : nice k x -> (0 < B2R x)%R.
Proof. intros (m & e & E & _). unfold B2R. rewrite E. apply F2R_pos. Qed.

Lemma leb_B2R k x y :
  k <= 971 -> nice k x -> nice k y ->
  (PrimFloat.leb x y = true <-> (B2R x <= B2R y)%R).
Proof.
  intros Hk (mx & ex & Ex & Dx & Hx) (my & ey & Ey & Dy & Hy).
  rewrite leb_spec. unfold B2R. rewrite Ex, Ey.
  apply SFleb_F2R; apply bounded_normal; auto; lia.
Qed.

Lemma nice_between k x c1 c2 :
  k <= 971 -> nice k c1 -> nice k c2 ->
  PrimFloat.leb c1 x = true -> PrimFloat.leb x c2 = true -> nice k x.
Proof.
  intros Hk (m1 & e1 & E1 & D1 & H1) (m2 & e2 & E2 & D2 & H2).
  rewrite !leb_spec, E1, E2. pose proof (Prim2SF_valid x) as Hval.
  destruct (Prim2SF x) as [s|s| |s m e] eqn:Ex; unfold SFleb; cbn [SFcompare].
  - discriminate.
  - destruct s; discriminate.
  - discriminate.
  - destruct s; [discriminate|]. cbn [valid_binary] in Hval.
    intros Hlo Hhi.
    assert (e1 <= e).
    { destruct (Z.compare_spec e1 e); [lia|lia|discriminate]. }
    assert (e <= e2).
    { destruct (Z.compare_spec e e2); [lia|lia|discriminate]. }
    apply bounded_inv in Hval as (D & He & N).
    exists m, e. split; [exact Ex|]. split; lia.
Qed.

Lemma leb_antisym k x y :
  k <= 971 -> nice k x -> nice k y ->
  PrimFloat.leb x y = true -> PrimFloat.leb y x = true -> x = y.
Proof.
  intros Hk (mx & ex & Ex & Dx & Hx) (my & ey & Ey & Dy & Hy).
  rewrite !leb_spec, Ex, Ey. intros Hxy Hyx. apply Prim2SF_inj. rewrite Ex, Ey.
  assert (Bx : bounded prec emax mx ex = true) by (apply bounded_normal; auto; lia).
  assert (By : bounded prec emax my ey = true) by (apply bounded_normal; auto; lia).
  apply SFleb_F2R in Hxy, Hyx; auto.
  pose proof (SFcompare_F2R mx ex my ey Bx By) as H.
  destruct (SFcompare (S754_finite false mx ex) (S754_finite false my ey)) as [[| |]|].
  - destruct H as [-> ->]. reflexivity.
  - lra.
  - lra.
  - destruct H.
Qed.

(** What a float whose specification is a rounding satisfies. *)
Lemma rounded_float (r : float) (v : R) (m : positive) (e : Z) (l : location) :
  Prim2SF r = binary_round_aux prec emax false (Zpos m) e l ->
  53 <= Zpos (digits2_pos m) -> -300 <= Zpos (digits2_pos m) + e - 53 <= 299 ->
  (if exact_loc l then v = F2R m e
   else (F2R m e < v < IZR (Zpos m + 1) * bpow e)%R) ->
  nice 300 r
  /\ (Zpos (digits2_pos m) = 53 -> exact_loc l = true ->
      Prim2SF r = S754_finite false m e)
  /\ forall c, nice 300 c ->
       ((B2R c <= v)%R -> PrimFloat.leb c r = true)
       /\ ((v <= B2R c)%R -> PrimFloat.leb r c = true).
Proof.
  intros Er Hd He Hv.
  destruct (binary_round_aux_correct v m e l Hd ltac:(lia) Hv)
    as (m3 & e3 & E3 & D3 & He3 & Hid & Hsand).
  rewrite E3 in Er.
  assert (Hnice : nice 300 r) by (exists m3, e3; repeat split; auto; lia).
  split; [exact Hnice|]. split.
  - intros H53 Hex. destruct (Hid H53 Hex) as [-> ->]. exact Er.
  - intros c Hc. pose proof Hc as (mc & ec & Ec & Dc & Hec).
    assert (Bc : bounded prec emax mc ec = true) by (apply bounded_normal; auto; lia).
    destruct (Hsand mc ec Bc) as [Hlo Hhi].
    rewrite !(leb_B2R 300) by (auto; lia).
    unfold B2R. rewrite Ec, Er. split; assumption.
Qed.

Lemma pow2_digits_bounds (p : positive) (a b : Z) :
  0 <= a -> 2 ^ a <= Zpos p < 2 ^ b ->
  a + 1 <= Zpos (digits2_pos p) <= b.
Proof.
  intros Ha [Hlo Hhi]. pose proof (digits2_pos_bounds p) as [Dlo Dhi].
  set (d := Zpos (digits2_pos p)) in *. assert (0 < d) by (unfold d; lia).
  split.
  - destruct (Z_lt_le_dec a d); [lia|].
    assert (2 ^ d <= 2 ^ a) by (apply Z.pow_le_mono_r; lia). lia.
  - destruct (Z_lt_le_dec b d); [|lia].
    assert (0 <= b).
    { destruct (Z_lt_le_dec b 0); [|assumption].
      rewrite (Z.pow_neg_r 2 b) in Hhi by assumption. lia. }
    assert (2 ^ b <= 2 ^ (d - 1)) by (apply Z.pow_le_mono_r; lia). lia.
Qed.

Lemma normal_mantissa m : Zpos (digits2_pos m) = 53 -> 2 ^ 52 <= Zpos m < 2 ^ 53.
Proof. intros D. pose proof (digits2_pos_bounds m) as H. rewrite D in H. exact H. Qed.

Lemma F2R_mul mx ex my ey :
  F2R (mx * my) (ex + ey) = (F2R mx ex * F2R my ey)%R.
Proof. unfold F2R. rewrite Pos2Z.inj_mul, mult_IZR, bpow_add. ring. Qed.

Lemma mul_sandwich (x y : float) :
  nice 100 x -> nice 100 y ->
  nice 300 (x * y)
  /\ forall c, nice 300 c ->
       ((B2R c <= B2R x * B2R y)%R -> PrimFloat.leb c (x * y) = true)
       /\ ((B2R x * B2R y <= B2R c)%R -> PrimFloat.leb (x * y) c = true).
Proof.
  intros (mx & ex & Ex & Dx & Hx) (my & ey & Ey & Dy & Hy).
  pose proof (normal_mantissa mx Dx) as Mx. pose proof (normal_mantissa my Dy) as My.
  assert (Hd : 105 <= Zpos (digits2_pos (mx * my)) <= 106).
  { apply (pow2_digits_bounds (mx * my) 104 106); [lia|].
    rewrite Pos2Z.inj_mul.
    change (2 ^ 104) with (2 ^ 52 * 2 ^ 52). change (2 ^ 106) with (2 ^ 53 * 2 ^ 53).
    split; [apply Z.mul_le_mono_nonneg; lia|apply Z.mul_lt_mono_nonneg; lia]. }
  assert (Er : Prim2SF (x * y)
               = binary_round_aux prec emax false (Zpos (mx * my)) (ex + ey) loc_Exact).
  { rewrite mul_spec, Ex, Ey. reflexivity. }
  destruct (rounded_float (x * y) (F2R (mx * my) (ex + ey)) (mx * my) (ex + ey)
              loc_Exact Er ltac:(lia) ltac:(lia) eq_refl) as (Hn & _ & Hs).
  split; [exact Hn|]. intros c Hc.
  assert (Ev : (B2R x * B2R y)%R = F2R (mx * my) (ex + ey))
    by (unfold B2R; rewrite Ex, Ey; symmetry; apply F2R_mul).
  rewrite Ev. now apply Hs.
Qed.

Lemma iter_xO m d : Zpos (Pos.iter xO m d) = Zpos m * 2 ^ Zpos d.
Proof.
  induction d as [|d IH] using Pos.peano_ind.
  - cbn [Pos.iter]. rewrite Pos2Z.inj_xO. change (2 ^ 1) with 2. lia.
  - rewrite Pos.iter_succ, Pos2Z.inj_xO, IH, Pos2Z.inj_succ, Z.pow_succ_r by lia. lia.
Qed.

Lemma shl_align_spec mx ex ez :
  ez <= ex ->
  snd (shl_align mx ex ez) = ez
  /\ Zpos (fst (shl_align mx ex ez)) = Zpos mx * 2 ^ (ex - ez).
Proof.
  intros H. unfold shl_align. destruct (ez - ex) as [|d|d] eqn:E; cbn [fst snd].
  - replace (ex - ez) with 0 by lia. split; lia.
  - lia.
  - replace (ex - ez) with (Zpos d) by lia. split; [reflexivity|apply iter_xO].
Qed.

Lemma F2R_shift (m m' : positive) e e' :
  e' <= e -> Zpos m' = Zpos m * 2 ^ (e - e') -> F2R m' e' = F2R m e.
Proof.
  intros He Hm. unfold F2R. rewrite Hm, mult_IZR, <- bpow_IZR by lia.
  replace e with (e - e' + e') at 2 by lia. rewrite (bpow_add (e - e') e'). ring.
Qed.

Lemma binary_round_big M e :
  53 <= Zpos (digits2_pos M) -> -1021 <= Zpos (digits2_pos M) + e ->
  binary_round prec emax false M e
  = binary_round_aux prec emax false (Zpos M) e loc_Exact.
Proof.
  intros Hd He. unfold binary_round, shl_align, fexp, SpecFloat.emin, prec, emax.
  destruct (Z.max (Z.pos (digits2_pos M) + e - 53) (3 - 1024 - 53) - e) eqn:E;
    [reflexivity|reflexivity|lia].
Qed.

Lemma add_sandwich (x y : float) :
  nice 100 x -> nice 100 y ->
  nice 300 (x + y)
  /\ forall c, nice 300 c ->
       ((B2R c <= B2R x + B2R y)%R -> PrimFloat.leb c (x + y) = true)
       /\ ((B2R x + B2R y <= B2R c)%R -> PrimFloat.leb (x + y) c = true).
Proof.
  intros (mx & ex & Ex & Dx & Hx) (my & ey & Ey & Dy & Hy).
  pose proof (normal_mantissa mx Dx) as Mx. pose proof (normal_mantissa my Dy) as My.
  set (ez := Z.min ex ey).
  destruct (shl_align_spec mx ex ez ltac:(unfold ez; lia)) as [_ Ax].
  destruct (shl_align_spec my ey ez ltac:(unfold ez; lia)) as [_ Ay].
  set (ax := fst (shl_align mx ex ez)) in *. set (ay := fst (shl_align my ey ez)) in *.
  assert (Vx : F2R ax ez = F2R mx ex) by (apply F2R_shift; [unfold ez; lia|exact Ax]).
  assert (Vy : F2R ay ez = F2R my ey) by (apply F2R_shift; [unfold ez; lia|exact Ay]).
  assert (Vs : F2R (ax + ay) ez = (F2R mx ex + F2R my ey)%R).
  { rewrite <- Vx, <- Vy. unfold F2R. rewrite Pos2Z.inj_add, plus_IZR. ring. }
  assert (Hlo : 2 ^ 52 <= Zpos (ax + ay)).
  { rewrite Pos2Z.inj_add, Ax.
    assert (1 <= 2 ^ (ex - ez)) by (pose proof (Z.pow_pos_nonneg 2 (ex - ez)); unfold ez in *; lia).
    nia. }
  assert (Hd : 53 <= Zpos (digits2_pos (ax + ay))).
  { pose proof (digits2_pos_bounds (ax + ay)) as [_ Dhi].
    destruct (Z_lt_le_dec (Zpos (digits2_pos (ax + ay))) 53); [|assumption].
    assert (2 ^ Zpos (digits2_pos (ax + ay)) <= 2 ^ 52) by (apply Z.pow_le_mono_r; lia).
    lia. }
  assert (Hup : Zpos (digits2_pos (ax + ay)) + ez <= 155).
  { pose proof (F2R_bounds (ax + ay) ez) as [Blo _]. cbv zeta in Blo.
    rewrite Vs in Blo.
    assert (F2R mx ex < bpow 153)%R.
    { apply Rlt_le_trans with (bpow (53 + ex)); [apply F2R_lt_top; lia|apply bpow_le; lia]. }
    assert (F2R my ey < bpow 153)%R.
    { apply Rlt_le_trans with (bpow (53 + ey)); [apply F2R_lt_top; lia|apply bpow_le; lia]. }
    assert (bpow (Z.pos (digits2_pos (ax + ay)) - 1 + ez) < bpow 154)%R.
    { replace 154 with (153 + 1) by lia. rewrite (bpow_succ 153). lra. }
    apply bpow_lt_inv in H1. lia. }
  assert (Er : Prim2SF (x + y)
               = binary_round_aux prec emax false (Zpos (ax + ay)) ez loc_Exact).
  { rewrite add_spec, Ex, Ey. unfold SF64add, SFadd. cbn [cond_Zopp].
    fold ez. fold ax. fold ay. cbn [Z.add binary_normalize].
    apply binary_round_big; [exact Hd|unfold ez in *; lia]. }
  destruct (rounded_float (x + y) (F2R (ax + ay) ez) (ax + ay) ez
              loc_Exact Er Hd ltac:(unfold ez in *; lia) eq_refl) as (Hn & _ & Hs).
  split; [exact Hn|]. intros c Hc.
  assert (Ev : (B2R x + B2R y)%R = F2R (ax + ay) ez)
    by (unfold B2R; rewrite Ex, Ey; symmetry; exact Vs).
  rewrite Ev. now apply Hs.
Qed.

Lemma new_location_exact nb k : exact_loc (new_location nb k) = (k =? 0).
Proof.
  unfold new_location, new_location_even, new_location_odd.
  destruct (Z.even nb), (k =? 0); reflexivity.
Qed.

Lemma div_core mx ex my ey :
  Zpos (digits2_pos mx) = 53 -> Zpos (digits2_pos my) = 53 ->
  -100 <= ex <= 100 -> -100 <= ey <= 100 ->
  exists q r,
    SFdiv_core_binary prec emax (Zpos mx) ex (Zpos my) ey
    = (q, ex - ey - 53, new_location (Zpos my) r)
    /\ Zpos mx * 2 ^ 53 = Zpos my * q + r /\ 0 <= r < Zpos my.
Proof.
  intros Dx Dy Hx Hy. unfold SFdiv_core_binary. cbn [Zdigits2]. rewrite Dx, Dy.
  replace (Z.min (fexp prec emax (53 + ex - (53 + ey))) (ex - ey)) with (ex - ey - 53)
    by (unfold fexp, SpecFloat.emin, prec, emax; lia).
  replace (ex - ey - (ex - ey - 53)) with 53 by lia.
  cbv iota. rewrite Z.shiftl_mul_pow2 by lia.
  pose proof (Z_div_mod (Zpos mx * 2 ^ 53) (Zpos my) ltac:(lia)) as H.
  destruct (Z.div_eucl (Zpos mx * 2 ^ 53) (Zpos my)) as [q r].
  exists q, r. split; [reflexivity|]. exact H.
Qed.

Lemma div_sandwich (x y : float) :
  nice 100 x -> nice 100 y ->
  nice 300 (x / y)
  /\ forall c, nice 300 c ->
       ((B2R c <= B2R x / B2R y)%R -> PrimFloat.leb c (x / y) = true)
       /\ ((B2R x / B2R y <= B2R c)%R -> PrimFloat.leb (x / y) c = true).
Proof.
  intros (mx & ex & Ex & Dx & Hx) (my & ey & Ey & Dy & Hy).
  pose proof (normal_mantissa mx Dx) as Mx. pose proof (normal_mantissa my Dy) as My.
  destruct (div_core mx ex my ey Dx Dy ltac:(lia) ltac:(lia)) as (q & r & Ecore & Eq & Hr).
  set (e' := ex - ey - 53) in *.
  assert (Hq : 2 ^ 52 <= q < 2 ^ 54).
  { split.
    - destruct (Z_lt_le_dec q (2 ^ 52)) as [Hlt|]; [|assumption]. exfalso.
      assert (Zpos my * (q + 1) <= Zpos my * 2 ^ 52) by (apply Z.mul_le_mono_nonneg_l; lia).
      assert (Zpos my * 2 ^ 52 < 2 ^ 53 * 2 ^ 52) by (apply Z.mul_lt_mono_pos_r; lia).
      assert (2 ^ 52 * 2 ^ 53 <= Zpos mx * 2 ^ 53) by (apply Z.mul_le_mono_nonneg_r; lia).
      lia.
    - destruct (Z_lt_le_dec q (2 ^ 54)) as [|Hge]; [assumption|]. exfalso.
      assert (Zpos my * 2 ^ 54 <= Zpos my * q) by (apply Z.mul_le_mono_nonneg_l; lia).
      assert (2 ^ 52 * 2 ^ 54 <= Zpos my * 2 ^ 54) by (apply Z.mul_le_mono_nonneg_r; lia).
      assert (Zpos mx * 2 ^ 53 < 2 ^ 53 * 2 ^ 53) by (apply Z.mul_lt_mono_pos_r; lia).
      change (2 ^ 52 * 2 ^ 54) with (2 ^ 53 * 2 ^ 53) in *. lia. }
  destruct q as [|pq|pq]; [lia| |lia].
  assert (Hd : 53 <= Zpos (digits2_pos pq) <= 54)
    by (apply (pow2_digits_bounds pq 52 54); lia).
  set (v := (F2R mx ex / F2R my ey)%R).
  assert (Hvb : (v * IZR (Zpos my) = IZR (Zpos my * Zpos pq + r) * bpow e')%R).
  { unfold v, F2R. rewrite <- Eq, mult_IZR, <- (bpow_IZR 53) by lia.
    replace ex with (e' + ey + 53) at 1 by (unfold e'; lia).
    rewrite !bpow_add.
    pose proof (bpow_pos ey). pose proof (bpow_pos e'). pose proof (bpow_pos 53).
    assert (0 < IZR (Zpos my))%R by (apply IZR_lt; lia).
    field. split; lra. }
  rewrite plus_IZR, mult_IZR in Hvb.
  assert (Hb : (0 < IZR (Zpos my))%R) by (apply IZR_lt; lia).
  pose proof (bpow_pos e') as He'.
  assert (Hloc : if exact_loc (new_location (Zpos my) r) then v = F2R pq e'
                 else (F2R pq e' < v < IZR (Zpos pq + 1) * bpow e')%R).
  { rewrite new_location_exact. unfold F2R. destruct (Z.eqb_spec r 0) as [->|Hne].
    - assert ((v - IZR (Zpos pq) * bpow e') * IZR (Zpos my) = 0)%R by lra.
      apply Rmult_integral in H. destruct H; lra.
    - assert (Hr0 : (0 < IZR r)%R) by (apply IZR_lt; lia).
      assert (Hr1 : (IZR r < IZR (Zpos my))%R) by (apply IZR_lt; lia).
      rewrite plus_IZR. split.
      + apply Rmult_lt_reg_r with (IZR (Zpos my)); [exact Hb|]. nra.
      + apply Rmult_lt_reg_r with (IZR (Zpos my)); [exact Hb|]. nra. }
  assert (Er : Prim2SF (x / y)
               = binary_round_aux prec emax false (Zpos pq) e'
                   (new_location (Zpos my) r)).
  { rewrite div_spec, Ex, Ey. unfold SF64div, SFdiv. rewrite Ecore. reflexivity. }
  destruct (rounded_float (x / y) v pq e' _ Er ltac:(lia) ltac:(unfold e'; lia) Hloc)
    as (Hn & _ & Hs).
  split; [exact Hn|]. intros c Hc.
  assert (Ev : (B2R x / B2R y)%R = v) by (unfold B2R, v; now rewrite Ex, Ey).
  rewrite Ev. now apply Hs.
Qed.

Lemma of_int_nice n :
  1 <= n < 2 ^ 53 -> nice 100 (of_int n) /\ B2R (of_int n) = IZR n.
Proof.
  intros Hn. destruct n as [|p|p]; [lia| |lia].
  pose proof (digits2_pos_bounds p) as [Dlo Dhi].
  set (d := Zpos (digits2_pos p)) in *.
  assert (Hd : 1 <= d <= 53).
  { split; [unfold d; lia|]. destruct (Z_lt_le_dec 53 d); [|lia].
    assert (2 ^ 53 <= 2 ^ (d - 1)) by (apply Z.pow_le_mono_r; lia). lia. }
  destruct (shl_align_spec p 0 (d - 53) ltac:(lia)) as [Es Em].
  replace (0 - (d - 53)) with (53 - d) in Em by lia.
  set (mz := fst (shl_align p 0 (d - 53))) in *.
  assert (Hmz : 2 ^ 52 <= Zpos mz < 2 ^ 53).
  { rewrite Em.
    replace (2 ^ 52) with (2 ^ (d - 1) * 2 ^ (53 - d))
      by (rewrite <- Z.pow_add_r by lia; f_equal; lia).
    replace (2 ^ 53) with (2 ^ d * 2 ^ (53 - d))
      by (rewrite <- Z.pow_add_r by lia; f_equal; lia).
    pose proof (Z.pow_pos_nonneg 2 (53 - d) ltac:(lia) ltac:(lia)).
    split; [apply Z.mul_le_mono_nonneg_r; lia|apply Z.mul_lt_mono_pos_r; lia]. }
  assert (Dz : Zpos (digits2_pos mz) = 53) by (apply digits2_pos_unique; lia).
  assert (Eb : binary_normalize prec emax (Zpos p) 0 false
               = S754_finite false mz (d - 53)).
  { cbn [binary_normalize]. unfold binary_round.
    replace (fexp prec emax (Zpos (digits2_pos p) + 0)) with (d - 53)
      by (unfold fexp, SpecFloat.emin, prec, emax; fold d; lia).
    destruct (shl_align p 0 (d - 53)) as [mz' ez'] eqn:E.
    cbn [fst snd] in Es. subst ez'. unfold mz in *. cbn [fst] in *.
    destruct (binary_round_aux_correct (F2R mz' (d - 53)) mz' (d - 53) loc_Exact
                ltac:(lia) ltac:(lia) eq_refl) as (m3 & e3 & E3 & _ & _ & Hid & _).
    destruct (Hid Dz eq_refl) as [-> ->]. exact E3. }
  assert (Ep : Prim2SF (of_int (Zpos p)) = S754_finite false mz (d - 53)).
  { change (of_int (Zpos p)) with (SF2Prim (binary_normalize prec emax (Zpos p) 0 false)).
    rewrite Eb. apply Prim2SF_SF2Prim.
    cbn [valid_binary]. apply bounded_normal; [exact Dz|lia]. }
  split.
  - exists mz, (d - 53). split; [exact Ep|]. split; [exact Dz|lia].
  - unfold B2R. rewrite Ep. unfold F2R. rewrite Em, mult_IZR, <- (bpow_IZR (53 - d)) by lia.
    rewrite Rmult_assoc, <- bpow_add. replace (53 - d + (d - 53)) with 0 by lia.
    change (bpow 0) with 1%R. ring.
Qed.

Lemma Rdiv_between (lo hi b n : R) :
  (0 < n -> lo * n <= b <= hi * n -> lo <= b / n <= hi)%R.
Proof.
  intros Hn [H1 H2]. unfold Rdiv.
  split; apply Rmult_le_reg_r with n; try exact Hn;
    rewrite Rmult_assoc, Rinv_l by lra; lra.
Qed.

(** The running mean of binary64 between two integer bounds. *)
Lemma mean_step (x v : float) (n lo hi : Z) :
  1 <= n -> 1 <= lo <= hi -> hi * (n + 1) < 2 ^ 53 ->
  PrimFloat.leb (of_int lo) x = true -> PrimFloat.leb x (of_int hi) = true ->
  PrimFloat.leb (of_int lo) v = true -> PrimFloat.leb v (of_int hi) = true ->
  PrimFloat.leb (of_int lo) ((x * of_int n + v) / of_int (n + 1)) = true
  /\ PrimFloat.leb ((x * of_int n + v) / of_int (n + 1)) (of_int hi) = true.
Proof.
  intros Hn Hlohi Hbound Hx1 Hx2 Hv1 Hv2.
  assert (Hhin : hi * n + hi < 2 ^ 53) by lia.
  assert (Hlo53 : 1 <= lo < 2 ^ 53) by nia.
  assert (Hhi53 : 1 <= hi < 2 ^ 53) by nia.
  assert (Hn53 : 1 <= n < 2 ^ 53) by nia.
  assert (Hn153 : 1 <= n + 1 < 2 ^ 53) by nia.
  destruct (of_int_nice lo Hlo53) as [Nlo Vlo].
  destruct (of_int_nice hi Hhi53) as [Nhi Vhi].
  destruct (of_int_nice n Hn53) as [Nn Vn].
  destruct (of_int_nice (n + 1) Hn153) as [Nn1 Vn1].
  destruct (of_int_nice (lo * n) ltac:(nia)) as [Nln Vln].
  destruct (of_int_nice (hi * n) ltac:(nia)) as [Nhn Vhn].
  destruct (of_int_nice (lo * (n + 1)) ltac:(nia)) as [Nln1 Vln1].
  destruct (of_int_nice (hi * (n + 1)) ltac:(nia)) as [Nhn1 Vhn1].
  assert (Nx : nice 100 x) by (apply (nice_between 100 x _ _ ltac:(lia) Nlo Nhi); assumption).
  assert (Nv : nice 100 v) by (apply (nice_between 100 v _ _ ltac:(lia) Nlo Nhi); assumption).
  apply (leb_B2R 100) in Hx1, Hx2, Hv1, Hv2; auto; try lia.
  rewrite Vlo in Hx1, Hv1. rewrite Vhi in Hx2, Hv2.
  assert (Rn : (1 <= IZR n)%R) by (apply IZR_le; lia).
  assert (Rlo : (1 <= IZR lo)%R) by (apply IZR_le; lia).
  (* the product *)
  destruct (mul_sandwich x (of_int n) Nx Nn) as [Na Sa]. rewrite Vn in Sa.
  destruct (Sa (of_int (lo * n)) (nice_mono 100 300 _ ltac:(lia) Nln)) as [Sa1 _].
  destruct (Sa (of_int (hi * n)) (nice_mono 100 300 _ ltac:(lia) Nhn)) as [_ Sa2].
  rewrite Vln, mult_IZR in Sa1. rewrite Vhn, mult_IZR in Sa2.
  specialize (Sa1 ltac:(nra)). specialize (Sa2 ltac:(nra)).
  set (a := (x * of_int n)%float) in *.
  assert (Na' : nice 100 a) by (apply (nice_between 100 a _ _ ltac:(lia) Nln Nhn); assumption).
  apply (leb_B2R 100) in Sa1, Sa2; auto; try lia.
  rewrite Vln, mult_IZR in Sa1. rewrite Vhn, mult_IZR in Sa2.
  (* the sum *)
  destruct (add_sandwich a v Na' Nv) as [Nb Sb].
  destruct (Sb (of_int (lo * (n + 1))) (nice_mono 100 300 _ ltac:(lia) Nln1)) as [Sb1 _].
  destruct (Sb (of_int (hi * (n + 1))) (nice_mono 100 300 _ ltac:(lia) Nhn1)) as [_ Sb2].
  rewrite Vln1, mult_IZR, plus_IZR in Sb1. rewrite Vhn1, mult_IZR, plus_IZR in Sb2.
  specialize (Sb1 ltac:(nra)). specialize (Sb2 ltac:(nra)).
  set (b := (a + v)%float) in *.
  assert (Nb' : nice 100 b) by (apply (nice_between 100 b _ _ ltac:(lia) Nln1 Nhn1); assumption).
  apply (leb_B2R 100) in Sb1, Sb2; auto; try lia.
  rewrite Vln1, mult_IZR, plus_IZR in Sb1. rewrite Vhn1, mult_IZR, plus_IZR in Sb2.
  (* the quotient *)
  destruct (div_sandwich b (of_int (n + 1)) Nb' Nn1) as [Nr Sr].
  rewrite Vn1, plus_IZR in Sr.
  destruct (Sr (of_int lo) (nice_mono 100 300 _ ltac:(lia) Nlo)) as [Sr1 _].
  destruct (Sr (of_int hi) (nice_mono 100 300 _ ltac:(lia) Nhi)) as [_ Sr2].
  rewrite Vlo in Sr1. rewrite Vhi in Sr2.
  destruct (Rdiv_between (IZR lo) (IZR hi) (B2R b) (IZR n + 1)) as [Q1 Q2]; [lra|lra|].
  split; [now apply Sr1|now apply Sr2].
Qed.

(** ** The running mean of [add_rating] in binary64 *)

Section Binary64Mean.

Lemma fits_small (n : Z) : 0 <= n <= 2 ^ 53 -> fits (F := float) n = true.
Proof.
  intros Hn. cbn [fits binary64]. apply Z.ltb_lt.
  assert (2 ^ 53 < 2 ^ 1024 - 2 ^ 970) by (vm_compute; reflexivity). lia.
Qed.

Lemma add_zero_l (v : float) : nice 100 v -> (0 + v)%float = v.
Proof.
  intros (m & e & E & _). apply Prim2SF_inj. rewrite add_spec, E. reflexivity.
Qed.

(** The first rating of a book: [(0.0 * 0 + v) / 1]. *)
Lemma first_rating (v : float) (lo hi : Z) :
  1 <= lo <= hi -> hi < 2 ^ 53 ->
  PrimFloat.leb (of_int lo) v = true -> PrimFloat.leb v (of_int hi) = true ->
  PrimFloat.leb (of_int lo) ((of_int 0 * of_int 0 + v) / of_int (0 + 1)) = true
  /\ PrimFloat.leb ((of_int 0 * of_int 0 + v) / of_int (0 + 1)) (of_int hi) = true.
Proof.
  intros Hlohi Hhi Hv1 Hv2.
  destruct (of_int_nice lo ltac:(lia)) as [Nlo Vlo].
  destruct (of_int_nice hi ltac:(lia)) as [Nhi Vhi].
  destruct (of_int_nice 1 ltac:(lia)) as [N1 V1].
  assert (Nv : nice 100 v) by (apply (nice_between 100 v _ _ ltac:(lia) Nlo Nhi); assumption).
  replace (of_int 0 * of_int 0)%float with 0%float by (vm_compute; reflexivity).
  rewrite (add_zero_l v Nv). change (0 + 1) with 1.
  apply (leb_B2R 100) in Hv1, Hv2; auto; try lia. rewrite Vlo in Hv1. rewrite Vhi in Hv2.
  destruct (div_sandwich v (of_int 1) Nv N1) as [_ Sr]. rewrite V1 in Sr.
  destruct (Sr (of_int lo) (nice_mono 100 300 _ ltac:(lia) Nlo)) as [Sr1 _].
  destruct (Sr (of_int hi) (nice_mono 100 300 _ ltac:(lia) Nhi)) as [_ Sr2].
  rewrite Vlo in Sr1. rewrite Vhi in Sr2.
  split; [apply Sr1|apply Sr2]; unfold Rdiv; rewrite Rinv_1; lra.
Qed.

(** The mean [add_rating] computes in binary64, between the bounds of the
    old mean and of the value. *)
Lemma add_rating_between (b b' : Book float) (r : float) (lo hi : Z) :
  add_rating b r = Ok b' ->
  count_ok b -> 1 <= lo <= hi -> hi * (num_ratings b + 1) < 2 ^ 53 ->
  (0 < num_ratings b ->
   fle (of_int lo) (rating b) = true /\ fle (rating b) (of_int hi) = true) ->
  fle (of_int lo) r = true -> fle r (of_int hi) = true ->
  num_ratings b' = num_ratings b + 1 ->
  fle (of_int lo) (rating b') = true /\ fle (rating b') (of_int hi) = true.
Proof.
  intros Hadd [Hn Hzero] Hlohi Hbound Hx Hr1 Hr2 Hcount.
  apply add_rating_Ok in Hadd as [->|(_ & _ & _ & _ & ->)]; [lia|].
  cbn [rating]. destruct (Z.eq_dec (num_ratings b) 0) as [E|E].
  - rewrite E, (Hzero E). apply first_rating; auto; lia.
  - destruct (Hx ltac:(lia)) as [Hx1 Hx2].
    apply (mean_step (rating b) r (num_ratings b) lo hi); auto; lia.
Qed.

Lemma rating_ok_upto_add_rating (b b' : Book float) (r : float) :
  add_rating b r = Ok b' -> count_ok b -> rating_ok_upto b -> rating_ok_upto b'.
Proof.
  intros Hadd Hc Hok.
  destruct (add_rating_Ok b b' r Hadd) as [->|(Hr & _ & _ & _ & E)]; [exact Hok|].
  intros Hcount. rewrite E in Hcount. cbn [num_ratings] in Hcount.
  unfold max_exact_count in Hcount. apply andb_true_iff in Hr as [Hr1 Hr5].
  apply (add_rating_between b b' r 1 5 Hadd Hc); auto; try lia.
  - intros Hpos. apply Hok. unfold max_exact_count. lia.
  - now rewrite E.
Qed.

(** A float in [1,5] is not below 0. *)
Lemma leb_zero (x : float) :
  fle (of_int 1) x = true -> fle x (of_int 5) = true -> fle (of_int 0) x = true.
Proof.
  intros H1 H5.
  destruct (of_int_nice 1 ltac:(lia)) as [N1 _].
  destruct (of_int_nice 5 ltac:(lia)) as [N5 _].
  destruct (nice_between 100 x _ _ ltac:(lia) N1 N5 H1 H5) as (m & e & E & _).
  cbn [fle binary64]. rewrite leb_spec, E.
  replace (Prim2SF (of_int 0)) with (S754_zero false) by (vm_compute; reflexivity).
  reflexivity.
Qed.

Lemma rating_ok_upto_in_range (b : Book float) :
  count_ok b -> rating_ok_upto b -> rating_in_range_upto b.
Proof.
  intros [Hn Hzero] Hok. split.
  - intros Hpos. destruct (Hok Hpos) as [H1 H5]. split; [|exact H5].
    now apply leb_zero.
  - intros Hnpos. apply Hzero. lia.
Qed.

(** Rated 5.0 over and over, a book keeps the rating 5.0 as long as its
    count is at most [max_exact_count]. *)
Lemma add_rating_five (t a g i : string) (bo : bool) (h : list BorrowRecord) (n : Z) :
  1 <= n < max_exact_count ->
  add_rating (mkBook t a g i bo h 5%float n) 5%float
  = Ok (mkBook t a g i bo h 5%float (n + 1)).
Proof.
  intros Hn. unfold max_exact_count in Hn.
  set (b := mkBook t a g i bo h 5%float n).
  assert (Hadd : add_rating b 5%float
                 = Ok (mkBook t a g i bo h
                         (fdiv (fadd (fmul 5%float (of_int n)) 5%float) (of_int (n + 1)))
                         (n + 1))).
  { apply (add_rating_in_range b 5%float); [reflexivity|cbn; lia| |];
      apply fits_small; cbn [num_ratings b]; lia. }
  rewrite Hadd. do 2 f_equal.
  assert (E5 : of_int (F := float) 5 = 5%float) by (vm_compute; reflexivity).
  pose proof (add_rating_between b _ 5%float 5 5 Hadd) as Hb.
  cbn [num_ratings rating b] in Hb. rewrite E5 in Hb.
  destruct Hb as [H1 H2]; auto; try lia; try (split; cbn; [lia|intros; lia]).
  destruct (of_int_nice 5 ltac:(lia)) as [N5 _]. rewrite E5 in N5.
  apply (leb_antisym 100); auto; try lia.
  apply (nice_between 100 _ 5%float 5%float); auto; lia.
Qed.

Lemma five_reachable (t a g i : string) (k : nat) :
  1 + Z.of_nat k <= max_exact_count ->
  book_reachable (mkBook t a g i false [] 5%float (1 + Z.of_nat k)).
Proof.
  induction k as [|k IH]; intros Hk.
  - apply (book_add_rating (new_Book t a g i) 5%float); [apply book_new|].
    vm_compute. reflexivity.
  - replace (1 + Z.of_nat (S k)) with (1 + Z.of_nat k + 1) by lia.
    apply (book_add_rating (mkBook t a g i false [] 5%float (1 + Z.of_nat k)) 5%float).
    + apply IH. lia.
    + apply add_rating_five. lia.
Qed.

(** One rating more and the mean leaves the range: the sum
    [5 * max_exact_count + 5] lies above [2^53] and is rounded up. *)
Lemma add_rating_above_five (t a g i : string) (bo : bool) (h : list BorrowRecord) :
  add_rating (mkBook t a g i bo h 5%float max_exact_count) 5%float
  = Ok (mkBook t a g i bo h 0x1.4000000000001p+2%float (max_exact_count + 1)).
Proof. vm_compute. reflexivity. Qed.

End Binary64Mean.


Section StoreFacts.
Context {F : Type} `{PyFloat F}.

Lemma In_insert (l : list (Book F)) (k : nat) (b x : Book F) :
  In x (<[k := b]> l) -> x = b \/ In x l.
Proof.
  revert k. induction l as [|y l IH]; intros [|k]; simpl; try tauto.
  - intros [<-|Hx]; auto.
  - intros [<-|Hx]; auto. destruct (IH k Hx); auto.
Qed.

Lemma ids_insert (l : list (Book F)) (k : nat) (b b' : Book F) :
  l !! k = Some b -> book_id b' = book_id b ->
  map book_id (<[k := b']> l) = map book_id l.
Proof.
  revert k. induction l as [|y l IH]; intros [|k]; simpl; try discriminate.
  - intros [= ->] ->. reflexivity.
  - intros Hk Hid. f_equal. now apply IH.
Qed.

Lemma lookup_In (l : list (Book F)) (k : nat) (b : Book F) :
  l !! k = Some b -> In b l.
Proof.
  revert k. induction l as [|y l IH]; intros [|k]; simpl; try discriminate.
  - intros [= ->]. now left.
  - intros Hk. right. eapply IH, Hk.
Qed.

Lemma add_book_books (lib lib' : Library F) t a g i line :
  add_book lib t a g i = Ok (lib', line) ->
  books lib' = books lib
  \/ exists t' a' g' i',
       books lib' = books lib ++ [new_Book t' a' g' i']
       /\ forall b, In b (books lib) -> book_id b <> i'.
Proof.
  unfold add_book, add_book_try.
  destruct (forallb truthy [t; a; g; i]) eqn:Hall; cbn [negb];
    [|intros [= <- _]; now left].
  destruct (existsb _ (books lib)) eqn:Ex; [intros [= <- _]; now left|].
  intros [= <- _]. right. simpl.
  exists (default "" t), (default "" a), (default "" g), (default "" i).
  split; [reflexivity|].
  intros b Hb Hid.
  cbn [forallb] in Hall. rewrite !andb_true_iff in Hall.
  destruct Hall as (_ & _ & _ & Hi & _).
  assert (Hdup : existsb (fun b => bool_decide (Some (book_id b) = i)) (books lib)
                 = true).
  { apply existsb_exists. exists b. split; [exact Hb|].
    apply bool_decide_eq_true. rewrite Hid.
    destruct i; [reflexivity|discriminate]. }
  congruence.
Qed.

End StoreFacts.

(** A property of books that new books have and the three methods keep is
    a property of every book of every reachable library. *)
Section Preservation.
Context {F : Type} `{PyFloat F} (P : Book F -> Prop).
Hypothesis P_new : forall t a g i, P (new_Book t a g i).
Hypothesis P_borrow : forall b user now, P b -> P (borrow b user now).1.
Hypothesis P_return_book : forall b now, P b -> P (return_book b now).1.
Hypothesis P_add_rating : forall b r b', add_rating b r = Ok b' -> P b -> P b'.

Lemma books_satisfy_insert (lib : Library F) (k : nat) (b b' : Book F) :
  books lib !! k = Some b ->
  book_id b' = book_id b ->
  (P b -> P b') ->
  books_satisfy P lib ->
  books_satisfy P (mkLibrary (<[k := b']> (books lib)) (data_file lib)).
Proof.
  intros Hk Hid Hb' [Hids Hbooks]. split.
  - unfold ids_unique. simpl. now rewrite (ids_insert _ _ _ _ Hk Hid).
  - simpl. intros x [->|Hx]%In_insert; [|now apply Hbooks].
    apply Hb', Hbooks, (lookup_In _ _ _ Hk).
Qed.

Lemma books_satisfy_step (lib lib' : Library F) :
  books_satisfy P lib -> step lib lib' -> books_satisfy P lib'.
Proof.
  intros Hok Hstep. destruct Hstep as
    [lib t a g i lib' line Hadd|lib k b user now Hk|lib k b now Hk
    |lib k b r b' Hk Hrate|lib].
  - destruct (add_book_books _ _ _ _ _ _ _ Hadd)
      as [E|(t' & a' & g' & i' & E & Hfresh)];
      destruct Hok as [Hids Hbooks]; unfold books_satisfy, ids_unique; rewrite E;
      [now split|].
    split.
    + rewrite map_app. simpl. apply NoDup_app. split; [exact Hids|]. split.
      * intros x Hx [->|[]]%list_elem_of_In.
        apply list_elem_of_In, in_map_iff in Hx as (b & Hb & Hin).
        exact (Hfresh b Hin Hb).
      * apply NoDup_singleton.
    + intros b [Hb|[<-|[]]]%in_app_iff; [now apply Hbooks|apply P_new].
  - apply (books_satisfy_insert lib k b _ Hk);
      [apply book_id_borrow|apply P_borrow|exact Hok].
  - apply (books_satisfy_insert lib k b _ Hk);
      [apply book_id_return_book|apply P_return_book|exact Hok].
  - apply (books_satisfy_insert lib k b _ Hk);
      [exact (book_id_add_rating _ _ _ Hrate)|exact (P_add_rating _ _ _ Hrate)
      |exact Hok].
  - exact Hok.
Qed.

Lemma books_satisfy_reachable (lib : Library F) :
  reachable lib -> books_satisfy P lib.
Proof.
  induction 1 as [file|lib lib' _ IH Hstep].
  - split; [constructor|intros b []].
  - exact (books_satisfy_step _ _ IH Hstep).
Qed.

Lemma book_reachable_satisfies (b : Book F) : book_reachable b -> P b.
Proof.
  induction 1 as [t a g i|b r b' _ IH Hrate|b user now _ IH|b now _ IH]; eauto.
Qed.

End Preservation.

Section StructuralInvariants.
Context {F : Type} `{PyFloat F}.

Lemma book_ok_new t a g i : book_ok (new_Book (F := F) t a g i).
Proof. split; [apply count_ok_new|apply history_ok_new]. Qed.

Lemma book_ok_borrow (b : Book F) user now :
  book_ok b -> book_ok (borrow b user now).1.
Proof.
  intros [Hc Hh]. split; [now apply count_ok_borrow|now apply history_ok_borrow].
Qed.

Lemma book_ok_return_book (b : Book F) now :
  book_ok b -> book_ok (return_book b now).1.
Proof.
  intros [Hc Hh].
  split; [now apply count_ok_return_book|now apply history_ok_return_book].
Qed.

Lemma book_ok_add_rating (b : Book F) r b' :
  add_rating b r = Ok b' -> book_ok b -> book_ok b'.
Proof.
  intros Hrate [Hc Hh].
  split; [exact (count_ok_add_rating _ _ _ Hrate Hc)
         |exact (history_ok_add_rating _ _ _ Hrate Hh)].
Qed.

Lemma books_ok_structure (lib : Library F) :
  books_satisfy book_ok lib -> structure_invariants lib.
Proof.
  intros [Hids Hbooks]. split; [exact Hids|]. intros b Hb.
  destruct (Hbooks b Hb) as [[Hn Hzero] Hh].
  split; [intros Hnpos; apply Hzero; lia|].
  split; [exact (proj2 Hh)|now apply history_ok_at_most_one_open].
Qed.

End StructuralInvariants.

Section Binary64Store.

Lemma book_ok_binary64_new t a g i : book_ok_binary64 (new_Book t a g i).
Proof.
  split; [apply count_ok_new|]. split; [|apply history_ok_new].
  intros Hpos. simpl in Hpos. lia.
Qed.

Lemma book_ok_binary64_borrow (b : Book float) user now :
  book_ok_binary64 b -> book_ok_binary64 (borrow b user now).1.
Proof.
  intros (Hc & Hr & Hh). split; [now apply count_ok_borrow|].
  split; [|now apply history_ok_borrow].
  unfold borrow. now destruct (is_borrowed b).
Qed.

Lemma book_ok_binary64_return_book (b : Book float) now :
  book_ok_binary64 b -> book_ok_binary64 (return_book b now).1.
Proof.
  intros (Hc & Hr & Hh). split; [now apply count_ok_return_book|].
  split; [|now apply history_ok_return_book].
  unfold return_book. now destruct (is_borrowed b).
Qed.

Lemma book_ok_binary64_add_rating (b : Book float) r b' :
  add_rating b r = Ok b' -> book_ok_binary64 b -> book_ok_binary64 b'.
Proof.
  intros Hrate (Hc & Hr & Hh).
  split; [exact (count_ok_add_rating _ _ _ Hrate Hc)|].
  split; [exact (rating_ok_upto_add_rating _ _ _ Hrate Hc Hr)
         |exact (history_ok_add_rating _ _ _ Hrate Hh)].
Qed.

Lemma books_ok_binary64_invariants (lib : Library float) :
  books_satisfy book_ok_binary64 lib -> store_invariants_upto lib.
Proof.
  intros [Hids Hbooks]. split; [exact Hids|].
  intros b Hb. destruct (Hbooks b Hb) as (Hc & Hr & Hh).
  split; [now apply rating_ok_upto_in_range|].
  split; [exact (proj2 Hh)|now apply history_ok_at_most_one_open].
Qed.

(** The library with one book, rated 5.0 over and over. *)
Lemma library_of_fives (k : nat) :
  1 + Z.of_nat k <= max_exact_count ->
  reachable
    (mkLibrary [mkBook "Dune" "Herbert" "Sci-Fi" "1" false [] 5%float (1 + Z.of_nat k)]
       (Some [to_dict (new_Book (F := float) "Dune" "Herbert" "Sci-Fi" "1")])).
Proof.
  set (file := Some [to_dict (new_Book (F := float) "Dune" "Herbert" "Sci-Fi" "1")]).
  induction k as [|k IH]; intros Hk.
  - apply (reachable_step (mkLibrary [new_Book "Dune" "Herbert" "Sci-Fi" "1"] file)).
    + apply (reachable_step (mkLibrary [] None)); [apply reachable_empty|].
      apply (step_add_book (mkLibrary [] None) (Some "Dune") (Some "Herbert")
               (Some "Sci-Fi") (Some "1") _ "Book 'Dune' added successfully.").
      reflexivity.
    + apply (step_add_rating
               (mkLibrary [new_Book "Dune" "Herbert" "Sci-Fi" "1"] file) 0%nat
               (new_Book "Dune" "Herbert" "Sci-Fi" "1") 5%float
               (mkBook "Dune" "Herbert" "Sci-Fi" "1" false [] 5%float 1));
        [reflexivity|vm_compute; reflexivity].
  - replace (1 + Z.of_nat (S k)) with (1 + Z.of_nat k + 1) by lia.
    apply (reachable_step _ _ (IH ltac:(lia))).
    apply (step_add_rating
             (mkLibrary [mkBook "Dune" "Herbert" "Sci-Fi" "1" false [] 5%float
                           (1 + Z.of_nat k)] file) 0%nat
             (mkBook "Dune" "Herbert" "Sci-Fi" "1" false [] 5%float (1 + Z.of_nat k))
             5%float); [reflexivity|].
    apply add_rating_five. lia.
Qed.

End Binary64Store.

(** C8, as the code has it.  On every library the core operations build
    from one without books, and on every library one more operation makes
    of it: ids are unique; each rating is 0 while the book has no ratings;
    the last history entry of each book is open if and only if the book is
    borrowed; and at most one history entry of each book is open.  So far
    in any float arithmetic.  In binary64, moreover, each rating is in
    [0,5] when the book has ratings, at most [max_exact_count] of them
    (1801439850948198: up to there the sums the mean is made of are
    integers below [2^53]). *)
Theorem core_operations_keep_invariants :
  (forall (F : Type) (PF : PyFloat F) (lib : Library F),
      reachable lib ->
      structure_invariants lib
      /\ forall lib', step lib lib' -> structure_invariants lib')
  /\ (forall lib : Library float,
        reachable lib ->
        store_invariants_upto lib
        /\ forall lib', step lib lib' -> store_invariants_upto lib').
Proof.
  split.
  - intros F PF lib Hreach.
    assert (Hok : books_satisfy book_ok lib).
    { exact (books_satisfy_reachable book_ok book_ok_new book_ok_borrow
               book_ok_return_book book_ok_add_rating lib Hreach). }
    split; [now apply books_ok_structure|].
    intros lib' Hstep. apply books_ok_structure.
    exact (books_satisfy_step book_ok book_ok_new book_ok_borrow
             book_ok_return_book book_ok_add_rating lib lib' Hok Hstep).
  - intros lib Hreach.
    assert (Hok : books_satisfy book_ok_binary64 lib).
    { exact (books_satisfy_reachable book_ok_binary64 book_ok_binary64_new
               book_ok_binary64_borrow book_ok_binary64_return_book
               book_ok_binary64_add_rating lib Hreach). }
    split; [now apply books_ok_binary64_invariants|].
    intros lib' Hstep. apply books_ok_binary64_invariants.
    exact (books_satisfy_step book_ok_binary64 book_ok_binary64_new
             book_ok_binary64_borrow book_ok_binary64_return_book
             book_ok_binary64_add_rating lib lib' Hok Hstep).
Qed.

(** The claim as stated, without the bound on the count, fails in
    binary64.  "Dune" is added and rated 5.0 again and again: the mean is
    5.0 up to count 1801439850948198, and with one rating more the sum
    9007199254740995 is rounded to 9007199254740996 and the mean to
    5.000000000000001 (5 + 2^-50), above 5. *)
Lemma store_invariants_fail :
  let dune := mkBook "Dune" "Herbert" "Sci-Fi" "1" false []
                0x1.4000000000001p+2%float 1801439850948199 in
  let lib := mkLibrary [dune]
               (Some [to_dict (new_Book (F := float) "Dune" "Herbert" "Sci-Fi" "1")]) in
  reachable lib /\ ~ store_invariants lib.
Proof.
  intros dune lib. split.
  - pose proof (library_of_fives (Z.to_nat (max_exact_count - 1))) as Hfives.
    rewrite Z2Nat.id in Hfives by (unfold max_exact_count; lia).
    replace (1 + (max_exact_count - 1)) with max_exact_count in Hfives by lia.
    apply (reachable_step _ _ (Hfives ltac:(lia))).
    apply (step_add_rating
             (mkLibrary
                [mkBook "Dune" "Herbert" "Sci-Fi" "1" false [] 5%float max_exact_count]
                (Some [to_dict (new_Book (F := float) "Dune" "Herbert" "Sci-Fi" "1")]))
             0%nat
             (mkBook "Dune" "Herbert" "Sci-Fi" "1" false [] 5%float max_exact_count)
             5%float dune); [reflexivity|].
    apply add_rating_above_five.
  - intros [_ Hbooks]. destruct (Hbooks dune ltac:(now left)) as [[Hrange _] _].
    destruct (Hrange ltac:(cbn; lia)) as [_ H5]. vm_compute in H5. discriminate.
Qed.

(** "Dune" is added to an empty library, borrowed by U1 and rated 3: the
    library reached holds one borrowed book with rating 3.0 and count 1
    and satisfies the invariants. *)
Lemma core_operations_keep_invariants_witness :
  exists lib : Library float,
    reachable lib
    /\ map (fun b => (book_id b, is_borrowed b, rating b, num_ratings b))
         (books lib)
       = [("1", true, 3%float, 1)]
    /\ structure_invariants lib
    /\ store_invariants_upto lib.
Proof.
  pose (lib0 := mkLibrary (F := float) [] None).
  pose (dune := new_Book (F := float) "Dune" "Herbert" "Sci-Fi" "1").
  pose (lib1 := save_books (mkLibrary [dune] None)).
  pose (dune2 := (borrow dune "U1" "2024-01-01T10:00:00").1).
  pose (lib2 := mkLibrary (<[0%nat := dune2]> (books lib1)) (data_file lib1)).
  pose (dune3 := mkBook (title dune2) (author dune2) (genre dune2) (book_id dune2)
                   (is_borrowed dune2) (borrow_history dune2) 3%float 1).
  pose (lib3 := mkLibrary (<[0%nat := dune3]> (books lib2)) (data_file lib2)).
  assert (H3 : reachable lib3).
  { apply (reachable_step lib2).
    - apply (reachable_step lib1).
      + apply (reachable_step lib0); [apply reachable_empty|].
        apply (step_add_book lib0 (Some "Dune") (Some "Herbert") (Some "Sci-Fi")
                 (Some "1") lib1 "Book 'Dune' added successfully.").
        reflexivity.
      + apply (step_borrow lib1 0%nat dune). reflexivity.
    - apply (step_add_rating lib2 0%nat dune2 3%float dune3);
        [reflexivity|vm_compute; reflexivity]. }
  exists lib3. split; [exact H3|]. split; [reflexivity|]. split.
  - exact (proj1 (proj1 core_operations_keep_invariants float binary64 lib3 H3)).
  - exact (proj1 (proj2 core_operations_keep_invariants lib3 H3)).
Defined.

(** C10, as the code has it.  A book made from a new one by [add_rating]
    (and [borrow] and [return_book], which leave the rating alone) that has
    ratings, at most [max_exact_count] of them, has its rating in [1,5],
    in binary64. *)
Theorem rated_average_in_1_5 (b : Book float) :
  book_reachable b ->
  0 < num_ratings b <= max_exact_count ->
  fle (of_int 1) (rating b) = true /\ fle (rating b) (of_int 5) = true.
Proof.
  intros Hreach.
  exact (proj1 (proj2 (book_reachable_satisfies book_ok_binary64
                         book_ok_binary64_new book_ok_binary64_borrow
                         book_ok_binary64_return_book
                         book_ok_binary64_add_rating b Hreach))).
Qed.

(** The claim as stated, for every count, fails in binary64: a new book
    rated 5.0 for 1801439850948199 times has the rating 5.000000000000001
    (5 + 2^-50), which is not in [1,5]. *)
Lemma rated_average_leaves_1_5 :
  let b := mkBook "Dune" "Herbert" "Sci-Fi" "1" false []
             0x1.4000000000001p+2%float 1801439850948199 in
  book_reachable b /\ 0 < num_ratings b /\ ~ rating_ok b.
Proof.
  intros b. split; [|split].
  - pose proof (five_reachable "Dune" "Herbert" "Sci-Fi" "1"
                  (Z.to_nat (max_exact_count - 1))) as Hfives.
    rewrite Z2Nat.id in Hfives by (unfold max_exact_count; lia).
    replace (1 + (max_exact_count - 1)) with max_exact_count in Hfives by lia.
    apply (book_add_rating _ 5%float b (Hfives ltac:(lia))).
    apply add_rating_above_five.
  - cbn. lia.
  - intros Hok. destruct (Hok ltac:(cbn; lia)) as [_ H5].
    vm_compute in H5. discriminate.
Qed.

(** A new book rated 1.0 and then 2.0 has two ratings and the average
    1.5, which is in [1,5]. *)
Lemma rated_average_in_1_5_witness :
  exists b : Book float,
    book_reachable b
    /\ num_ratings b = 2
    /\ rating b = 1.5%float
    /\ fle (of_int 1) (rating b) = true /\ fle (rating b) (of_int 5) = true.
Proof.
  pose (b0 := new_Book (F := float) "Dune" "Herbert" "Sci-Fi" "1").
  pose (b1 := mkBook (title b0) (author b0) (genre b0) (book_id b0)
                (is_borrowed b0) (borrow_history b0) 1%float 1).
  pose (b2 := mkBook (title b1) (author b1) (genre b1) (book_id b1)
                (is_borrowed b1) (borrow_history b1) 1.5%float 2).
  assert (H2 : book_reachable b2).
  { apply (book_add_rating b1 2%float); [|vm_compute; reflexivity].
    apply (book_add_rating b0 1%float); [|vm_compute; reflexivity].
    apply book_new. }
  exists b2. split; [exact H2|]. split; [reflexivity|]. split; [reflexivity|].
  apply (rated_average_in_1_5 b2 H2). unfold max_exact_count. cbn. lia.
Defined.

(** ** [Library.generate_recommendations] *)

Section RecommendationFacts.
Context {F : Type} `{PyFloatOrder F}.


Lemma count_history_counts (user : string) (b : Book F) (ug ua : gmap string Z) (k : string) :
  count_of (count_history user b (ug, ua)).1 k
  = count_of ug k + (if String.eqb (genre b) k then borrowed_by user b else 0)
  /\ count_of (count_history user b (ug, ua)).2 k
     = count_of ua k + (if String.eqb (author b) k then borrowed_by user b else 0).
Proof.
  unfold count_history, borrowed_by.
  generalize (borrow_history b) as h. intros h. revert ug ua.
  induction h as [|e h IH]; intros ug ua.
  - simpl. split; repeat case_match; lia.
  - cbn [fold_left List.filter]. destruct (String.eqb (user_id e) user).
    + destruct (IH (incr ug (genre b)) (incr ua (author b))) as [-> ->].
      rewrite !count_of_incr. cbn [length].
      split; repeat case_match; lia.
    + apply IH.
Qed.

Lemma user_preferences_counts (lib : Library F) (user k : string) :
  count_of (user_preferences lib user).1 k = borrowed_in user (of_genre k (books lib))
  /\ count_of (user_preferences lib user).2 k = borrowed_in user (of_author k (books lib)).
Proof.
  unfold user_preferences.
  assert (Hgen : forall (l : list (Book F)) ug ua,
    count_of (fold_left (fun acc book => count_history user book acc) l (ug, ua)).1 k
    = count_of ug k + borrowed_in user (of_genre k l)
    /\ count_of (fold_left (fun acc book => count_history user book acc) l (ug, ua)).2 k
       = count_of ua k + borrowed_in user (of_author k l)).
  { induction l as [|b l IH]; intros ug ua.
    - simpl. split; lia.
    - cbn [fold_left]. destruct (count_history user b (ug, ua)) as [ug' ua'] eqn:E.
      destruct (IH ug' ua') as [-> ->].
      destruct (count_history_counts user b ug ua k) as [Hg Ha].
      rewrite E in Hg, Ha. simpl in Hg, Ha. rewrite Hg, Ha.
      unfold of_genre, of_author. cbn [List.filter].
      split; repeat case_match; cbn [borrowed_in]; lia. }
  destruct (Hgen (books lib) ∅ ∅) as [-> ->]. split; reflexivity.
Qed.

Lemma candidates_scored (lib : Library F) (ug ua : gmap string Z) :
  candidates lib ug ua
  = map (fun b => (score_of ug ua b, b))
        (List.filter (fun b => negb (is_borrowed b)
                               && flt (of_int 0) (score_of ug ua b))
                     (books lib)).
Proof.
  unfold candidates.
  assert (Hgen : forall (l : list (Book F)) acc,
    fold_left
      (fun recommendations book =>
         if negb (is_borrowed book) && negb (book_in book recommendations) then
           let score := score_of ug ua book in
           if flt (of_int 0) score
           then recommendations ++ [(score, book)]
           else recommendations
         else recommendations) l acc
    = acc ++ map (fun b => (score_of ug ua b, b))
               (List.filter (fun b => negb (is_borrowed b)
                                      && flt (of_int 0) (score_of ug ua b)) l)).
  { induction l as [|b l IH]; intros acc; cbn [fold_left List.filter].
    - now rewrite app_nil_r.
    - rewrite IH.
      assert (Hin : book_in b acc = false).
      { unfold book_in. induction acc; simpl; auto. }
      rewrite Hin, andb_true_r.
      destruct (is_borrowed b); cbn [negb andb]; [reflexivity|].
      destruct (flt (of_int 0) (score_of ug ua b)); [|reflexivity].
      cbn [map]. now rewrite <- app_assoc. }
  apply (Hgen (books lib) []).
Qed.

End RecommendationFacts.

Section RankingFacts.
Context {F : Type} `{PyFloatOrder F}.

Abbreviation ranked_r := (insert_all_r recommendation_lt).

Lemma ranked_r_raise (l : list (F * Book F)) e : ranked_r l (Raise e) = Raise e.
Proof. induction l as [|x l IH]; [reflexivity|exact IH]. Qed.

Lemma score_lt_asym (x y : F * Book F) : score_lt x y = true -> score_lt y x = false.
Proof.
  unfold score_lt. intros Hxy. apply not_true_is_false. intros Hyx.
  pose proof (flt_trans _ _ _ Hxy Hyx) as Hxx. rewrite flt_irrefl in Hxx.
  discriminate.
Qed.

(** Inserting a candidate tied with none of a list in strictly ascending
    order of score raises nothing and keeps the order strict. *)
Lemma insert_untied (x : F * Book F) (acc : list (F * Book F)) :
  fnan x.1 = false ->
  Forall (fun a => fnan a.1 = false) acc ->
  Forall (fun a => feq x.1 a.1 = false) acc ->
  StronglySorted (fun a b => score_lt a b = true) acc ->
  insert_sorted_r recommendation_lt x acc = Ok (insert_sorted score_lt x acc)
  /\ StronglySorted (fun a b => score_lt a b = true) (insert_sorted score_lt x acc).
Proof.
  intros Hx Hnan Hfree Hsorted.
  induction Hsorted as [|z acc Hacc IH Hz]; cbn [insert_sorted_r insert_sorted].
  - split; [reflexivity|repeat constructor].
  - apply Forall_cons in Hnan as [Hzn Hnan]. apply Forall_cons in Hfree as [Hxz Hfree].
    unfold recommendation_lt at 1. rewrite Hxz. cbn [rbind].
    fold (score_lt x z). destruct (score_lt x z) eqn:Hlt.
    + split; [reflexivity|]. constructor; [now constructor|].
      constructor; [exact Hlt|].
      rewrite List.Forall_forall in *. intros w Hw.
      exact (flt_trans _ _ _ Hlt (Hz w Hw)).
    + destruct (IH Hnan Hfree) as [-> Hs]. split; [reflexivity|].
      constructor; [exact Hs|].
      rewrite List.Forall_forall in *. intros w Hw.
      apply (Permutation_in _ (insert_sorted_perm score_lt x acc)) in Hw.
      destruct Hw as [<-|Hw]; [|now apply Hz].
      destruct (flt_total _ _ Hx Hzn) as [Hxz'|[Hxz'|Hzx]];
        unfold score_lt in *; congruence.
Qed.

(** Inserting a candidate tied with one of such a list raises. *)
Lemma insert_tied (x : F * Book F) (acc : list (F * Book F)) :
  Exists (fun a => feq x.1 a.1 = true) acc ->
  StronglySorted (fun a b => score_lt a b = true) acc ->
  insert_sorted_r recommendation_lt x acc = Raise TypeError.
Proof.
  intros Htie Hsorted.
  induction Hsorted as [|z acc Hacc IH Hz]; cbn [insert_sorted_r].
  - inversion Htie.
  - unfold recommendation_lt at 1.
    destruct (feq x.1 z.1) eqn:Hxz; [reflexivity|]. cbn [rbind].
    apply Exists_cons in Htie as [Htie|Htie]; [congruence|].
    assert (Hlt : flt x.1 z.1 = false).
    { apply List.Exists_exists in Htie as (a & Ha & Hxa).
      rewrite List.Forall_forall in Hz. pose proof (Hz a Ha) as Hza.
      unfold score_lt in Hza. rewrite <- (feq_flt_r _ _ _ Hxa) in Hza.
      exact (score_lt_asym z x Hza). }
    rewrite Hlt. now rewrite (IH Htie).
Qed.

Lemma tied_dec (x : F * Book F) (acc : list (F * Book F)) :
  Exists (fun a => feq x.1 a.1 = true) acc
  \/ Forall (fun a => feq x.1 a.1 = false) acc.
Proof.
  induction acc as [|a acc [IH|IH]].
  - right. constructor.
  - left. now constructor 2.
  - destruct (feq x.1 a.1) eqn:E; [left; now constructor 1|right; now constructor].
Qed.

Lemma has_tie_cons (x : F * Book F) (l : list (F * Book F)) :
  has_tie (x :: l) <-> Exists (fun a => feq x.1 a.1 = true) l \/ has_tie l.
Proof.
  unfold has_tie, tied. split.
  - intros ([|x0 l1] & a & l2 & b & l3 & E & Hab); injection E as <- ->.
    + left. apply List.Exists_exists. exists b. split; [|exact Hab].
      apply in_app_iff. right. now left.
    + right. eauto 8.
  - intros [(b & Hb & Hxb)%List.Exists_exists|(l1 & a & l2 & b & l3 & -> & Hab)].
    + apply in_split in Hb as (l2 & l3 & ->). exists [], x, l2, b, l3. auto.
    + exists (x :: l1), a, l2, b, l3. auto.
Qed.

Lemma has_tie_app (l1 l2 : list (F * Book F)) :
  has_tie (l1 ++ l2)
  <-> has_tie l1 \/ has_tie l2
      \/ exists a b, In a l1 /\ In b l2 /\ feq a.1 b.1 = true.
Proof.
  induction l1 as [|x l1 IH]; cbn [app].
  - split; [auto|]. intros [(l & a & ? & ? & ? & E & _)|[Ht|(a & _ & [] & _)]];
      [destruct l; discriminate|exact Ht].
  - rewrite !has_tie_cons, IH, Exists_app, !List.Exists_exists. split.
    + intros [[(b & Hb & Hxb)|(b & Hb & Hxb)]|[Ht|[Ht|(a & b & Ha & Hb & Hab)]]];
        eauto 10.
      * right. right. exists x, b. split; [now left|auto].
      * right. right. exists a, b. split; [now right|auto].
    + intros [[(b & Hb & Hxb)|Ht]|[Ht|(a & b & [<-|Ha] & Hb & Hab)]]; eauto 10.
Qed.

Lemma has_tie_single (x : F * Book F) : ~ has_tie [x].
Proof.
  intros (l1 & a & l2 & b & l3 & E & _). apply (f_equal length) in E.
  rewrite length_app in E. cbn [length] in E. rewrite length_app in E.
  cbn [length] in E. lia.
Qed.

Lemma has_tie_rev (l : list (F * Book F)) : has_tie (rev l) <-> has_tie l.
Proof.
  induction l as [|x l IH]; [reflexivity|].
  cbn [rev]. rewrite has_tie_app, (has_tie_cons x l), IH. split.
  - intros [Ht|[Hs|(a & b & Ha & [<-|[]] & Hab)]]; auto.
    + elim (has_tie_single x Hs).
    + left. apply List.Exists_exists. exists a. rewrite feq_sym.
      split; [now apply in_rev|exact Hab].
  - intros [(b & Hb & Hxb)%List.Exists_exists|Ht]; auto.
    right. right. exists b, x. rewrite feq_sym.
    split; [now apply in_rev in Hb|split; [now left|exact Hxb]].
Qed.

Lemma tie_free_no_tie (l : list (F * Book F)) : tie_free l -> ~ has_tie l.
Proof.
  induction 1 as [|x l Hx _ IH]; rewrite ?has_tie_cons.
  - intros ([|? ?] & ? & ? & ? & ? & E & _); discriminate.
  - intros [(a & Ha & Hxa)%List.Exists_exists|Ht]; [|now apply IH].
    rewrite List.Forall_forall in Hx. rewrite (Hx a Ha) in Hxa. discriminate.
Qed.

Lemma no_tie_tie_free (l : list (F * Book F)) : ~ has_tie l -> tie_free l.
Proof.
  induction l as [|x l IH]; intros Hno; [constructor|].
  rewrite has_tie_cons in Hno. constructor.
  - destruct (tied_dec x l) as [Ht|Hf]; [elim Hno; auto|exact Hf].
  - apply IH. auto.
Qed.

Lemma sorted_no_tie (acc : list (F * Book F)) :
  StronglySorted (fun a b => score_lt a b = true) acc -> ~ has_tie acc.
Proof.
  intros Hsorted. apply tie_free_no_tie.
  induction Hsorted as [|z acc _ IHs Hz]; constructor; [|exact IHs].
  rewrite List.Forall_forall in *. intros w Hw.
  apply (flt_feq _ _ (Hz w Hw)).
Qed.

Lemma has_tie_sorted_app (acc l : list (F * Book F)) :
  StronglySorted (fun a b => score_lt a b = true) acc ->
  has_tie (acc ++ l)
  <-> has_tie l \/ exists a b, In a acc /\ In b l /\ feq a.1 b.1 = true.
Proof.
  intros Hsorted. rewrite has_tie_app. pose proof (sorted_no_tie acc Hsorted). tauto.
Qed.

(** The sort of a list of candidates onto a strictly ascending prefix: a
    tie anywhere raises; without ties the result is the insertion of every
    candidate, strictly ascending. *)
Lemma ranked_r_spec (l acc : list (F * Book F)) :
  Forall (fun a => fnan a.1 = false) (acc ++ l) ->
  StronglySorted (fun a b => score_lt a b = true) acc ->
  (has_tie (acc ++ l) -> ranked_r l (Ok acc) = Raise TypeError)
  /\ (~ has_tie (acc ++ l) ->
      ranked_r l (Ok acc)
      = Ok (fold_left (fun acc x => insert_sorted score_lt x acc) l acc)
      /\ StronglySorted (fun a b => score_lt a b = true)
           (fold_left (fun acc x => insert_sorted score_lt x acc) l acc)).
Proof.
  revert acc. induction l as [|x l IH]; intros acc Hnan Hsorted.
  - rewrite app_nil_r. split; [|auto].
    intros Htie. exfalso. exact (sorted_no_tie acc Hsorted Htie).
  - assert (Hx : fnan x.1 = false).
    { rewrite List.Forall_forall in Hnan. apply Hnan, in_app_iff. right. now left. }
    assert (Hacc : Forall (fun a => fnan a.1 = false) acc).
    { now apply Forall_app in Hnan as [? _]. }
    assert (Hperm : Permutation (insert_sorted score_lt x acc ++ l) (acc ++ x :: l)).
    { rewrite insert_sorted_perm. apply (Permutation_middle acc l x). }
    cbn [fold_left].
    change (ranked_r (x :: l) (Ok acc))
      with (ranked_r l (insert_sorted_r recommendation_lt x acc)).
    destruct (tied_dec x acc) as [Ht|Hf].
    + rewrite (insert_tied x acc Ht Hsorted), ranked_r_raise. split; [reflexivity|].
      intros Hno. elim Hno. apply has_tie_app. right. right.
      apply List.Exists_exists in Ht as (a & Ha & Hxa). exists a, x.
      rewrite feq_sym. split; [exact Ha|split; [now left|exact Hxa]].
    + destruct (insert_untied x acc Hx Hacc Hf Hsorted) as [-> Hs].
      assert (Hnan' : Forall (fun a => fnan a.1 = false)
                        (insert_sorted score_lt x acc ++ l)).
      { rewrite List.Forall_forall in *. intros w Hw. apply Hnan.
        exact (Permutation_in _ Hperm Hw). }
      assert (Hties : has_tie (insert_sorted score_lt x acc ++ l)
                      <-> has_tie (acc ++ x :: l)).
      { rewrite (has_tie_sorted_app _ _ Hs), (has_tie_sorted_app _ _ Hsorted).
        rewrite has_tie_cons, List.Exists_exists.
        rewrite List.Forall_forall in Hf. split.
        - intros [Ht|(a & b & Ha & Hb & Hab)]; [auto|].
          apply (Permutation_in _ (insert_sorted_perm score_lt x acc)) in Ha.
          destruct Ha as [<-|Ha]; [left; left; eauto|].
          right. exists a, b. split; [exact Ha|split; [now right|exact Hab]].
        - intros [[(b & Hb & Hxb)|Ht]|(a & b & Ha & [<-|Hb] & Hab)]; auto.
          + right. exists x, b. split; [|auto].
            apply (Permutation_in _ (Permutation_sym (insert_sorted_perm score_lt x acc))).
            now left.
          + rewrite feq_sym, (Hf a Ha) in Hab. discriminate.
          + right. exists a, b. split; [|auto].
            apply (Permutation_in _ (Permutation_sym (insert_sorted_perm score_lt x acc))).
            now right. }
      destruct (IH _ Hnan' Hs) as [Hraise Hok].
      rewrite <- Hties. split; assumption.
Qed.

End RankingFacts.

Section RecommendationRanking.
Context {F : Type} `{PyFloatOrder F}.

Lemma StronglySorted_snoc {A : Type} (R : A -> A -> Prop) (l : list A) (x : A) :
  StronglySorted R l -> Forall (fun y => R y x) l -> StronglySorted R (l ++ [x]).
Proof.
  induction 1 as [|y l Hl IH Hy]; intros Hx; cbn [app].
  - repeat constructor.
  - apply Forall_cons in Hx as [Hyx Hx]. constructor; [now apply IH|].
    apply Forall_app. split; [exact Hy|now constructor].
Qed.

Lemma StronglySorted_rev {A : Type} (R : A -> A -> Prop) (l : list A) :
  StronglySorted R l -> StronglySorted (fun a b => R b a) (rev l).
Proof.
  induction 1 as [|y l Hl IH Hy]; cbn [rev]; [constructor|].
  apply StronglySorted_snoc; [exact IH|].
  rewrite List.Forall_forall in *. intros w Hw. apply Hy. now apply in_rev.
Qed.

Lemma candidates_not_nan (lib : Library F) (ug ua : gmap string Z) :
  Forall (fun a => fnan a.1 = false) (candidates lib ug ua).
Proof.
  rewrite candidates_scored, List.Forall_forall.
  intros t (b & <- & Hb)%in_map_iff. apply filter_In in Hb as [_ Hb].
  apply andb_true_iff in Hb as [_ Hpos]. exact (proj2 (flt_not_nan _ _ Hpos)).
Qed.

(** What [generate_recommendations] does with its candidates (the
    available books with a positive score, in catalog order): if two of
    them have equal scores it raises [TypeError]; if no two have, it
    returns the books of the first five candidates in strictly descending
    order of score. *)
Lemma generate_recommendations_ranking (lib : Library F) (user : string) :
  let prefs := user_preferences lib user in
  let scored := candidates lib prefs.1 prefs.2 in
  (has_tie scored -> generate_recommendations lib user = Raise TypeError)
  /\ (tie_free scored ->
      exists ranked,
        generate_recommendations lib user = Ok (map snd (take 5 ranked))
        /\ Permutation ranked scored
        /\ StronglySorted (fun a b => score_lt b a = true) ranked).
Proof.
  intros prefs scored. unfold generate_recommendations.
  fold prefs. destruct prefs as [ug ua] eqn:E. cbn [fst snd] in scored.
  fold scored. unfold sorted_reverse_r, sorted_r.
  assert (Hnan : Forall (fun a => fnan a.1 = false) ([] ++ rev scored)).
  { cbn [app]. apply Forall_rev, candidates_not_nan. }
  destruct (ranked_r_spec (rev scored) [] Hnan (SSorted_nil _)) as [Hraise Hok].
  cbn [app] in Hraise, Hok. rewrite has_tie_rev in Hraise, Hok. split.
  - intros Htie. now rewrite (Hraise Htie).
  - intros Hfree. destruct (Hok (tie_free_no_tie _ Hfree)) as [-> Hs].
    cbn [rbind]. eexists. split; [reflexivity|]. split.
    + rewrite (Permutation_rev scored) at 2. rewrite <- Permutation_rev.
      apply (insert_all_perm score_lt (rev scored) []).
    + now apply StronglySorted_rev.
Qed.

End RecommendationRanking.

(** C1 at a tie.  U1 borrowed "Dune" (Sci-Fi) twice and still holds it.
    With one more Sci-Fi book, "Solaris", unrated and available, the
    recommendation is that book, scored 2 * 2 + 0 * 3 + 0.0 = 4.0.  With a
    second such book, "Foundation", both candidates score 4.0: [sorted]
    compares the tuples (4.0, solaris) and (4.0, foundation), the scores
    are equal, the comparison falls to the two books and raises
    [TypeError].  Two books with the same rating and no history at all do
    the same. *)
Theorem generate_recommendations_tie :
  let dune :=
    mkBook "Dune" "Herbert" "Sci-Fi" "1" true
      [mkBorrowRecord "U1" "2024-01-01T10:00:00" (Some "2024-01-08T10:00:00");
       mkBorrowRecord "U1" "2024-02-01T10:00:00" None]
      4%float 1 in
  let solaris := mkBook "Solaris" "Lem" "Sci-Fi" "2" false [] 0%float 0 in
  let foundation := mkBook "Foundation" "Asimov" "Sci-Fi" "3" false [] 0%float 0 in
  let emma := mkBook "Emma" "Austen" "Novel" "4" false [] 4%float 1 in
  let persuasion := mkBook "Persuasion" "Austen" "Novel" "5" false [] 4%float 3 in
  generate_recommendations (mkLibrary [dune; solaris] None) "U1" = Ok [solaris]
  /\ candidates (mkLibrary [dune; solaris; foundation] None)
       (user_preferences (mkLibrary [dune; solaris; foundation] None) "U1").1
       (user_preferences (mkLibrary [dune; solaris; foundation] None) "U1").2
     = [(4%float, solaris); (4%float, foundation)]
  /\ generate_recommendations (mkLibrary [dune; solaris; foundation] None) "U1"
     = Raise TypeError
  /\ generate_recommendations (mkLibrary [emma; persuasion] None) "U2"
     = Raise TypeError.
Proof.
  intros dune solaris foundation emma persuasion.
  repeat split; vm_compute; reflexivity.
Qed.

(** * Further properties *)

(** ** [Book.add_rating] at the edges *)

Section RatingEdges.

Lemma leb_key x y :
  PrimFloat.leb x y = true -> exists a b, float_key x = Some a /\ float_key y = Some b.
Proof.
  rewrite FloatAxioms.leb_spec. unfold SFleb, float_key. rewrite SFcompare_key.
  destruct (sf_key (Prim2SF x)) as [a|], (sf_key (Prim2SF y)) as [b|];
    try discriminate. eauto.
Qed.

Lemma nan_not_leb x y :
  PrimFloat.is_nan x = true \/ PrimFloat.is_nan y = true -> PrimFloat.leb x y = false.
Proof.
  intros Hnan. apply not_true_is_false. intros (a & b & Ha & Hb)%leb_key.
  destruct Hnan as [Hx|Hy].
  - assert (PrimFloat.is_nan x = false) by (apply is_nan_key; eauto). congruence.
  - assert (PrimFloat.is_nan y = false) by (apply is_nan_key; eauto). congruence.
Qed.

End RatingEdges.

(** X1. In binary64, [add_rating] with NaN, or with an infinity, leaves the
    book as it is and raises nothing: every comparison with NaN is false,
    and an infinity is outside [1,5]. *)
Theorem add_rating_ignores_nan (b : Book float) (r : float) :
  PrimFloat.is_nan r = true \/ r = infinity \/ r = neg_infinity ->
  add_rating b r = Ok b.
Proof.
  intros [Hnan|[->| ->]]; apply add_rating_out_of_range.
  - apply andb_false_iff. left. simpl. apply nan_not_leb. now right.
  - reflexivity.
  - reflexivity.
Qed.

(** The NaN that [float('nan')] gives, on a book rated once. *)
Lemma add_rating_ignores_nan_witness :
  let b := mkBook "Dune" "Herbert" "Sci-Fi" "1" false [] 4%float 1 in
  PrimFloat.is_nan nan = true /\ add_rating b nan = Ok b.
Proof.
  intros b. split; [reflexivity|].
  apply (add_rating_ignores_nan b nan). left. reflexivity.
Defined.

(** X2. In any float arithmetic, [add_rating] touches nothing but the
    rating and the count, and the count either stays, with the book
    unchanged, or grows by one.  It raises only on a value in [1,5], and
    then either [ZeroDivisionError], on a book whose count is -1, or
    [OverflowError], on a book whose count, or count plus one, is too
    large to be made a float. *)
Theorem add_rating_frame (F : Type) (PF : PyFloat F) (b : Book F) (r : F) :
  match add_rating b r with
  | Ok b' =>
      same_but_rating b b'
      /\ (b' = b \/ num_ratings b' = num_ratings b + 1)
  | Raise e =>
      fle (of_int 1) r && fle r (of_int 5) = true
      /\ (e = ZeroDivisionError /\ num_ratings b = -1
          \/ e = OverflowError
             /\ (fits (num_ratings b) = false
                 \/ fits (num_ratings b + 1) = false))
  end.
Proof.
  rewrite add_rating_cases.
  destruct (fle (of_int 1) r && fle r (of_int 5));
    [|split; [now repeat split|now left]].
  destruct (fits (num_ratings b)) eqn:E1; cbn [negb orb];
    [|split; [reflexivity|right; split; [reflexivity|now left]]].
  destruct (fits (num_ratings b + 1)) eqn:E2; cbn [negb];
    [|split; [reflexivity|right; split; [reflexivity|now right]]].
  destruct (Z.eqb_spec (num_ratings b) (-1)) as [E|E].
  - split; [reflexivity|left; now split].
  - split; [now repeat split|now right].
Qed.

(** ** [Book.from_dict] and [Book.to_dict] at the edges *)

Section SerializationEdges.
Context {F : Type} `{PyFloat F}.

(** What a dictionary holds when [from_dict] makes a book of it. *)
Lemma from_dict_lookups (d : gmap string (PyVal F)) (b : Book F) :
  from_dict d = Ok b ->
  d !! "title" = Some (PStr (title b))
  /\ d !! "author" = Some (PStr (author b))
  /\ d !! "genre" = Some (PStr (genre b))
  /\ d !! "book_id" = Some (PStr (book_id b))
  /\ d !! "is_borrowed" = Some (PBool (is_borrowed b))
  /\ d !! "borrow_history" = Some (PHistory (borrow_history b))
  /\ (d !! "rating" = Some (PFloat (rating b))
      \/ d !! "rating" = None /\ rating b = of_int 0)
  /\ (d !! "num_ratings" = Some (PInt (num_ratings b))
      \/ d !! "num_ratings" = None /\ num_ratings b = 0).
Proof.
  unfold from_dict, getitem, get, pbind, as_str, as_bool, as_history,
    as_float, as_int.
  intros Hd.
  repeat (case_match; try discriminate).
  all: simplify_eq; simpl; repeat split; auto.
Qed.

Lemma to_dict_dom (b : Book F) : dom (to_dict b) = book_keys.
Proof.
  unfold to_dict, book_keys. rewrite !dom_insert_L, dom_empty_L. set_solver.
Qed.

Lemma book_keys_cases (k : string) :
  k ∈ book_keys ->
  k = "title" \/ k = "author" \/ k = "genre" \/ k = "book_id"
  \/ k = "is_borrowed" \/ k = "borrow_history" \/ k = "rating" \/ k = "num_ratings".
Proof. unfold book_keys. rewrite !elem_of_union, !elem_of_singleton. tauto. Qed.

Lemma not_book_key (k : string) :
  k ∉ book_keys <->
  k <> "title" /\ k <> "author" /\ k <> "genre" /\ k <> "book_id"
  /\ k <> "is_borrowed" /\ k <> "borrow_history" /\ k <> "rating"
  /\ k <> "num_ratings".
Proof. unfold book_keys. rewrite !elem_of_union, !elem_of_singleton. tauto. Qed.

End SerializationEdges.

(** X3. [from_dict] raises [KeyError] for the first of the keys title,
    author, genre, book_id, is_borrowed and borrow_history that the
    dictionary lacks (the earlier ones holding values of their types);
    the keys rating and num_ratings are never missed. *)
Theorem from_dict_missing_key (F : Type) (PF : PyFloat F)
    (d : gmap string (PyVal F)) :
  (d !! "title" = None -> from_dict d = Raise (KeyError "title"))
  /\ (is_Some (d !! "title") -> d !! "author" = None ->
      from_dict d = Raise (KeyError "author"))
  /\ (is_Some (d !! "title") -> is_Some (d !! "author") -> d !! "genre" = None ->
      from_dict d = Raise (KeyError "genre"))
  /\ (is_Some (d !! "title") -> is_Some (d !! "author") -> is_Some (d !! "genre") ->
      d !! "book_id" = None ->
      from_dict d = Raise (KeyError "book_id"))
  /\ (forall t a g i,
        d !! "title" = Some (PStr t) -> d !! "author" = Some (PStr a) ->
        d !! "genre" = Some (PStr g) -> d !! "book_id" = Some (PStr i) ->
        (d !! "is_borrowed" = None -> from_dict d = Raise (KeyError "is_borrowed"))
        /\ (forall bo, d !! "is_borrowed" = Some (PBool bo) ->
              (d !! "borrow_history" = None ->
               from_dict d = Raise (KeyError "borrow_history"))
              /\ (forall h, d !! "borrow_history" = Some (PHistory h) ->
                    d !! "rating" = None -> d !! "num_ratings" = None ->
                    from_dict d = Ok (mkBook t a g i bo h (of_int 0) 0)))).
Proof.
  unfold from_dict, getitem, get, rbind.
  split; [now intros ->|].
  split; [now intros [? ->] ->|].
  split; [now intros [? ->] [? ->] ->|].
  split; [now intros [? ->] [? ->] [? ->] ->|].
  intros t a g i -> -> -> ->. simpl.
  split; [now intros ->|].
  intros bo ->. simpl.
  split; [now intros ->|].
  now intros h -> -> ->.
Qed.

(** The empty dictionary, and one that holds everything but the history. *)
Lemma from_dict_missing_key_witness :
  let d : gmap string (PyVal float) :=
    <["title" := PStr "Dune"]> (<["author" := PStr "Herbert"]>
    (<["genre" := PStr "Sci-Fi"]> (<["book_id" := PStr "1"]>
    (<["is_borrowed" := PBool false]> ∅)))) in
  from_dict (F := float) ∅ = Raise (KeyError "title")
  /\ from_dict d = Raise (KeyError "borrow_history")
  /\ from_dict (<["borrow_history" := PHistory []]> d)
     = Ok (new_Book "Dune" "Herbert" "Sci-Fi" "1").
Proof.
  intros d.
  destruct (from_dict_missing_key float binary64 ∅) as (Hempty & _).
  destruct (from_dict_missing_key float binary64 d) as (_ & _ & _ & _ & Hd).
  destruct (from_dict_missing_key float binary64
              (<["borrow_history" := PHistory []]> d)) as (_ & _ & _ & _ & Hd').
  split; [exact (Hempty eq_refl)|]. split.
  - destruct (Hd "Dune" "Herbert" "Sci-Fi" "1" eq_refl eq_refl eq_refl eq_refl)
      as (_ & Hbo).
    exact (proj1 (Hbo false eq_refl) eq_refl).
  - destruct (Hd' "Dune" "Herbert" "Sci-Fi" "1" eq_refl eq_refl eq_refl eq_refl)
      as (_ & Hbo).
    exact (proj2 (Hbo false eq_refl) [] eq_refl eq_refl eq_refl).
Defined.

(** X4. [from_dict] reads the eight keys of a book and no other: a value
    under any other key changes nothing of the result. *)
Theorem from_dict_ignores_other_keys (F : Type) (PF : PyFloat F)
    (d : gmap string (PyVal F)) (k : string) (v : PyVal F) :
  k ∉ book_keys ->
  from_dict (<[k := v]> d) = from_dict d.
Proof.
  intros (? & ? & ? & ? & ? & ? & ? & ?)%not_book_key.
  unfold from_dict, getitem, get.
  rewrite !lookup_insert_ne by assumption. reflexivity.
Qed.

(** A dictionary with a key of a later schema. *)
Lemma from_dict_ignores_other_keys_witness :
  let b := mkBook "Dune" "Herbert" "Sci-Fi" "1" false [] 4%float 1 in
  ("isbn" ∉ book_keys)
  /\ from_dict (<["isbn" := PStr "0-441-17271-7"]> (to_dict b)) = Ok b.
Proof.
  intros b.
  assert (Hk : "isbn" ∉ book_keys) by (apply not_book_key; repeat split; discriminate).
  split; [exact Hk|].
  rewrite (from_dict_ignores_other_keys float binary64 (to_dict b) "isbn" _ Hk).
  apply from_dict_to_dict.
Defined.

(** X5. The dictionary of a book has the eight keys of a book and no
    other, and two books with the same dictionary are the same book. *)
Theorem to_dict_keys_injective (F : Type) (PF : PyFloat F) :
  (forall b : Book F, dom (to_dict b) = book_keys)
  /\ (forall b1 b2 : Book F, to_dict b1 = to_dict b2 -> b1 = b2).
Proof.
  split; [apply to_dict_dom|].
  intros b1 b2 E.
  assert (E' : from_dict (to_dict b1) = from_dict (to_dict b2)) by now rewrite E.
  rewrite !from_dict_to_dict in E'. now injection E'.
Qed.

(** X6. A dictionary with exactly the eight keys of a book that
    [from_dict] accepts is the dictionary [to_dict] gives for the book
    made of it. *)
Theorem to_dict_from_dict (F : Type) (PF : PyFloat F)
    (d : gmap string (PyVal F)) (b : Book F) :
  from_dict d = Ok b ->
  dom d = book_keys ->
  to_dict b = d.
Proof.
  intros Hd Hdom.
  destruct (from_dict_lookups d b Hd) as (Ht & Ha & Hg & Hi & Hb & Hh & Hr & Hn).
  assert (Hr' : d !! "rating" = Some (PFloat (rating b))).
  { destruct Hr as [Hr|[Hr _]]; [exact Hr|].
    apply not_elem_of_dom in Hr. rewrite Hdom in Hr.
    apply not_book_key in Hr. exfalso. tauto. }
  assert (Hn' : d !! "num_ratings" = Some (PInt (num_ratings b))).
  { destruct Hn as [Hn|[Hn _]]; [exact Hn|].
    apply not_elem_of_dom in Hn. rewrite Hdom in Hn.
    apply not_book_key in Hn. exfalso. tauto. }
  apply map_eq. intros k.
  destruct (decide (k ∈ book_keys)) as [Hk|Hk].
  - destruct (book_keys_cases k Hk) as [->|[->|[->|[->|[->|[->|[->| ->]]]]]]];
      destruct b; symmetry; assumption.
  - transitivity (@None (PyVal F)).
    + apply not_elem_of_dom. now rewrite to_dict_dom.
    + symmetry. apply not_elem_of_dom. now rewrite Hdom.
Qed.

(** The dictionary a hand-written data file would hold for "Dune". *)
Lemma to_dict_from_dict_witness :
  let d : gmap string (PyVal float) :=
    <["num_ratings" := PInt 1]> (<["rating" := PFloat 4%float]>
    (<["borrow_history" := PHistory []]> (<["is_borrowed" := PBool false]>
    (<["book_id" := PStr "1"]> (<["genre" := PStr "Sci-Fi"]>
    (<["author" := PStr "Herbert"]> (<["title" := PStr "Dune"]> ∅))))))) in
  let b := mkBook "Dune" "Herbert" "Sci-Fi" "1" false [] 4%float 1 in
  from_dict d = Ok b /\ dom d = book_keys /\ to_dict b = d.
Proof.
  intros d b.
  assert (Hd : from_dict d = Ok b) by (vm_compute; reflexivity).
  assert (Hdom : dom d = book_keys).
  { unfold d, book_keys. rewrite !dom_insert_L, dom_empty_L. set_solver. }
  split; [exact Hd|]. split; [exact Hdom|].
  exact (to_dict_from_dict float binary64 d b Hd Hdom).
Defined.

(** ** [Library.load_books], [Library.add_book] and the lookup by id *)

Section LibraryEdges.
Context {F : Type} `{PyFloat F}.

Lemma from_dicts_Ok (data : list (gmap string (PyVal F))) (bs : list (Book F)) :
  from_dicts data = Ok bs <-> Forall2 (fun d b => from_dict d = Ok b) data bs.
Proof.
  revert bs. induction data as [|d data IH]; intros bs; cbn [from_dicts].
  - split; [intros [= <-]; constructor|intros Hbs; inversion Hbs; reflexivity].
  - destruct (from_dict d) as [[b|e]|key] eqn:Hd; cbn [pbind].
    + destruct (from_dicts data) as [[bs'|e]|key] eqn:Hdata; cbn [pbind].
      * split.
        -- intros [= <-]. constructor; [exact Hd|now apply IH].
        -- intros Hbs. inversion Hbs as [|? b0 ? bs0 Hb0 Hbs0]; subst.
           apply IH in Hbs0. congruence.
      * split; [discriminate|].
        intros Hbs. inversion Hbs as [|? b0 ? bs0 Hb0 Hbs0]; subst.
        apply IH in Hbs0. discriminate.
      * split; [discriminate|].
        intros Hbs. inversion Hbs as [|? b0 ? bs0 Hb0 Hbs0]; subst.
        apply IH in Hbs0. discriminate.
    + split; [discriminate|].
      intros Hbs. inversion Hbs as [|? b0 ? bs0 Hb0 Hbs0]; subst. congruence.
    + split; [discriminate|].
      intros Hbs. inversion Hbs as [|? b0 ? bs0 Hb0 Hbs0]; subst. congruence.
Qed.

(** The comprehension raises what the first dictionary that does not
    deserialize raises. *)
Lemma from_dicts_Raise (good rest : list (gmap string (PyVal F)))
    (bs : list (Book F)) (d : gmap string (PyVal F)) (e : PyExc) :
  Forall2 (fun d b => from_dict d = Ok b) good bs ->
  from_dict d = Raise e ->
  from_dicts (good ++ d :: rest) = Raise e.
Proof.
  intros Hgood Hd. induction Hgood as [|d0 b0 good bs Hd0 _ IH];
    cbn [from_dicts app].
  - now rewrite Hd.
  - rewrite Hd0. cbn [pbind]. now rewrite IH.
Qed.

Lemma find_app_Some (p : Book F -> bool) (l extra : list (Book F)) :
  is_Some (List.find p l) -> List.find p (l ++ extra) = List.find p l.
Proof.
  induction l as [|b l IH]; cbn [List.find app]; [intros [? [=]]|].
  destruct (p b); [reflexivity|exact IH].
Qed.

Lemma find_by_id_first (lib : Library F) (id : string) :
  match find_by_id lib id with
  | Some b =>
      book_id b = id
      /\ exists l1 l2, books lib = l1 ++ b :: l2
                       /\ forall b', In b' l1 -> book_id b' <> id
  | None => forall b, In b (books lib) -> book_id b <> id
  end.
Proof.
  unfold find_by_id. induction (books lib) as [|x l IH]; cbn [List.find].
  - intros b [].
  - destruct (String.eqb_spec (book_id x) id) as [E|E].
    + split; [exact E|]. exists [], l. split; [reflexivity|intros b' []].
    + destruct (List.find _ l) as [b|].
      * destruct IH as (Hb & l1 & l2 & -> & Hl1). split; [exact Hb|].
        exists (x :: l1), l2. split; [reflexivity|].
        intros b' [<-|Hb']; auto.
      * intros b [<-|Hb]; auto.
Qed.

End LibraryEdges.

(** X7. [load_books] raises nothing and leaves the data file as it is.
    Without a file it leaves the library as it is.  With a file it
    replaces the books by the books of the dictionaries, in file order,
    when every dictionary deserializes; when the first dictionary that
    does not deserialize raises an exception, the library ends with no
    book at all, whatever the other dictionaries hold. *)
Theorem load_books_all_or_nothing (F : Type) (PF : PyFloat F) (lib : Library F) :
  (data_file lib = None -> load_books lib = Ok lib)
  /\ (forall data, data_file lib = Some data ->
        (forall bs, Forall2 (fun d b => from_dict d = Ok b) data bs ->
           load_books lib = Ok (mkLibrary bs (Some data)))
        /\ (forall good bs d e rest,
              data = good ++ d :: rest ->
              Forall2 (fun d b => from_dict d = Ok b) good bs ->
              from_dict d = Raise e ->
              load_books lib = Ok (mkLibrary [] (Some data)))).
Proof.
  unfold load_books. split.
  - now intros ->.
  - intros data ->. split.
    + intros bs Hbs%from_dicts_Ok. now rewrite Hbs.
    + intros good bs d e rest -> Hgood Hd.
      now rewrite (from_dicts_Raise good rest bs d e Hgood Hd).
Qed.

(** A file with a good record and one without a title: nothing loads. *)
Lemma load_books_all_or_nothing_witness :
  let dune := mkBook "Dune" "Herbert" "Sci-Fi" "1" false [] 4%float 1 in
  let good := to_dict dune in
  let bad := delete "title" good in
  from_dict bad = Raise (KeyError "title")
  /\ load_books (mkLibrary [] (Some [good; bad]))
     = Ok (mkLibrary [] (Some [good; bad]))
  /\ load_books (mkLibrary [] (Some [good; good]))
     = Ok (mkLibrary [dune; dune] (Some [good; good]))
  /\ load_books (mkLibrary [dune] None) = Ok (mkLibrary [dune] None).
Proof.
  intros dune good bad.
  destruct (load_books_all_or_nothing float binary64
              (mkLibrary [] (Some [good; bad]))) as (_ & Hbad).
  destruct (load_books_all_or_nothing float binary64
              (mkLibrary [] (Some [good; good]))) as (_ & Hgood).
  destruct (load_books_all_or_nothing float binary64
              (mkLibrary [dune] None)) as (Hnone & _).
  assert (Hdune : from_dict good = Ok dune) by apply from_dict_to_dict.
  assert (Hraise : from_dict bad = Raise (KeyError "title")) by reflexivity.
  split; [exact Hraise|]. split; [|split].
  - apply (proj2 (Hbad _ eq_refl) [good] [dune] bad (KeyError "title") []);
      [reflexivity|repeat constructor; exact Hdune|exact Hraise].
  - apply (proj1 (Hgood _ eq_refl)). repeat constructor; exact Hdune.
  - exact (Hnone eq_refl).
Defined.

(** X8. [add_book] never raises.  It keeps every book the library holds,
    unchanged and in place, adds at most one book at the end, and leaves
    the lookup of every id that was present as it was. *)
Theorem add_book_keeps_books (F : Type) (PF : PyFloat F)
    (lib : Library F) (t a g i : option string) :
  exists lib' line extra,
    add_book lib t a g i = Ok (lib', line)
    /\ books lib' = books lib ++ extra
    /\ (length extra <= 1)%nat
    /\ forall id, is_Some (find_by_id lib id) ->
         find_by_id lib' id = find_by_id lib id.
Proof.
  unfold add_book, add_book_try.
  destruct (forallb truthy [t; a; g; i]); cbn [negb].
  - destruct (existsb _ (books lib)).
    + exists lib, ("Error adding book: " +:+ "Book ID already exists"), [].
      rewrite app_nil_r. repeat split; auto.
    + eexists _, _, [_]. split; [reflexivity|]. split; [reflexivity|].
      split; [simpl; lia|].
      intros id Hid. unfold find_by_id in *. cbn [books save_books].
      now apply find_app_Some.
  - exists lib, ("Error adding book: " +:+ "All fields must be filled"), [].
    rewrite app_nil_r. repeat split; auto.
Qed.

(** X9. Adding the same book twice: the second call changes nothing and
    prints one of the two errors, whatever the first call did. *)
Theorem add_book_twice (F : Type) (PF : PyFloat F)
    (lib : Library F) (t a g i : option string) :
  match add_book lib t a g i with
  | Ok (lib1, _) =>
      add_book lib1 t a g i = Ok (lib1, validation_error)
      \/ add_book lib1 t a g i = Ok (lib1, duplicate_id_error)
  | Raise _ => False
  end.
Proof.
  unfold add_book at 1. unfold add_book_try.
  destruct (forallb truthy [t; a; g; i]) eqn:Hall; cbn [negb].
  - destruct (existsb _ (books lib)) eqn:Hdup.
    + right. unfold add_book, add_book_try. now rewrite Hall, Hdup.
    + right. unfold add_book, add_book_try. rewrite Hall. cbn [negb].
      cbn [save_books books]. rewrite existsb_app. cbn [existsb].
      assert (Hi : bool_decide (Some (book_id (new_Book (default "" t) (default "" a)
                                  (default "" g) (default "" i))) = i) = true).
      { apply bool_decide_eq_true. cbn [book_id new_Book].
        cbn [forallb] in Hall. rewrite !andb_true_iff in Hall.
        destruct Hall as (_ & _ & _ & Hi & _). destruct i; [reflexivity|discriminate]. }
      rewrite Hi, orb_true_r. reflexivity.
  - left. unfold add_book, add_book_try. now rewrite Hall.
Qed.

(** X10. The lookup by id returns the first book of the list with the id,
    and nothing exactly when no book has it; when ids are unique, every
    book of the library is the one its id finds. *)
Theorem find_by_id_finds (F : Type) (lib : Library F) :
  (forall id,
      match find_by_id lib id with
      | Some b =>
          book_id b = id
          /\ exists l1 l2, books lib = l1 ++ b :: l2
                           /\ forall b', In b' l1 -> book_id b' <> id
      | None => forall b, In b (books lib) -> book_id b <> id
      end)
  /\ (ids_unique lib ->
      forall b, In b (books lib) -> find_by_id lib (book_id b) = Some b).
Proof.
  split; [apply find_by_id_first|].
  unfold ids_unique. intros Hids b Hb.
  pose proof (find_by_id_first lib (book_id b)) as Hfind.
  destruct (find_by_id lib (book_id b)) as [b'|]; [|now elim (Hfind b Hb)].
  destruct Hfind as (Hid & l1 & l2 & E & Hl1). f_equal.
  rewrite E in Hids, Hb. rewrite map_app in Hids. cbn [map] in Hids.
  apply in_app_iff in Hb as [Hb|[Hb|Hb]]; [now elim (Hl1 b Hb)|exact Hb|].
  apply NoDup_app in Hids as (_ & _ & Hids).
  apply NoDup_cons in Hids as [Hnotin _]. exfalso. apply Hnotin.
  rewrite Hid. apply list_elem_of_In, in_map, Hb.
Qed.

(** Two books: each is found by its id, and an unknown id finds nothing. *)
Lemma find_by_id_finds_witness :
  let dune := mkBook "Dune" "Herbert" "Sci-Fi" "1" false [] 4%float 1 in
  let emma := mkBook "Emma" "Austen" "Novel" "2" false [] 0%float 0 in
  let lib := mkLibrary [dune; emma] None in
  ids_unique lib
  /\ find_by_id lib "2" = Some emma
  /\ find_by_id lib "3" = None.
Proof.
  intros dune emma lib.
  assert (Hids : ids_unique lib).
  { unfold ids_unique. cbn. apply NoDup_cons. split.
    - intros Hin. apply list_elem_of_In in Hin as [[=]|[]].
    - apply NoDup_singleton. }
  split; [exact Hids|]. split; [|reflexivity].
  apply (proj2 (find_by_id_finds float lib) Hids emma). right. now left.
Defined.

(** ** [Library.search_books]: search types and terms *)

Section SearchEdges.
Context {F : Type} `{PyFloat F}.

Lemma append_assoc (s1 s2 s3 : string) : (s1 +:+ s2) +:+ s3 = s1 +:+ (s2 +:+ s3).
Proof.
  induction s1 as [|c s1 IH]; [reflexivity|].
  change (String c ((s1 +:+ s2) +:+ s3) = String c (s1 +:+ s2 +:+ s3)).
  now rewrite IH.
Qed.

Lemma is_substring_trans (s1 s2 s3 : string) :
  is_substring s1 s2 -> is_substring s2 s3 -> is_substring s1 s3.
Proof.
  intros (p & q & ->) (p' & q' & ->). exists (p' +:+ p), (q +:+ q').
  now rewrite !append_assoc.
Qed.

Lemma search_books_In (lower : string -> string) (lib : Library F)
    (term search_type : string) (b : Book F) :
  In b (search_books lower lib term search_type)
  <-> In b (books lib) /\ selects lower term search_type b = true.
Proof. now rewrite search_books_unfold, sorted_In, filter_In. Qed.

Lemma selects_smaller_term (lower : string -> string) (t1 t2 ty : string) (b : Book F) :
  is_substring (lower t1) (lower t2) ->
  selects lower t2 ty b = true -> selects lower t1 ty b = true.
Proof.
  intros Hsub. unfold selects.
  repeat destruct (String.eqb ty _);
    rewrite ?orb_true_iff, !str_in_spec;
    intuition eauto using is_substring_trans.
Qed.

End SearchEdges.

(** X11. A search of type all finds exactly the books one of the searches
    by title, by author or by genre finds, and a search type that is none
    of title, author and genre is a search of type all. *)
Theorem search_books_all_is_union (F : Type) (PF : PyFloat F)
    (lower : string -> string) (lib : Library F) (term : string) :
  (forall b, In b (search_books lower lib term "all")
             <-> In b (search_books lower lib term "title")
                 \/ In b (search_books lower lib term "author")
                 \/ In b (search_books lower lib term "genre"))
  /\ (forall search_type,
        search_type <> "title" -> search_type <> "author" -> search_type <> "genre" ->
        search_books lower lib term search_type = search_books lower lib term "all").
Proof.
  split.
  - intros b. rewrite !search_books_In. unfold selects. cbn [String.eqb Ascii.eqb Bool.eqb].
    cbv iota. rewrite !orb_true_iff. tauto.
  - intros ty Ht Ha Hg. unfold search_books.
    apply String.eqb_neq in Ht, Ha, Hg. now rewrite Ht, Ha, Hg.
Qed.

(** "herbert" as a term: the search of type all finds what the search by
    author finds, and so does the search of the unknown type "isbn". *)
Lemma search_books_all_is_union_witness :
  let dune := mkBook "Dune" "Herbert" "Sci-Fi" "1" false [] 4%float 1 in
  let emma := mkBook "Emma" "Austen" "Novel" "2" false [] 0%float 0 in
  let lib := mkLibrary [dune; emma] None in
  search_books ascii_lower lib "herbert" "author" = [dune]
  /\ In dune (search_books ascii_lower lib "herbert" "all")
  /\ search_books ascii_lower lib "herbert" "isbn"
     = search_books ascii_lower lib "herbert" "all".
Proof.
  intros dune emma lib.
  destruct (search_books_all_is_union float binary64 ascii_lower lib "herbert")
    as [Hunion Hother].
  split; [reflexivity|]. split.
  - apply Hunion. right. left. now left.
  - apply Hother; discriminate.
Defined.

(** X12. A longer term finds less: when the lowercased term [t1] occurs in
    the lowercased term [t2], every book a search for [t2] finds, the
    search for [t1] of the same type finds too. *)
Theorem search_books_narrows (F : Type) (PF : PyFloat F)
    (lower : string -> string) (lib : Library F) (t1 t2 search_type : string) :
  is_substring (lower t1) (lower t2) ->
  forall b, In b (search_books lower lib t2 search_type) ->
            In b (search_books lower lib t1 search_type).
Proof.
  intros Hsub b. rewrite !search_books_In. intros [Hb Hsel].
  split; [exact Hb|]. exact (selects_smaller_term lower t1 t2 search_type b Hsub Hsel).
Qed.

(** "Dun" occurs in "dune" once both are lowercased. *)
Lemma search_books_narrows_witness :
  let dune := mkBook "Dune" "Herbert" "Sci-Fi" "1" false [] 4%float 1 in
  let dunkirk := mkBook "Dunkirk" "Levine" "History" "2" false [] 0%float 0 in
  let lib := mkLibrary [dune; dunkirk] None in
  is_substring (ascii_lower "Dun") (ascii_lower "dune")
  /\ search_books ascii_lower lib "dune" "title" = [dune]
  /\ In dune (search_books ascii_lower lib "Dun" "title").
Proof.
  intros dune dunkirk lib.
  assert (Hsub : is_substring (ascii_lower "Dun") (ascii_lower "dune"))
    by (exists "", "e"; reflexivity).
  split; [exact Hsub|]. split; [reflexivity|].
  apply (search_books_narrows float binary64 ascii_lower lib "Dun" "dune" "title" Hsub).
  now left.
Defined.

(** ** Choice 5 of [main]: the list of all books *)

(** X13. The list choice 5 prints holds every book of the library, each as
    often as the library does, in ascending order of title. *)
Theorem choice_view_all_sorted (F : Type) (s : Session F) :
  Permutation (choice_view_all s) (books (library s))
  /\ StronglySorted (fun x y => String.leb (title x) (title y) = true)
       (choice_view_all s).
Proof.
  unfold choice_view_all. split; [apply sorted_perm|].
  set (lt := fun x y : Book F => String.ltb (title x) (title y)).
  assert (Hs : StronglySorted (not_after lt) (sorted lt (books (library s)))).
  { apply sorted_ordered.
    - intros x. apply string_ltb_irrefl.
    - intros x y z. apply string_ltb_trans. }
  induction Hs as [|x l Hl IH Hx]; constructor; [exact IH|].
  rewrite List.Forall_forall in *. intros y Hy.
  rewrite string_leb_ltb. apply negb_true_iff. exact (Hx y Hy).
Qed.

(** ** [Library.generate_statistics]: the entries of the four maps *)

Section StatisticsEdges.
Context {F : Type} `{PyFloat F}.

Lemma filter_nonempty (p : Book F -> bool) (l : list (Book F)) (b : Book F) :
  In b l -> p b = true -> (1 <= length (List.filter p l))%nat.
Proof.
  intros Hb Hp. assert (Hin : In b (List.filter p l)) by now apply filter_In.
  destruct (List.filter p l); [destruct Hin|simpl; lia].
Qed.

Lemma genres_present (l : list (Book F)) (g : string) (n : Z) :
  genres (stats_of l) !! g = Some n -> n = Z.of_nat (length (of_genre g l)) /\ 1 <= n.
Proof.
  intros Hn. pose proof (genres_count l g) as Hc. unfold count_of in Hc.
  rewrite Hn in Hc. simpl in Hc. split; [exact Hc|]. rewrite Hc.
  destruct (List.existsb (fun b => String.eqb (genre b) g) l) eqn:E.
  - apply existsb_exists in E as (b & Hb & Hg).
    pose proof (filter_nonempty (fun b => String.eqb (genre b) g) l b Hb Hg).
    unfold of_genre. lia.
  - assert (Habs : genres (stats_of l) !! g = None); [|congruence].
    apply genres_absent. intros b Hb Hg.
    assert (Ht : List.existsb (fun b => String.eqb (genre b) g) l = true); [|congruence].
    apply existsb_exists. exists b. split; [exact Hb|]. now apply String.eqb_eq.
Qed.

Lemma authors_present (l : list (Book F)) (a : string) (n : Z) :
  authors (stats_of l) !! a = Some n -> n = Z.of_nat (length (of_author a l)) /\ 1 <= n.
Proof.
  intros Hn. pose proof (authors_count l a) as Hc. unfold count_of in Hc.
  rewrite Hn in Hc. simpl in Hc. split; [exact Hc|]. rewrite Hc.
  destruct (List.existsb (fun b => String.eqb (author b) a) l) eqn:E.
  - apply existsb_exists in E as (b & Hb & Hg).
    pose proof (filter_nonempty (fun b => String.eqb (author b) a) l b Hb Hg).
    unfold of_author. lia.
  - assert (Habs : authors (stats_of l) !! a = None); [|congruence].
    apply authors_absent. intros b Hb Hg.
    assert (Ht : List.existsb (fun b => String.eqb (author b) a) l = true); [|congruence].
    apply existsb_exists. exists b. split; [exact Hb|]. now apply String.eqb_eq.
Qed.

Lemma rated_le_genre (l : list (Book F)) (g : string) :
  (length (rated_of_genre g l) <= length (of_genre g l))%nat.
Proof.
  unfold rated_of_genre, of_genre. induction l as [|b l IH]; simpl; [lia|].
  destruct (String.eqb (genre b) g), (0 <? num_ratings b); simpl; lia.
Qed.

Lemma frequency_present (l : list (Book F)) (t : string) (n : Z) :
  borrow_frequency (stats_of l) !! t = Some n ->
  exists b, In b l /\ title b = t /\ n = Z.of_nat (length (borrow_history b)).
Proof.
  induction l as [|b l IH] using rev_ind; [intros [=]|].
  rewrite stats_of_snoc. simpl borrow_frequency.
  destruct (decide (title b = t)) as [E|E].
  - rewrite E, lookup_insert_eq. intros [= <-]. exists b.
    rewrite in_app_iff. simpl. auto.
  - rewrite lookup_insert_ne by exact E. intros Hn.
    destruct (IH Hn) as (b' & Hb' & Ht & Hlen). exists b'.
    rewrite in_app_iff. auto.
Qed.

Lemma counts_permutation (l l' : list (Book F)) :
  Permutation l l' ->
  genres (stats_of l) = genres (stats_of l') /\ authors (stats_of l) = authors (stats_of l').
Proof.
  intros Hp.
  assert (Hlen : forall p : Book F -> bool,
            length (List.filter p l) = length (List.filter p l')).
  { intros p. apply Permutation_length. clear -Hp.
    induction Hp; simpl; repeat case_match; eauto using Permutation. }
  split; apply map_eq; intros k.
  - destruct (genres (stats_of l) !! k) as [n|] eqn:E, (genres (stats_of l') !! k) as [n'|] eqn:E'.
    + apply genres_present in E as [-> _], E' as [-> _]. unfold of_genre. now rewrite Hlen.
    + exfalso. rewrite genres_absent in E'. apply genres_present in E as [-> Hn].
      destruct (of_genre k l) as [|b r] eqn:Ef; [simpl in Hn; lia|].
      assert (Hb : In b (of_genre k l)) by (rewrite Ef; now left).
      apply filter_In in Hb as [Hb Hg]. apply String.eqb_eq in Hg.
      apply (E' b); [|exact Hg]. now apply (Permutation_in _ Hp).
    + exfalso. rewrite genres_absent in E. apply genres_present in E' as [-> Hn].
      destruct (of_genre k l') as [|b r] eqn:Ef; [simpl in Hn; lia|].
      assert (Hb : In b (of_genre k l')) by (rewrite Ef; now left).
      apply filter_In in Hb as [Hb Hg]. apply String.eqb_eq in Hg.
      apply (E b); [|exact Hg]. now apply (Permutation_in _ (Permutation_sym Hp)).
    + reflexivity.
  - destruct (authors (stats_of l) !! k) as [n|] eqn:E, (authors (stats_of l') !! k) as [n'|] eqn:E'.
    + apply authors_present in E as [-> _], E' as [-> _]. unfold of_author. now rewrite Hlen.
    + exfalso. rewrite authors_absent in E'. apply authors_present in E as [-> Hn].
      destruct (of_author k l) as [|b r] eqn:Ef; [simpl in Hn; lia|].
      assert (Hb : In b (of_author k l)) by (rewrite Ef; now left).
      apply filter_In in Hb as [Hb Hg]. apply String.eqb_eq in Hg.
      apply (E' b); [|exact Hg]. now apply (Permutation_in _ Hp).
    + exfalso. rewrite authors_absent in E. apply authors_present in E' as [-> Hn].
      destruct (of_author k l') as [|b r] eqn:Ef; [simpl in Hn; lia|].
      assert (Hb : In b (of_author k l')) by (rewrite Ef; now left).
      apply filter_In in Hb as [Hb Hg]. apply String.eqb_eq in Hg.
      apply (E b); [|exact Hg]. now apply (Permutation_in _ (Permutation_sym Hp)).
    + reflexivity.
Qed.

End StatisticsEdges.

(** X14. The maps [generate_statistics] returns hold no empty entry: a
    genre or an author that has an entry has a count of at least 1, a
    genre with a list of ratings has a list that is not empty and no
    longer than the genre's count, and the number under a title is the
    length of the borrow history of a book of the catalog with that
    title. *)
Theorem generate_statistics_entries (F : Type) (PF : PyFloat F) (lib : Library F) :
  let stats := generate_statistics lib in
  (forall g n, genres stats !! g = Some n -> 1 <= n)
  /\ (forall a n, authors stats !! a = Some n -> 1 <= n)
  /\ (forall g rs, ratings stats !! g = Some rs ->
        rs <> [] /\ Z.of_nat (length rs) <= count_of (genres stats) g)
  /\ (forall t n, borrow_frequency stats !! t = Some n ->
        exists b, In b (books lib) /\ title b = t
                  /\ n = Z.of_nat (length (borrow_history b))).
Proof.
  intros stats. subst stats. unfold generate_statistics.
  split; [|split; [|split]].
  - intros g n Hn. now apply genres_present in Hn.
  - intros a n Hn. now apply authors_present in Hn.
  - intros g rs Hrs.
    pose proof (ratings_lists (books lib) g) as Hl. rewrite Hrs in Hl. simpl in Hl.
    split.
    + intros ->. symmetry in Hl. apply map_eq_nil in Hl.
      apply ratings_absent in Hl. congruence.
    + rewrite Hl, length_map, genres_count.
      pose proof (rated_le_genre (books lib) g). lia.
  - apply frequency_present.
Qed.

(** X15. The counts per genre and per author do not depend on the order of
    the books: two libraries whose catalogs are permutations of each other
    get the same two maps. *)
Theorem generate_statistics_counts_order (F : Type) (PF : PyFloat F)
    (lib lib' : Library F) :
  Permutation (books lib) (books lib') ->
  genres (generate_statistics lib) = genres (generate_statistics lib')
  /\ authors (generate_statistics lib) = authors (generate_statistics lib').
Proof. intros Hp. unfold generate_statistics. now apply counts_permutation. Qed.

(** Two books in either order: the genre map is the same, while the list
    of ratings of the genre follows the catalog order. *)
Lemma generate_statistics_counts_order_witness :
  let dune := mkBook "Dune" "Herbert" "Sci-Fi" "1" false [] 4%float 1 in
  let solaris := mkBook "Solaris" "Lem" "Sci-Fi" "2" false [] 5%float 2 in
  let lib := mkLibrary [dune; solaris] None in
  let lib' := mkLibrary [solaris; dune] None in
  Permutation (books lib) (books lib')
  /\ genres (generate_statistics lib) = genres (generate_statistics lib')
  /\ ratings (generate_statistics lib) !! "Sci-Fi" = Some [4%float; 5%float]
  /\ ratings (generate_statistics lib') !! "Sci-Fi" = Some [5%float; 4%float].
Proof.
  intros dune solaris lib lib'.
  assert (Hp : Permutation (books lib) (books lib')) by apply perm_swap.
  split; [exact Hp|]. split.
  - exact (proj1 (generate_statistics_counts_order float binary64 lib lib' Hp)).
  - split; reflexivity.
Defined.

(** ** [Library.generate_recommendations]: scores and outcomes *)

Section RecommendationEdges.
Context {F : Type} `{PyFloatOrder F}.

Lemma has_tie_dec (l : list (F * Book F)) : has_tie l \/ tie_free l.
Proof.
  induction l as [|x l [IH|IH]].
  - right. constructor.
  - left. apply has_tie_cons. now right.
  - destruct (tied_dec x l) as [Ht|Hf].
    + left. apply has_tie_cons. now left.
    + right. now constructor.
Qed.

Lemma has_tie_map (sc : Book F -> F) (l : list (Book F)) :
  has_tie (map (fun b => (sc b, b)) l) ->
  exists l1 x l2 y l3, l = l1 ++ x :: l2 ++ y :: l3 /\ feq (sc x) (sc y) = true.
Proof.
  intros (m1 & a & m2 & b & m3 & E & Hab). unfold tied in Hab.
  apply map_eq_app in E as (l1 & r1 & -> & <- & E).
  apply map_eq_cons in E as (x & r2 & -> & <- & E).
  apply map_eq_app in E as (l2 & r3 & -> & <- & E).
  apply map_eq_cons in E as (y & l3 & -> & <- & <-).
  exists l1, x, l2, y, l3. split; [reflexivity|exact Hab].
Qed.

Lemma StronglySorted_map_inv {A B : Type} (f : A -> B) (R : B -> B -> Prop) (l : list A) :
  StronglySorted R (map f l) -> StronglySorted (fun a b => R (f a) (f b)) l.
Proof.
  induction l as [|x l IH]; cbn [map]; intros Hs; [constructor|].
  apply StronglySorted_inv in Hs as [Hl Hx]. constructor; [now apply IH|].
  rewrite List.Forall_forall in *. intros y Hy. apply Hx. now apply in_map.
Qed.

Lemma take_map_snd (sc : Book F -> F) (n : nat) (l : list (Book F)) :
  map snd (take n (map (fun b => (sc b, b)) l)) = take n l.
Proof.
  revert n. induction l as [|x l IH]; intros [|n]; cbn [map take]; try reflexivity.
  cbn [snd]. now rewrite IH.
Qed.

Lemma In_take {A : Type} (n : nat) (l : list A) (x : A) : In x (take n l) -> In x l.
Proof.
  revert n. induction l as [|y l IH]; intros [|n]; cbn [take In]; try tauto.
  intros [->|Hx]; [now left|right; eauto].
Qed.

Lemma StronglySorted_NoDup {A : Type} (R : A -> A -> Prop) (l : list A) :
  (forall x, ~ R x x) -> StronglySorted R l -> NoDup l.
Proof.
  intros Hirr. induction 1 as [|x l Hl IH Hx]; constructor; [|exact IH].
  intros Hin%list_elem_of_In. rewrite List.Forall_forall in Hx.
  exact (Hirr x (Hx x Hin)).
Qed.

Lemma generate_recommendations_cases (lib : Library F) (user : string) :
  match generate_recommendations lib user with
  | Raise e =>
      e = TypeError
      /\ exists l1 x l2 y l3,
           recommendable lib user = l1 ++ x :: l2 ++ y :: l3
           /\ feq (user_score lib user x) (user_score lib user y) = true
  | Ok r =>
      exists ranked,
        r = take 5 ranked
        /\ Permutation ranked (recommendable lib user)
        /\ StronglySorted
             (fun a b => flt (user_score lib user b) (user_score lib user a) = true)
             ranked
  end.
Proof.
  destruct (generate_recommendations_ranking lib user) as [Hraise Hok].
  rewrite candidates_scored in Hraise, Hok.
  fold (user_score lib user) in Hraise, Hok. fold (recommendable lib user) in Hraise, Hok.
  destruct (has_tie_dec (map (fun b => (user_score lib user b, b)) (recommendable lib user)))
    as [Ht|Hf].
  - rewrite (Hraise Ht). split; [reflexivity|]. now apply has_tie_map.
  - destruct (Hok Hf) as (ranked' & -> & Hperm & Hs).
    apply Permutation_map_inv in Hperm as (ranked & -> & Hperm).
    exists ranked. split; [apply take_map_snd|]. split; [now symmetry|].
    apply StronglySorted_map_inv in Hs. exact Hs.
Qed.

End RecommendationEdges.

(** X16. The score of a book for a user is twice the number of times the
    user borrowed a book of its genre, plus three times the number of
    times the user borrowed a book of its author, plus the rating of the
    book; the candidates are the available books with a positive score,
    in catalog order, each once. *)
Theorem recommendation_scores (F : Type) (PF : PyFloat F) (lib : Library F)
    (user : string) :
  (forall b,
     user_score lib user b
     = fadd (of_int (borrowed_in user (of_genre (genre b) (books lib)) * 2
                     + borrowed_in user (of_author (author b) (books lib)) * 3))
            (rating b))
  /\ candidates lib (user_preferences lib user).1 (user_preferences lib user).2
     = map (fun b => (user_score lib user b, b)) (recommendable lib user).
Proof.
  split.
  - intros b. unfold user_score, score_of.
    destruct (user_preferences_counts lib user (genre b)) as [-> _].
    destruct (user_preferences_counts lib user (author b)) as [_ ->].
    reflexivity.
  - apply candidates_scored.
Qed.

(** X17. What [generate_recommendations] does, in floats that order as
    binary64 does: it raises [TypeError] when two of the available books
    with a positive score have equal scores, and nothing else; otherwise
    it returns the first five of these books in strictly descending order
    of score. *)
Theorem generate_recommendations_outcomes (F : Type) (PF : PyFloat F)
    (PO : PyFloatOrder F) (lib : Library F) (user : string) :
  match generate_recommendations lib user with
  | Raise e =>
      e = TypeError
      /\ exists l1 x l2 y l3,
           recommendable lib user = l1 ++ x :: l2 ++ y :: l3
           /\ feq (user_score lib user x) (user_score lib user y) = true
  | Ok r =>
      exists ranked,
        r = take 5 ranked
        /\ Permutation ranked (recommendable lib user)
        /\ StronglySorted
             (fun a b => flt (user_score lib user b) (user_score lib user a) = true)
             ranked
  end.
Proof. apply generate_recommendations_cases. Qed.

(** U1 holds "Dune"; "Solaris" shares its genre and scores 2.0, "Emma" is
    rated 4.5 and scores 4.5: the recommendation is "Emma", then
    "Solaris". *)
Lemma generate_recommendations_outcomes_witness :
  let dune := mkBook "Dune" "Herbert" "Sci-Fi" "1" true
                [mkBorrowRecord "U1" "2024-02-01T10:00:00" None] 4%float 1 in
  let solaris := mkBook "Solaris" "Lem" "Sci-Fi" "2" false [] 0%float 0 in
  let emma := mkBook "Emma" "Austen" "Novel" "3" false [] 4.5%float 2 in
  let lib := mkLibrary [dune; solaris; emma] None in
  generate_recommendations lib "U1" = Ok [emma; solaris]
  /\ exists ranked,
       [emma; solaris] = take 5 ranked
       /\ Permutation ranked (recommendable lib "U1")
       /\ StronglySorted
            (fun a b => flt (user_score lib "U1" b) (user_score lib "U1" a) = true)
            ranked.
Proof.
  intros dune solaris emma lib.
  pose proof (generate_recommendations_outcomes float binary64 binary64_order lib "U1")
    as Hcases.
  assert (E : generate_recommendations lib "U1" = Ok [emma; solaris])
    by (vm_compute; reflexivity).
  rewrite E in Hcases. split; [exact E|exact Hcases].
Defined.

(** X18. A list [generate_recommendations] returns holds at most five
    books, no book twice, each of them a book of the catalog that is
    available and has a positive score; when at most five books are
    available with a positive score it holds them all. *)
Theorem generate_recommendations_sound (F : Type) (PF : PyFloat F)
    (PO : PyFloatOrder F) (lib : Library F) (user : string) (r : list (Book F)) :
  generate_recommendations lib user = Ok r ->
  (length r <= 5)%nat
  /\ NoDup r
  /\ (forall b, In b r ->
        In b (books lib) /\ is_borrowed b = false
        /\ flt (of_int 0) (user_score lib user b) = true)
  /\ ((length (recommendable lib user) <= 5)%nat ->
      Permutation r (recommendable lib user)).
Proof.
  intros Hr. pose proof (generate_recommendations_cases lib user) as Hcases.
  rewrite Hr in Hcases. destruct Hcases as (ranked & -> & Hperm & Hs).
  split; [rewrite length_take; lia|]. split.
  - apply (sublist_NoDup (take 5 ranked) ranked); [|apply sublist_take].
    apply (StronglySorted_NoDup
             (fun a b => flt (user_score lib user b) (user_score lib user a) = true));
      [|exact Hs].
    intros x. now rewrite flt_irrefl.
  - split.
    + intros b Hb. apply In_take in Hb. apply (Permutation_in _ Hperm) in Hb.
      apply filter_In in Hb as [Hb Hok]. apply andb_true_iff in Hok as [Hav Hpos].
      apply negb_true_iff in Hav. auto.
    + intros Hlen. rewrite <- (Permutation_length Hperm) in Hlen.
      now rewrite take_ge.
Qed.

(** The recommendation for U1 above: two books, both available. *)
Lemma generate_recommendations_sound_witness :
  let dune := mkBook "Dune" "Herbert" "Sci-Fi" "1" true
                [mkBorrowRecord "U1" "2024-02-01T10:00:00" None] 4%float 1 in
  let solaris := mkBook "Solaris" "Lem" "Sci-Fi" "2" false [] 0%float 0 in
  let emma := mkBook "Emma" "Austen" "Novel" "3" false [] 4.5%float 2 in
  let lib := mkLibrary [dune; solaris; emma] None in
  generate_recommendations lib "U1" = Ok [emma; solaris]
  /\ NoDup [emma; solaris]
  /\ Permutation [emma; solaris] (recommendable lib "U1").
Proof.
  intros dune solaris emma lib.
  assert (E : generate_recommendations lib "U1" = Ok [emma; solaris])
    by (vm_compute; reflexivity).
  destruct (generate_recommendations_sound float binary64 binary64_order lib "U1"
              [emma; solaris] E) as (_ & Hnd & _ & Hall).
  split; [exact E|]. split; [exact Hnd|]. apply Hall. vm_compute. lia.
Defined.

(** X19. Choice 7 of [main] prints that no recommendations are available
    exactly when no available book has a positive score for the user:
    then, and only then, [generate_recommendations] returns the empty
    list. *)
Theorem choice_recommend_none (F : Type) (PF : PyFloat F) (PO : PyFloatOrder F)
    (s : Session F) (line : string) :
  current_user s <> "" ->
  ((choice_recommend s line).2 = Some (Ok [])
   <-> recommendable (library s) (current_user s) = []).
Proof.
  intros Huser. unfold choice_recommend.
  apply String.eqb_neq in Huser. rewrite Huser. cbn [snd].
  pose proof (generate_recommendations_cases (library s) (current_user s)) as Hcases.
  split.
  - intros [= Hr]. rewrite Hr in Hcases. destruct Hcases as (ranked & Ht & Hperm & _).
    destruct ranked as [|x ranked]; [|discriminate Ht].
    now apply Permutation_nil in Hperm.
  - intros Hnone. rewrite Hnone in Hcases.
    destruct (generate_recommendations (library s) (current_user s)) as [r|e].
    + destruct Hcases as (ranked & -> & Hperm & _).
      apply Permutation_sym, Permutation_nil in Hperm. now rewrite Hperm.
    + destruct Hcases as (_ & [|? ?] & ? & ? & ? & ? & E & _); discriminate E.
Qed.

(** A library without ratings and a user who has borrowed nothing: every
    score is 0.0, and no book is recommended. *)
Lemma choice_recommend_none_witness :
  let dune := mkBook "Dune" "Herbert" "Sci-Fi" "1" false [] 0%float 0 in
  let emma := mkBook "Emma" "Austen" "Novel" "2" false [] 0%float 0 in
  let s := mkSession (mkLibrary [dune; emma] None) "U1" in
  current_user s <> ""
  /\ recommendable (library s) (current_user s) = []
  /\ (choice_recommend s "").2 = Some (Ok []).
Proof.
  intros dune emma s.
  assert (Huser : current_user s <> "") by discriminate.
  assert (Hnone : recommendable (library s) (current_user s) = [])
    by (vm_compute; reflexivity).
  split; [exact Huser|]. split; [exact Hnone|].
  apply (choice_recommend_none float binary64 binary64_order s "" Huser). exact Hnone.
Defined.

(** ** The loop of [main] *)

Section MenuFacts.
Context {F : Type} `{PyFloat F}.

Lemma lookup_by_id_Some (l : list (Book F)) (id : string) (k : nat) (b : Book F) :
  lookup_by_id l id = Some (k, b) -> l !! k = Some b /\ book_id b = id.
Proof.
  revert k. induction l as [|x l IH]; intros k; cbn [lookup_by_id]; [discriminate|].
  destruct (String.eqb_spec (book_id x) id) as [E|E].
  - intros [= <- <-]. now split.
  - destruct (lookup_by_id l id) as [[k' b']|]; [|discriminate].
    intros [= <- <-]. now apply IH.
Qed.

Lemma lookup_by_id_find (l : list (Book F)) (id : string) :
  List.find (fun b => String.eqb (book_id b) id) l = snd <$> lookup_by_id l id.
Proof.
  induction l as [|x l IH]; cbn [List.find lookup_by_id]; [reflexivity|].
  destruct (String.eqb (book_id x) id); [reflexivity|].
  rewrite IH. now destruct (lookup_by_id l id) as [[k b]|].
Qed.

Lemma find_by_id_lookup (lib : Library F) (id : string) (b : Book F) :
  find_by_id lib id = Some b -> exists k, lookup_by_id (books lib) id = Some (k, b).
Proof.
  unfold find_by_id. rewrite lookup_by_id_find.
  destruct (lookup_by_id (books lib) id) as [[k b']|]; [|discriminate].
  intros [= <-]. now exists k.
Qed.

Lemma lookup_by_id_insert (l : list (Book F)) (id : string) (k : nat) (b b' : Book F) :
  lookup_by_id l id = Some (k, b) -> book_id b' = id ->
  lookup_by_id (<[k := b']> l) id = Some (k, b').
Proof.
  revert k. induction l as [|x l IH]; intros k; cbn [lookup_by_id]; [discriminate|].
  destruct (String.eqb_spec (book_id x) id) as [E|E].
  - intros [= <- <-] Hb'. change (<[0%nat := b']> (x :: l)) with (b' :: l).
    cbn [lookup_by_id]. now rewrite Hb', String.eqb_refl.
  - destruct (lookup_by_id l id) as [[k' b0]|] eqn:El; [|discriminate].
    intros [= <- <-] Hb'. change (<[S k' := b']> (x :: l)) with (x :: <[k' := b']> l).
    cbn [lookup_by_id].
    destruct (String.eqb_spec (book_id x) id) as [E'|_]; [contradiction|].
    now rewrite (IH k' eq_refl Hb').
Qed.

Lemma map_insert_same {B : Type} (f : Book F -> B) (l : list (Book F)) (k : nat)
    (b b' : Book F) :
  l !! k = Some b -> f b' = f b -> map f (<[k := b']> l) = map f l.
Proof.
  revert k. induction l as [|x l IH]; intros [|k]; try discriminate.
  - intros [= ->] Hf. change (<[0%nat := b']> (b :: l)) with (b' :: l).
    cbn [map]. now rewrite Hf.
  - intros Hk Hf. change (<[S k := b']> (x :: l)) with (x :: <[k := b']> l).
    cbn [map]. now rewrite (IH k Hk Hf).
Qed.

Lemma identity_borrow (b : Book F) user now : identity (borrow b user now).1 = identity b.
Proof. unfold borrow. now destruct (is_borrowed b). Qed.

Lemma identity_return_book (b : Book F) now : identity (return_book b now).1 = identity b.
Proof. unfold return_book. now destruct (is_borrowed b). Qed.

Lemma identity_add_rating (b b' : Book F) r : add_rating b r = Ok b' -> identity b' = identity b.
Proof.
  intros [->|(_ & _ & _ & _ & ->)]%add_rating_Ok; reflexivity.
Qed.

Lemma add_book_library (lib lib' : Library F) t a g i line :
  add_book lib t a g i = Ok (lib', line) ->
  lib' = lib
  \/ exists b, lib' = save_books (mkLibrary (books lib ++ [b]) (data_file lib)).
Proof.
  unfold add_book, add_book_try.
  destruct (negb (forallb truthy [t; a; g; i])); [intros [= <- _]; now left|].
  destruct (existsb _ (books lib)); [intros [= <- _]; now left|].
  intros [= <- _]. right. eauto.
Qed.

Lemma add_book_never_raises (lib : Library F) t a g i :
  exists lib' line, add_book lib t a g i = Ok (lib', line).
Proof.
  unfold add_book, add_book_try.
  destruct (negb (forallb truthy [t; a; g; i])); [eauto|].
  destruct (existsb _ (books lib)); eauto.
Qed.

(** What an iteration makes of the library: nothing, or one book replaced
    by a book with the same identity and the file written, or one book
    appended and the file written. *)
Lemma menu_iteration_cases (s : Session F) (r : Request F) :
  library (menu_iteration s r) = library s
  \/ (exists k b b',
        books (library s) !! k = Some b /\ identity b' = identity b
        /\ library (menu_iteration s r) = save_books (set_book (library s) k b'))
  \/ (exists b,
        library (menu_iteration s r)
        = save_books (mkLibrary (books (library s) ++ [b]) (data_file (library s)))).
Proof.
  destruct r as [t a g i|c term|line now|line now| |line rating|line|line];
    cbn [menu_iteration]; try (now left).
  - unfold choice_add.
    destruct (add_book (library s) (Some t) (Some a) (Some g) (Some i))
      as [[lib' msg]|e] eqn:E; cbn; [|now left].
    destruct (add_book_library _ _ _ _ _ _ _ E) as [->|Hnew]; auto.
  - unfold choice_borrow. destruct (String.eqb (current_user s) ""); [now left|].
    destruct (lookup_by_id (books (library s)) line) as [[k b]|] eqn:E; [|now left].
    apply lookup_by_id_Some in E as [Hk _].
    pose proof (identity_borrow b (current_user s) now) as Hid.
    destruct (borrow b (current_user s) now) as [b' [|]]; cbn; [|now left].
    right. left. exists k, b, b'. auto.
  - unfold choice_return.
    destruct (lookup_by_id (books (library s)) line) as [[k b]|] eqn:E; [|now left].
    apply lookup_by_id_Some in E as [Hk _].
    pose proof (identity_return_book b now) as Hid.
    destruct (return_book b now) as [b' [|]]; cbn; [|now left].
    right. left. exists k, b, b'. auto.
  - unfold choice_rate.
    destruct (lookup_by_id (books (library s)) line) as [[k b]|] eqn:E; [|now left].
    apply lookup_by_id_Some in E as [Hk _].
    destruct rating as [r|]; [|now left].
    destruct (fle (of_int 1) r && fle r (of_int 5)); [|now left].
    destruct (add_rating b r) as [b'|e] eqn:Hadd; cbn; [|now left].
    right. left. exists k, b, b'. eauto using identity_add_rating.
  - unfold choice_recommend. destruct (String.eqb (current_user s) ""); now left.
Qed.

Lemma menu_iteration_reachable (s : Session F) (r : Request F) :
  reachable (library s) -> reachable (library (menu_iteration s r)).
Proof.
  intros Hs.
  destruct r as [t a g i|c term|line now|line now| |line rating|line|line];
    cbn [menu_iteration]; try exact Hs.
  - unfold choice_add.
    destruct (add_book (library s) (Some t) (Some a) (Some g) (Some i))
      as [[lib' msg]|e] eqn:E; cbn; [|exact Hs].
    exact (reachable_step _ _ Hs (step_add_book _ _ _ _ _ _ _ E)).
  - unfold choice_borrow. destruct (String.eqb (current_user s) ""); [exact Hs|].
    destruct (lookup_by_id (books (library s)) line) as [[k b]|] eqn:E; [|exact Hs].
    apply lookup_by_id_Some in E as [Hk _].
    pose proof (step_borrow (library s) k b (current_user s) now Hk) as Hstep.
    destruct (borrow b (current_user s) now) as [b' [|]]; cbn; [|exact Hs].
    eapply reachable_step; [|apply step_save_books].
    exact (reachable_step _ _ Hs Hstep).
  - unfold choice_return.
    destruct (lookup_by_id (books (library s)) line) as [[k b]|] eqn:E; [|exact Hs].
    apply lookup_by_id_Some in E as [Hk _].
    pose proof (step_return_book (library s) k b now Hk) as Hstep.
    destruct (return_book b now) as [b' [|]]; cbn; [|exact Hs].
    eapply reachable_step; [|apply step_save_books].
    exact (reachable_step _ _ Hs Hstep).
  - unfold choice_rate.
    destruct (lookup_by_id (books (library s)) line) as [[k b]|] eqn:E; [|exact Hs].
    apply lookup_by_id_Some in E as [Hk _].
    destruct rating as [r|]; [|exact Hs].
    destruct (fle (of_int 1) r && fle r (of_int 5)); [|exact Hs].
    destruct (add_rating b r) as [b'|e] eqn:Hadd; cbn; [|exact Hs].
    eapply reachable_step; [|apply step_save_books].
    exact (reachable_step _ _ Hs (step_add_rating _ _ _ _ _ Hk Hadd)).
  - unfold choice_recommend. destruct (String.eqb (current_user s) ""); exact Hs.
Qed.

Lemma run_menu_cons (s : Session F) (r : Request F) (rs : list (Request F)) :
  run_menu s (r :: rs) = run_menu (menu_iteration s r) rs.
Proof. reflexivity. Qed.

Lemma run_menu_reachable (s : Session F) (rs : list (Request F)) :
  reachable (library s) -> reachable (library (run_menu s rs)).
Proof.
  revert s. induction rs as [|r rs IH]; intros s Hs; [exact Hs|].
  rewrite run_menu_cons. now apply IH, menu_iteration_reachable.
Qed.

Lemma first_run_reachable (user : string) (rs : list (Request F)) :
  reachable (library (run_menu (first_run user) rs)).
Proof. apply run_menu_reachable. exact (reachable_empty None). Qed.

(** No iteration rates a book more than once, and none takes a rating
    away. *)
Lemma menu_iteration_counts (s : Session F) (r : Request F) (n : Z) :
  0 <= n ->
  (forall b, In b (books (library s)) -> 0 <= num_ratings b <= n) ->
  forall b, In b (books (library (menu_iteration s r))) ->
    0 <= num_ratings b <= n + 1.
Proof.
  intros Hn0 Hs.
  assert (Hs' : forall b, In b (books (library s)) -> 0 <= num_ratings b <= n + 1).
  { intros b Hb. specialize (Hs b Hb). lia. }
  destruct r as [t a g i|c term|line now|line now| |line rating|line|line];
    cbn [menu_iteration]; try exact Hs'.
  - unfold choice_add.
    destruct (add_book (library s) (Some t) (Some a) (Some g) (Some i))
      as [[lib' msg]|e] eqn:E; cbn; [|exact Hs'].
    destruct (add_book_books _ _ _ _ _ _ _ E) as [->|(t' & a' & g' & i' & -> & _)];
      [exact Hs'|].
    intros b [Hb|[<-|[]]]%in_app_iff; [now apply Hs'|cbn; lia].
  - unfold choice_borrow. destruct (String.eqb (current_user s) ""); [exact Hs'|].
    destruct (lookup_by_id (books (library s)) line) as [[k b]|] eqn:E; [|exact Hs'].
    apply lookup_by_id_Some in E as [Hk%lookup_In _].
    pose proof (count_ok_borrow b (current_user s) now) as Hcount.
    assert (Hn : num_ratings (borrow b (current_user s) now).1 = num_ratings b)
      by (unfold borrow; now destruct (is_borrowed b)).
    destruct (borrow b (current_user s) now) as [b' [|]]; cbn; [|exact Hs'].
    intros x [->|Hx]%In_insert; [|now apply Hs'].
    cbn in Hn. rewrite Hn. now apply Hs'.
  - unfold choice_return.
    destruct (lookup_by_id (books (library s)) line) as [[k b]|] eqn:E; [|exact Hs'].
    apply lookup_by_id_Some in E as [Hk%lookup_In _].
    assert (Hn : num_ratings (return_book b now).1 = num_ratings b)
      by (unfold return_book; now destruct (is_borrowed b)).
    destruct (return_book b now) as [b' [|]]; cbn; [|exact Hs'].
    intros x [->|Hx]%In_insert; [|now apply Hs'].
    cbn in Hn. rewrite Hn. now apply Hs'.
  - unfold choice_rate.
    destruct (lookup_by_id (books (library s)) line) as [[k b]|] eqn:E; [|exact Hs'].
    apply lookup_by_id_Some in E as [Hk%lookup_In _].
    destruct rating as [r|]; [|exact Hs'].
    destruct (fle (of_int 1) r && fle r (of_int 5)); [|exact Hs'].
    destruct (add_rating b r) as [b'|e] eqn:Hadd; cbn; [|exact Hs'].
    intros x [->|Hx]%In_insert; [|now apply Hs'].
    specialize (Hs b Hk).
    destruct (add_rating_Ok _ _ _ Hadd) as [->|(_ & _ & _ & _ & ->)]; cbn; lia.
  - unfold choice_recommend. destruct (String.eqb (current_user s) ""); exact Hs'.
Qed.

Lemma run_menu_counts (s : Session F) (rs : list (Request F)) (n : Z) :
  0 <= n ->
  (forall b, In b (books (library s)) -> 0 <= num_ratings b <= n) ->
  forall b, In b (books (library (run_menu s rs))) ->
    0 <= num_ratings b <= n + Z.of_nat (length rs).
Proof.
  revert s n. induction rs as [|r rs IH]; intros s n Hn0 Hs.
  - intros b Hb. specialize (Hs b Hb). cbn [length]. lia.
  - rewrite run_menu_cons. intros b Hb.
    pose proof (IH _ (n + 1) ltac:(lia) (menu_iteration_counts s r n Hn0 Hs) b Hb).
    cbn [length]. lia.
Qed.

Lemma in_sync_restart (lib : Library F) :
  in_sync lib -> new_Library (data_file lib) = Ok lib.
Proof.
  unfold in_sync. destruct lib as [bs file]. cbn [data_file books]. intros ->.
  unfold new_Library, load_books. cbn [data_file]. now rewrite from_dicts_to_dicts.
Qed.

End MenuFacts.

(** X20. Borrowing and returning through the menu: when a user is logged
    in and the first book with the id is available, choice 3 followed by
    choice 4 with that id leaves the book available with one more history
    entry, closed, naming the user and the two dates; no other book
    changes and the file holds the new catalog. *)
Theorem menu_borrow_then_return (F : Type) (PF : PyFloat F) (s : Session F)
    (id t1 t2 : string) (b : Book F) :
  current_user s <> "" ->
  find_by_id (library s) id = Some b ->
  is_borrowed b = false ->
  exists k,
    books (library s) !! k = Some b
    /\ library (run_menu s [Borrow id t1; Return id t2])
       = save_books
           (set_book (library s) k
              (mkBook (title b) (author b) (genre b) (book_id b) false
                 (borrow_history b ++ [mkBorrowRecord (current_user s) t1 (Some t2)])
                 (rating b) (num_ratings b))).
Proof.
  intros Huser Hfind Hav.
  destruct (find_by_id_lookup _ _ _ Hfind) as [k Hlook]. exists k.
  destruct (lookup_by_id_Some _ _ _ _ Hlook) as [Hk Hid]. split; [exact Hk|].
  apply String.eqb_neq in Huser.
  unfold run_menu. cbn [fold_left menu_iteration].
  unfold choice_borrow at 1. rewrite Huser, Hlook. unfold borrow. rewrite Hav.
  cbn [negb fst snd]. unfold choice_return.
  cbn [library current_user save_books set_book books data_file].
  rewrite (lookup_by_id_insert _ _ _ _
             (mkBook (title b) (author b) (genre b) (book_id b) true
                (borrow_history b ++ [mkBorrowRecord (current_user s) t1 None])
                (rating b) (num_ratings b)) Hlook Hid).
  unfold return_book. cbn [is_borrowed borrow_history fst snd title author genre book_id
                           rating num_ratings library].
  destruct (borrow_history b ++ [mkBorrowRecord (current_user s) t1 None])
    as [|e h] eqn:Eh; [now destruct (borrow_history b)|].
  rewrite <- Eh, set_last_return_app.
  unfold save_books, set_book. cbn [books data_file user_id borrow_date].
  rewrite list_insert_insert. now destruct (decide (k = k)).
Qed.

(** U1 borrows "Dune" at 10:00 and returns it at 11:00. *)
Lemma menu_borrow_then_return_witness :
  let dune := mkBook "Dune" "Herbert" "Sci-Fi" "1" false [] 4%float 1 in
  let emma := mkBook "Emma" "Austen" "Novel" "2" false [] 0%float 0 in
  let s := mkSession (mkLibrary [emma; dune] None) "U1" in
  current_user s <> "" /\ find_by_id (library s) "1" = Some dune
  /\ is_borrowed dune = false
  /\ exists k,
       books (library s) !! k = Some dune
       /\ library (run_menu s [Borrow "1" "10:00"; Return "1" "11:00"])
          = save_books
              (set_book (library s) k
                 (mkBook "Dune" "Herbert" "Sci-Fi" "1" false
                    [mkBorrowRecord "U1" "10:00" (Some "11:00")] 4%float 1)).
Proof.
  intros dune emma s.
  assert (Huser : current_user s <> "") by discriminate.
  assert (Hfind : find_by_id (library s) "1" = Some dune) by reflexivity.
  assert (Hav : is_borrowed dune = false) by reflexivity.
  split; [exact Huser|]. split; [exact Hfind|]. split; [exact Hav|].
  exact (menu_borrow_then_return float binary64 s "1" "10:00" "11:00" dune
           Huser Hfind Hav).
Defined.

(** X21. No run of the menu removes a book, reorders the catalog or
    changes the id, title, author or genre of a book: the identities of
    the books before the run are a prefix of those after it. *)
Theorem run_menu_keeps_books (F : Type) (PF : PyFloat F) (s : Session F)
    (rs : list (Request F)) :
  map identity (books (library s))
    `prefix_of` map identity (books (library (run_menu s rs))).
Proof.
  revert s. induction rs as [|r rs IH]; intros s; [reflexivity|].
  rewrite run_menu_cons. etransitivity; [|apply IH].
  destruct (menu_iteration_cases s r)
    as [->|[(k & b & b' & Hk & Hid & ->)|(b & ->)]].
  - reflexivity.
  - cbn [save_books set_book books]. now rewrite (map_insert_same identity _ _ _ _ Hk Hid).
  - cbn [save_books books]. rewrite map_app. now apply prefix_app_r.
Qed.

(** X22. After any run of the menu the library is the one the run started
    with, or the data file holds the dictionaries of its books, and then a
    restart of the program, which loads the file, gives the same library
    back. *)
Theorem run_menu_persists (F : Type) (PF : PyFloat F) (s : Session F)
    (rs : list (Request F)) :
  library (run_menu s rs) = library s
  \/ (in_sync (library (run_menu s rs))
      /\ new_Library (data_file (library (run_menu s rs)))
         = Ok (library (run_menu s rs))).
Proof.
  assert (Hsync : forall (s : Session F) rs,
            library (run_menu s rs) = library s \/ in_sync (library (run_menu s rs))).
  { clear s rs. intros s rs. revert s.
    induction rs as [|r rs IH]; intros s; [now left|].
    rewrite run_menu_cons. destruct (IH (menu_iteration s r)) as [->|Hs]; [|now right].
    destruct (menu_iteration_cases s r)
      as [->|[(k & b & b' & _ & _ & ->)|(b & ->)]]; [now left| |]; right; reflexivity. }
  destruct (Hsync s rs) as [E|Hs]; [now left|].
  right. split; [exact Hs|now apply in_sync_restart].
Qed.

(** X23. Whatever the user does in the menu of a first run, the library
    satisfies the invariants of the data model: in any float arithmetic
    the ids are unique, a book without ratings has rating 0, the last
    history entry is open exactly when the book is borrowed and at most
    one entry is open; in binary64 the rating of a book rated at most
    [max_exact_count] times is in the range as well. *)
Theorem run_menu_keeps_invariants :
  (forall (F : Type) (PF : PyFloat F) (user : string) (rs : list (Request F)),
      structure_invariants (library (run_menu (first_run user) rs)))
  /\ (forall (user : string) (rs : list (Request float)),
        store_invariants_upto (library (run_menu (first_run user) rs))).
Proof.
  split.
  - intros F PF user rs. apply books_ok_structure.
    exact (books_satisfy_reachable book_ok book_ok_new book_ok_borrow
             book_ok_return_book book_ok_add_rating _ (first_run_reachable user rs)).
  - intros user rs. apply books_ok_binary64_invariants.
    exact (books_satisfy_reachable book_ok_binary64 book_ok_binary64_new
             book_ok_binary64_borrow book_ok_binary64_return_book
             book_ok_binary64_add_rating _ (first_run_reachable user rs)).
Qed.

(** X24. In a first run the choices 1, 3 and 4 never end in the handler
    of the loop that prints that an error occurred, and neither does
    choice 6 as long as the number of requests made so far, plus one, can
    be made a float: [add_book] catches its own errors, no book the menu
    can build has the count of ratings -1 at which [add_rating] divides by
    zero, and no book has more ratings than requests were made. *)
Theorem first_run_never_fails (F : Type) (PF : PyFloat F) (user : string)
    (rs : list (Request F)) :
  let s := run_menu (first_run user) rs in
  (forall t a g i e, ~ In (ErrorOccurred e) (choice_add s t a g i).2)
  /\ (forall line now e, ~ In (ErrorOccurred e) (choice_borrow s line now).2)
  /\ (forall line now e, ~ In (ErrorOccurred e) (choice_return s line now).2)
  /\ ((forall n, 0 <= n <= Z.of_nat (length rs) + 1 -> fits n = true) ->
      forall line rating e, ~ In (ErrorOccurred e) (choice_rate s line rating).2).
Proof.
  intros s. split; [|split; [|split]].
  - intros t a g i e. unfold choice_add.
    destruct (add_book_never_raises (library s) (Some t) (Some a) (Some g) (Some i))
      as (lib' & msg & ->).
    cbn. intros [[=]|[]].
  - intros line now e. unfold choice_borrow, login.
    destruct (String.eqb (current_user s) ""); [cbn; intros [[=]|[[=]|[]]]|].
    destruct (lookup_by_id (books (library s)) line) as [[k b]|];
      [|cbn; intros [[=]|[]]].
    destruct (borrow b (current_user s) now) as [b' [|]]; cbn; intros [[=]|[]].
  - intros line now e. unfold choice_return.
    destruct (lookup_by_id (books (library s)) line) as [[k b]|];
      [|cbn; intros [[=]|[]]].
    destruct (return_book b now) as [b' [|]]; cbn; intros [[=]|[]].
  - intros Hfits line rating e. unfold choice_rate.
    destruct (lookup_by_id (books (library s)) line) as [[k b]|] eqn:E;
      [|cbn; intros [[=]|[]]].
    apply lookup_by_id_Some in E as [Hk _]. apply lookup_In in Hk.
    destruct rating as [r|]; [|cbn; intros [[=]|[]]].
    destruct (fle (of_int 1) r && fle r (of_int 5)) eqn:Hr; [|cbn; intros [[=]|[]]].
    assert (Hn : 0 <= num_ratings b <= 0 + Z.of_nat (length rs)).
    { apply (run_menu_counts (first_run user) rs 0); [lia|intros ? []|exact Hk]. }
    rewrite (add_rating_in_range b r Hr) by (try apply Hfits; lia).
    cbn. intros [[=]|[]].
Qed.

(** "Dune" is added and rated twice: a third rating raises nothing. *)
Lemma first_run_never_fails_witness :
  let rs := [Add "Dune" "Herbert" "Sci-Fi" "1"; Rate "1" (Some 3%float);
             Rate "1" (Some 5%float)] in
  let s := run_menu (first_run (F := float) "U1") rs in
  (forall n, 0 <= n <= Z.of_nat (length rs) + 1 -> fits n = true)
  /\ map (fun b => (rating b, num_ratings b)) (books (library s)) = [(4%float, 2)]
  /\ forall line rating e, ~ In (ErrorOccurred e) (choice_rate s line rating).2.
Proof.
  intros rs s.
  assert (Hfits : forall n, 0 <= n <= Z.of_nat (length rs) + 1 -> fits n = true).
  { intros n Hn. apply fits_small. cbn in Hn. lia. }
  split; [exact Hfits|]. split; [reflexivity|].
  exact (proj2 (proj2 (proj2 (first_run_never_fails float binary64 "U1" rs))) Hfits).
Defined.

(** X25. Choice 6 either prints that the rating was added, having
    replaced the first book with the id by the book with the new mean and
    one more rating and written the file, or prints something else and
    leaves the session as it was; the call of [add_rating] that changes
    nothing is never reached from the menu, which checks the range
    first. *)
Theorem choice_rate_outcomes (F : Type) (PF : PyFloat F) (s : Session F)
    (line : string) (rating' : option F) :
  ((choice_rate s line rating').2 = [Text "Rating added successfully."]
   /\ exists k b r,
        books (library s) !! k = Some b /\ find_by_id (library s) line = Some b
        /\ rating' = Some r
        /\ fle (of_int 1) r && fle r (of_int 5) = true
        /\ (choice_rate s line rating').1
           = mkSession
               (save_books
                  (set_book (library s) k
                     (mkBook (title b) (author b) (genre b) (book_id b)
                        (is_borrowed b) (borrow_history b)
                        (fdiv (fadd (fmul (rating b) (of_int (num_ratings b))) r)
                              (of_int (num_ratings b + 1)))
                        (num_ratings b + 1))))
               (current_user s))
  \/ ((choice_rate s line rating').1 = s
      /\ (choice_rate s line rating').2 <> [Text "Rating added successfully."]).
Proof.
  unfold choice_rate, find_by_id. rewrite lookup_by_id_find.
  destruct (lookup_by_id (books (library s)) line) as [[k b]|] eqn:E;
    [|right; split; [reflexivity|discriminate]].
  apply lookup_by_id_Some in E as [Hk _].
  destruct rating' as [r|]; [|right; split; [reflexivity|discriminate]].
  destruct (fle (of_int 1) r && fle r (of_int 5)) eqn:Hr;
    [|right; split; [reflexivity|discriminate]].
  rewrite add_rating_cases, Hr.
  destruct (negb (fits (num_ratings b)) || negb (fits (num_ratings b + 1)));
    [right; split; [reflexivity|discriminate]|].
  destruct (num_ratings b =? -1); cbn [fst snd];
    [right; split; [reflexivity|discriminate]|].
  left. split; [reflexivity|]. exists k, b, r. auto.
Qed.

(** ** The averages of [Library.visualize_statistics] *)

Section AverageFacts.
Context {F : Type} `{PyFloat F}.
Variable py_sum : list F -> F.

Lemma avg_ratings_lookup (stats : Stats F) :
  (forall g l, ratings stats !! g = Some l -> fits (Z.of_nat (length l)) = true) ->
  exists avg,
    avg_ratings py_sum stats = Ok avg
    /\ forall g,
         avg !! g
         = match ratings stats !! g with
           | Some (x :: l) =>
               Some (fdiv (py_sum (x :: l)) (of_int (Z.of_nat (length (x :: l)))))
           | _ => None
           end.
Proof.
  unfold avg_ratings.
  apply (map_fold_weak_ind (fun (r : result (gmap string F)) m =>
    (forall g l, m !! g = Some l -> fits (Z.of_nat (length l)) = true) ->
    exists avg, r = Ok avg
      /\ forall g, avg !! g
           = match m !! g with
             | Some (x :: l) =>
                 Some (fdiv (py_sum (x :: l)) (of_int (Z.of_nat (length (x :: l)))))
             | _ => None
             end)).
  - intros _. exists ∅. split; [reflexivity|]. intros g. now rewrite !lookup_empty.
  - intros i x m r Hi IH Hfits.
    destruct IH as (avg & -> & Havg).
    { intros g l Hg. apply (Hfits g). rewrite lookup_insert_ne; [exact Hg|].
      intros <-. congruence. }
    cbn [rbind]. destruct x as [|y l].
    + exists avg. split; [reflexivity|]. intros g.
      destruct (decide (g = i)) as [->|Hne].
      * now rewrite lookup_insert_eq, Havg, Hi.
      * now rewrite lookup_insert_ne by congruence.
    + unfold average, truediv, to_float.
      rewrite (Hfits i (y :: l)) by apply lookup_insert_eq. cbn [rbind].
      destruct (Z.eqb_spec (Z.of_nat (length (y :: l))) 0) as [E|_];
        [cbn [length] in E; lia|].
      cbn [rbind]. eexists. split; [reflexivity|]. intros g.
      destruct (decide (g = i)) as [->|Hne].
      * now rewrite !lookup_insert_eq.
      * rewrite !lookup_insert_ne by congruence. apply Havg.
Qed.

Lemma avg_ratings_books (l : list (Book F)) :
  (forall n, 0 <= n <= Z.of_nat (length l) -> fits n = true) ->
  exists avg,
    avg_ratings py_sum (stats_of l) = Ok avg
    /\ forall g,
         avg !! g
         = match rated_of_genre g l with
           | [] => None
           | bs => Some (fdiv (py_sum (map rating bs)) (of_int (Z.of_nat (length bs))))
           end.
Proof.
  intros Hfits.
  destruct (avg_ratings_lookup (stats_of l)) as (avg & Havg & Hlook).
  { intros g rs Hg. pose proof (ratings_lists l g) as Hl. rewrite Hg in Hl.
    change (rs = map rating (rated_of_genre g l)) in Hl.
    apply Hfits. rewrite Hl, length_map.
    pose proof (List.filter_length_le
                  (fun b => String.eqb (genre b) g && (0 <? num_ratings b)) l).
    unfold rated_of_genre. lia. }
  exists avg. split; [exact Havg|]. intros g. rewrite Hlook.
  pose proof (ratings_lists l g) as Hl. pose proof (ratings_absent l g) as Habs.
  destruct (ratings (stats_of l) !! g) as [rs|].
  - change (rs = map rating (rated_of_genre g l)) in Hl.
    destruct (rated_of_genre g l) as [|b bs] eqn:E.
    + destruct Habs as [_ Habs]. now specialize (Habs eq_refl).
    + rewrite Hl. cbn [map]. now rewrite <- (length_map rating (b :: bs)).
  - destruct Habs as [Habs _]. now rewrite (Habs eq_refl).
Qed.

End AverageFacts.

(** X26. The averages [visualize_statistics] computes, for a catalog
    whose number of books can be made a float: the division by the number
    of ratings never raises, a genre has an average exactly when one of
    its books has ratings, and the average is what the builtin [sum]
    makes of the ratings of its rated books, in catalog order, divided by
    their number. *)
Theorem avg_ratings_per_genre (F : Type) (PF : PyFloat F) (py_sum : list F -> F)
    (lib : Library F) :
  (forall n, 0 <= n <= Z.of_nat (length (books lib)) -> fits n = true) ->
  exists avg,
    avg_ratings py_sum (generate_statistics lib) = Ok avg
    /\ forall g,
         avg !! g
         = match rated_of_genre g (books lib) with
           | [] => None
           | bs => Some (fdiv (py_sum (map rating bs)) (of_int (Z.of_nat (length bs))))
           end.
Proof. apply avg_ratings_books. Qed.

(** "Dune" rated 4.5 twice and "Solaris" rated 2.0 once, both Sci-Fi, and
    "Emma", a novel nobody rated; the ratings added from the left, as
    CPython before 3.12 does: the only average is that of Sci-Fi, 3.25. *)
Lemma avg_ratings_per_genre_witness :
  let lib := mkLibrary
               [mkBook "Dune" "Herbert" "Sci-Fi" "1" false [] 4.5%float 2;
                mkBook "Emma" "Austen" "Novel" "2" false [] 0%float 0;
                mkBook "Solaris" "Lem" "Sci-Fi" "3" false [] 2%float 1] None in
  let py_sum := fun l : list float => fold_left PrimFloat.add l 0%float in
  (forall n, 0 <= n <= Z.of_nat (length (books lib)) -> fits n = true)
  /\ exists avg,
       avg_ratings py_sum (generate_statistics lib) = Ok avg
       /\ avg !! "Sci-Fi" = Some 3.25%float /\ avg !! "Novel" = None.
Proof.
  intros lib py_sum.
  assert (Hfits : forall n, 0 <= n <= Z.of_nat (length (books lib)) -> fits n = true).
  { intros n Hn. apply fits_small. cbn in Hn. lia. }
  split; [exact Hfits|].
  destruct (avg_ratings_per_genre float binary64 py_sum lib Hfits) as (avg & Havg & Hlook).
  exists avg. split; [exact Havg|]. split; rewrite Hlook; reflexivity.
Defined.
